(** * books_parser: a shallow embedding of the crawl engine

    The development follows [books_parser.py]: the retrying fetch
    ([make_request]), the card and detail-page extractors
    ([parse_book_card], [parse_book_detail_page]), the page walker
    ([scrape_page], the [while current_url] loop of [scrape_all_pages]) and
    the merge of the detail records into the url-indexed dictionary; and,
    of the modules it calls, [get_s3_config] and the filter of
    [filter_and_save_books].

    Conventions of the embedding:
    - a Python [str] is a [string]: a sequence of Unicode code points. The
      character classes ([\s], [\d], [str.isspace]), the digit values read
      by [int] and [float], [str.lower] and the letter matching of
      [re.IGNORECASE] are those of CPython 3.11 (Unicode 14.0.0), given by
      the tables of the module [Unicode].
    - [int] refuses a literal of more than 4300 digits (the default of
      [sys.set_int_max_str_digits]).
    - Python [float] values are exact rationals ([Q], kept reduced); rounding
      to binary64 and overflow are outside the model.
    - a record (a Python [dict] with string keys) is a [gmap string value];
      the url-indexed dictionary, whose insertion order is observable through
      [list(book_dict.values())], is an insertion-ordered association list.
    - [session.get] is an oracle answering each attempt with an [outcome];
      the completion order of the detail tasks and what each of them meets
      are parameters of the detailed pass.
    - logging, the response encoding and the pacing sleep between catalog
      pages have no part in the results and are left out. *)

From Stdlib Require Import ZArith NArith QArith Qminmax List Lia Permutation.
From stdpp Require Import gmap list fin_maps.

Open Scope Z_scope.

(** ** Strings *)

(** A character is its code point. *)
Definition char : Set := N.

Declare Scope chr_scope.
Delimit Scope chr_scope with char.
Bind Scope chr_scope with char.

Inductive string : Set :=
| EmptyString
| String (c : char) (s : string).

Declare Scope str_scope.
Delimit Scope str_scope with string.
Bind Scope str_scope with string.

(** The literals of this file are read as UTF-8. *)
Module Utf8.

Definition continuation (b : Byte.byte) : option N :=
  let n := Byte.to_N b in
  if ((128 <=? n) && (n <? 192))%N then Some (n - 128)%N else None.

Fixpoint decode (l : list Byte.byte) : option string :=
  match l with
  | [] => Some EmptyString
  | b :: l1 =>
      let n := Byte.to_N b in
      if (n <? 128)%N then option_map (String n) (decode l1)
      else if (n <? 192)%N then None
      else if (n <? 224)%N then
        match l1 with
        | b1 :: l2 =>
            match continuation b1 with
            | Some c1 => option_map (String ((n - 192) * 64 + c1)%N) (decode l2)
            | None => None
            end
        | _ => None
        end
      else if (n <? 240)%N then
        match l1 with
        | b1 :: b2 :: l3 =>
            match continuation b1, continuation b2 with
            | Some c1, Some c2 =>
                option_map (String (((n - 224) * 64 + c1) * 64 + c2)%N)
                  (decode l3)
            | _, _ => None
            end
        | _ => None
        end
      else
        match l1 with
        | b1 :: b2 :: b3 :: l4 =>
            match continuation b1, continuation b2, continuation b3 with
            | Some c1, Some c2, Some c3 =>
                option_map
                  (String ((((n - 240) * 64 + c1) * 64 + c2) * 64 + c3)%N)
                  (decode l4)
            | _, _, _ => None
            end
        | _ => None
        end
  end.

Definition byte (n : N) : Byte.byte := default Byte.x00 (Byte.of_N n).

Definition encode_char (c : N) : list Byte.byte :=
  if (c <? 128)%N then [byte c]
  else if (c <? 2048)%N then [byte (192 + c / 64); byte (128 + c mod 64)]%N
  else if (c <? 65536)%N then
    [byte (224 + c / 4096); byte (128 + (c / 64) mod 64);
     byte (128 + c mod 64)]%N
  else [byte (240 + c / 262144); byte (128 + (c / 4096) mod 64);
        byte (128 + (c / 64) mod 64); byte (128 + c mod 64)]%N.

Fixpoint encode (s : string) : list Byte.byte :=
  match s with
  | EmptyString => []
  | String c s' => (encode_char c ++ encode s')%list
  end.

Definition decode_char (l : list Byte.byte) : option N :=
  match decode l with
  | Some (String c EmptyString) => Some c
  | _ => None
  end.

End Utf8.

String Notation string Utf8.decode Utf8.encode : str_scope.
String Notation N Utf8.decode_char Utf8.encode_char : chr_scope.

Open Scope str_scope.

Module Char.

Definition eqb (a b : char) : bool := N.eqb a b.

End Char.

Module String.

Fixpoint eqb (a b : string) : bool :=
  match a, b with
  | EmptyString, EmptyString => true
  | String x a', String y b' => Char.eqb x y && eqb a' b'
  | _, _ => false
  end.

Fixpoint append (a b : string) : string :=
  match a with
  | EmptyString => b
  | String c a' => String c (append a' b)
  end.

Fixpoint length (a : string) : nat :=
  match a with
  | EmptyString => O
  | String _ a' => S (length a')
  end.

Fixpoint to_list (a : string) : list N :=
  match a with
  | EmptyString => []
  | String c a' => c :: to_list a'
  end.

Fixpoint of_list (l : list N) : string :=
  match l with
  | [] => EmptyString
  | c :: l' => String c (of_list l')
  end.

End String.

Infix "++" := String.append (right associativity, at level 60) : str_scope.

#[local] Arguments String.append : simpl nomatch.

#[global] Instance string_eq_dec : EqDecision string.
Proof. solve_decision. Defined.

#[global] Instance string_countable : Countable string.
Proof.
  refine (inj_countable' String.to_list String.of_list _).
  intros s. induction s as [|c s IH]; simpl; [reflexivity|now rewrite IH].
Defined.

Definition string_dec (a b : string) : {a = b} + {a <> b} := string_eq_dec a b.

(** ** The character database

    The tables of CPython 3.11 (Unicode 14.0.0) behind [str.isspace], [\s],
    [\d], [int], [float], [str.lower] and [re.IGNORECASE]. *)

Module Unicode.

(** [c.isspace()]; [\s] and [str.strip()] use the same class. *)
Definition whitespace : list N :=
  [0x9; 0xA; 0xB; 0xC; 0xD; 0x1C; 0x1D; 0x1E; 0x1F; 0x20; 0x85; 0xA0; 0x1680;
   0x2000; 0x2001; 0x2002; 0x2003; 0x2004; 0x2005; 0x2006; 0x2007; 0x2008;
   0x2009; 0x200A; 0x2028; 0x2029; 0x202F; 0x205F; 0x3000]%N.

(** The zero of each run of ten decimal digits (category [Nd]); the
    digits of a run follow their zero in order. *)
Definition decimal_zeros : list N :=
  [0x30; 0x660; 0x6F0; 0x7C0; 0x966; 0x9E6; 0xA66; 0xAE6; 0xB66; 0xBE6;
   0xC66; 0xCE6; 0xD66; 0xDE6; 0xE50; 0xED0; 0xF20; 0x1040; 0x1090; 0x17E0;
   0x1810; 0x1946; 0x19D0; 0x1A80; 0x1A90; 0x1B50; 0x1BB0; 0x1C40; 0x1C50;
   0xA620; 0xA8D0; 0xA900; 0xA9D0; 0xA9F0; 0xAA50; 0xABF0; 0xFF10; 0x104A0;
   0x10D30; 0x11066; 0x110F0; 0x11136; 0x111D0; 0x112F0; 0x11450; 0x114D0;
   0x11650; 0x116C0; 0x11730; 0x118E0; 0x11950; 0x11C50; 0x11D50; 0x11DA0;
   0x16A60; 0x16AC0; 0x16B50; 0x1D7CE; 0x1D7D8; 0x1D7E2; 0x1D7EC; 0x1D7F6;
   0x1E140; 0x1E2F0; 0x1E950; 0x1FBF0]%N.

(** The lower-case mapping of the characters it changes, [U+0130] apart:
    [(first, last, step, image)] stands for the characters [first],
    [first + step], ... up to [last]; [first] maps to [image] and each of
    the others to the character as far from it as [image] is from
    [first]. *)
Definition lowercase_runs : list (N * N * N * N) :=
  [(0x41, 0x5A, 1, 0x61); (0xC0, 0xD6, 1, 0xE0); (0xD8, 0xDE, 1, 0xF8);
   (0x100, 0x12E, 2, 0x101); (0x132, 0x136, 2, 0x133);
   (0x139, 0x147, 2, 0x13A); (0x14A, 0x176, 2, 0x14B);
   (0x178, 0x178, 1, 0xFF); (0x179, 0x17D, 2, 0x17A);
   (0x181, 0x181, 1, 0x253); (0x182, 0x184, 2, 0x183);
   (0x186, 0x186, 1, 0x254); (0x187, 0x187, 1, 0x188);
   (0x189, 0x18A, 1, 0x256); (0x18B, 0x18B, 1, 0x18C);
   (0x18E, 0x18E, 1, 0x1DD); (0x18F, 0x18F, 1, 0x259);
   (0x190, 0x190, 1, 0x25B); (0x191, 0x191, 1, 0x192);
   (0x193, 0x193, 1, 0x260); (0x194, 0x194, 1, 0x263);
   (0x196, 0x196, 1, 0x269); (0x197, 0x197, 1, 0x268);
   (0x198, 0x198, 1, 0x199); (0x19C, 0x19C, 1, 0x26F);
   (0x19D, 0x19D, 1, 0x272); (0x19F, 0x19F, 1, 0x275);
   (0x1A0, 0x1A4, 2, 0x1A1); (0x1A6, 0x1A6, 1, 0x280);
   (0x1A7, 0x1A7, 1, 0x1A8); (0x1A9, 0x1A9, 1, 0x283);
   (0x1AC, 0x1AC, 1, 0x1AD); (0x1AE, 0x1AE, 1, 0x288);
   (0x1AF, 0x1AF, 1, 0x1B0); (0x1B1, 0x1B2, 1, 0x28A);
   (0x1B3, 0x1B5, 2, 0x1B4); (0x1B7, 0x1B7, 1, 0x292);
   (0x1B8, 0x1B8, 1, 0x1B9); (0x1BC, 0x1BC, 1, 0x1BD);
   (0x1C4, 0x1C4, 1, 0x1C6); (0x1C5, 0x1C5, 1, 0x1C6);
   (0x1C7, 0x1C7, 1, 0x1C9); (0x1C8, 0x1C8, 1, 0x1C9);
   (0x1CA, 0x1CA, 1, 0x1CC); (0x1CB, 0x1DB, 2, 0x1CC);
   (0x1DE, 0x1EE, 2, 0x1DF); (0x1F1, 0x1F1, 1, 0x1F3);
   (0x1F2, 0x1F4, 2, 0x1F3); (0x1F6, 0x1F6, 1, 0x195);
   (0x1F7, 0x1F7, 1, 0x1BF); (0x1F8, 0x21E, 2, 0x1F9);
   (0x220, 0x220, 1, 0x19E); (0x222, 0x232, 2, 0x223);
   (0x23A, 0x23A, 1, 0x2C65); (0x23B, 0x23B, 1, 0x23C);
   (0x23D, 0x23D, 1, 0x19A); (0x23E, 0x23E, 1, 0x2C66);
   (0x241, 0x241, 1, 0x242); (0x243, 0x243, 1, 0x180);
   (0x244, 0x244, 1, 0x289); (0x245, 0x245, 1, 0x28C);
   (0x246, 0x24E, 2, 0x247); (0x370, 0x372, 2, 0x371);
   (0x376, 0x376, 1, 0x377); (0x37F, 0x37F, 1, 0x3F3);
   (0x386, 0x386, 1, 0x3AC); (0x388, 0x38A, 1, 0x3AD);
   (0x38C, 0x38C, 1, 0x3CC); (0x38E, 0x38F, 1, 0x3CD);
   (0x391, 0x3A1, 1, 0x3B1); (0x3A3, 0x3AB, 1, 0x3C3);
   (0x3CF, 0x3CF, 1, 0x3D7); (0x3D8, 0x3EE, 2, 0x3D9);
   (0x3F4, 0x3F4, 1, 0x3B8); (0x3F7, 0x3F7, 1, 0x3F8);
   (0x3F9, 0x3F9, 1, 0x3F2); (0x3FA, 0x3FA, 1, 0x3FB);
   (0x3FD, 0x3FF, 1, 0x37B); (0x400, 0x40F, 1, 0x450);
   (0x410, 0x42F, 1, 0x430); (0x460, 0x480, 2, 0x461);
   (0x48A, 0x4BE, 2, 0x48B); (0x4C0, 0x4C0, 1, 0x4CF);
   (0x4C1, 0x4CD, 2, 0x4C2); (0x4D0, 0x52E, 2, 0x4D1);
   (0x531, 0x556, 1, 0x561); (0x10A0, 0x10C5, 1, 0x2D00);
   (0x10C7, 0x10C7, 1, 0x2D27); (0x10CD, 0x10CD, 1, 0x2D2D);
   (0x13A0, 0x13EF, 1, 0xAB70); (0x13F0, 0x13F5, 1, 0x13F8);
   (0x1C90, 0x1CBA, 1, 0x10D0); (0x1CBD, 0x1CBF, 1, 0x10FD);
   (0x1E00, 0x1E94, 2, 0x1E01); (0x1E9E, 0x1E9E, 1, 0xDF);
   (0x1EA0, 0x1EFE, 2, 0x1EA1); (0x1F08, 0x1F0F, 1, 0x1F00);
   (0x1F18, 0x1F1D, 1, 0x1F10); (0x1F28, 0x1F2F, 1, 0x1F20);
   (0x1F38, 0x1F3F, 1, 0x1F30); (0x1F48, 0x1F4D, 1, 0x1F40);
   (0x1F59, 0x1F5F, 2, 0x1F51); (0x1F68, 0x1F6F, 1, 0x1F60);
   (0x1F88, 0x1F8F, 1, 0x1F80); (0x1F98, 0x1F9F, 1, 0x1F90);
   (0x1FA8, 0x1FAF, 1, 0x1FA0); (0x1FB8, 0x1FB9, 1, 0x1FB0);
   (0x1FBA, 0x1FBB, 1, 0x1F70); (0x1FBC, 0x1FBC, 1, 0x1FB3);
   (0x1FC8, 0x1FCB, 1, 0x1F72); (0x1FCC, 0x1FCC, 1, 0x1FC3);
   (0x1FD8, 0x1FD9, 1, 0x1FD0); (0x1FDA, 0x1FDB, 1, 0x1F76);
   (0x1FE8, 0x1FE9, 1, 0x1FE0); (0x1FEA, 0x1FEB, 1, 0x1F7A);
   (0x1FEC, 0x1FEC, 1, 0x1FE5); (0x1FF8, 0x1FF9, 1, 0x1F78);
   (0x1FFA, 0x1FFB, 1, 0x1F7C); (0x1FFC, 0x1FFC, 1, 0x1FF3);
   (0x2126, 0x2126, 1, 0x3C9); (0x212A, 0x212A, 1, 0x6B);
   (0x212B, 0x212B, 1, 0xE5); (0x2132, 0x2132, 1, 0x214E);
   (0x2160, 0x216F, 1, 0x2170); (0x2183, 0x2183, 1, 0x2184);
   (0x24B6, 0x24CF, 1, 0x24D0); (0x2C00, 0x2C2F, 1, 0x2C30);
   (0x2C60, 0x2C60, 1, 0x2C61); (0x2C62, 0x2C62, 1, 0x26B);
   (0x2C63, 0x2C63, 1, 0x1D7D); (0x2C64, 0x2C64, 1, 0x27D);
   (0x2C67, 0x2C6B, 2, 0x2C68); (0x2C6D, 0x2C6D, 1, 0x251);
   (0x2C6E, 0x2C6E, 1, 0x271); (0x2C6F, 0x2C6F, 1, 0x250);
   (0x2C70, 0x2C70, 1, 0x252); (0x2C72, 0x2C72, 1, 0x2C73);
   (0x2C75, 0x2C75, 1, 0x2C76); (0x2C7E, 0x2C7F, 1, 0x23F);
   (0x2C80, 0x2CE2, 2, 0x2C81); (0x2CEB, 0x2CED, 2, 0x2CEC);
   (0x2CF2, 0x2CF2, 1, 0x2CF3); (0xA640, 0xA66C, 2, 0xA641);
   (0xA680, 0xA69A, 2, 0xA681); (0xA722, 0xA72E, 2, 0xA723);
   (0xA732, 0xA76E, 2, 0xA733); (0xA779, 0xA77B, 2, 0xA77A);
   (0xA77D, 0xA77D, 1, 0x1D79); (0xA77E, 0xA786, 2, 0xA77F);
   (0xA78B, 0xA78B, 1, 0xA78C); (0xA78D, 0xA78D, 1, 0x265);
   (0xA790, 0xA792, 2, 0xA791); (0xA796, 0xA7A8, 2, 0xA797);
   (0xA7AA, 0xA7AA, 1, 0x266); (0xA7AB, 0xA7AB, 1, 0x25C);
   (0xA7AC, 0xA7AC, 1, 0x261); (0xA7AD, 0xA7AD, 1, 0x26C);
   (0xA7AE, 0xA7AE, 1, 0x26A); (0xA7B0, 0xA7B0, 1, 0x29E);
   (0xA7B1, 0xA7B1, 1, 0x287); (0xA7B2, 0xA7B2, 1, 0x29D);
   (0xA7B3, 0xA7B3, 1, 0xAB53); (0xA7B4, 0xA7C2, 2, 0xA7B5);
   (0xA7C4, 0xA7C4, 1, 0xA794); (0xA7C5, 0xA7C5, 1, 0x282);
   (0xA7C6, 0xA7C6, 1, 0x1D8E); (0xA7C7, 0xA7C9, 2, 0xA7C8);
   (0xA7D0, 0xA7D0, 1, 0xA7D1); (0xA7D6, 0xA7D8, 2, 0xA7D7);
   (0xA7F5, 0xA7F5, 1, 0xA7F6); (0xFF21, 0xFF3A, 1, 0xFF41);
   (0x10400, 0x10427, 1, 0x10428); (0x104B0, 0x104D3, 1, 0x104D8);
   (0x10570, 0x1057A, 1, 0x10597); (0x1057C, 0x1058A, 1, 0x105A3);
   (0x1058C, 0x10592, 1, 0x105B3); (0x10594, 0x10595, 1, 0x105BB);
   (0x10C80, 0x10CB2, 1, 0x10CC0); (0x118A0, 0x118BF, 1, 0x118C0);
   (0x16E40, 0x16E5F, 1, 0x16E60); (0x1E900, 0x1E921, 1, 0x1E922)]%N.

(** The characters with the property [Case_Ignorable]. *)
Definition case_ignorable : list (N * N) :=
  [(0x27, 0x27); (0x2E, 0x2E); (0x3A, 0x3A); (0x5E, 0x5E); (0x60, 0x60);
   (0xA8, 0xA8); (0xAD, 0xAD); (0xAF, 0xAF); (0xB4, 0xB4); (0xB7, 0xB8);
   (0x2B0, 0x36F); (0x374, 0x375); (0x37A, 0x37A); (0x384, 0x385);
   (0x387, 0x387); (0x483, 0x489); (0x559, 0x559); (0x55F, 0x55F);
   (0x591, 0x5BD); (0x5BF, 0x5BF); (0x5C1, 0x5C2); (0x5C4, 0x5C5);
   (0x5C7, 0x5C7); (0x5F4, 0x5F4); (0x600, 0x605); (0x610, 0x61A);
   (0x61C, 0x61C); (0x640, 0x640); (0x64B, 0x65F); (0x670, 0x670);
   (0x6D6, 0x6DD); (0x6DF, 0x6E8); (0x6EA, 0x6ED); (0x70F, 0x70F);
   (0x711, 0x711); (0x730, 0x74A); (0x7A6, 0x7B0); (0x7EB, 0x7F5);
   (0x7FA, 0x7FA); (0x7FD, 0x7FD); (0x816, 0x82D); (0x859, 0x85B);
   (0x888, 0x888); (0x890, 0x891); (0x898, 0x89F); (0x8C9, 0x902);
   (0x93A, 0x93A); (0x93C, 0x93C); (0x941, 0x948); (0x94D, 0x94D);
   (0x951, 0x957); (0x962, 0x963); (0x971, 0x971); (0x981, 0x981);
   (0x9BC, 0x9BC); (0x9C1, 0x9C4); (0x9CD, 0x9CD); (0x9E2, 0x9E3);
   (0x9FE, 0x9FE); (0xA01, 0xA02); (0xA3C, 0xA3C); (0xA41, 0xA42);
   (0xA47, 0xA48); (0xA4B, 0xA4D); (0xA51, 0xA51); (0xA70, 0xA71);
   (0xA75, 0xA75); (0xA81, 0xA82); (0xABC, 0xABC); (0xAC1, 0xAC5);
   (0xAC7, 0xAC8); (0xACD, 0xACD); (0xAE2, 0xAE3); (0xAFA, 0xAFF);
   (0xB01, 0xB01); (0xB3C, 0xB3C); (0xB3F, 0xB3F); (0xB41, 0xB44);
   (0xB4D, 0xB4D); (0xB55, 0xB56); (0xB62, 0xB63); (0xB82, 0xB82);
   (0xBC0, 0xBC0); (0xBCD, 0xBCD); (0xC00, 0xC00); (0xC04, 0xC04);
   (0xC3C, 0xC3C); (0xC3E, 0xC40); (0xC46, 0xC48); (0xC4A, 0xC4D);
   (0xC55, 0xC56); (0xC62, 0xC63); (0xC81, 0xC81); (0xCBC, 0xCBC);
   (0xCBF, 0xCBF); (0xCC6, 0xCC6); (0xCCC, 0xCCD); (0xCE2, 0xCE3);
   (0xD00, 0xD01); (0xD3B, 0xD3C); (0xD41, 0xD44); (0xD4D, 0xD4D);
   (0xD62, 0xD63); (0xD81, 0xD81); (0xDCA, 0xDCA); (0xDD2, 0xDD4);
   (0xDD6, 0xDD6); (0xE31, 0xE31); (0xE34, 0xE3A); (0xE46, 0xE4E);
   (0xEB1, 0xEB1); (0xEB4, 0xEBC); (0xEC6, 0xEC6); (0xEC8, 0xECD);
   (0xF18, 0xF19); (0xF35, 0xF35); (0xF37, 0xF37); (0xF39, 0xF39);
   (0xF71, 0xF7E); (0xF80, 0xF84); (0xF86, 0xF87); (0xF8D, 0xF97);
   (0xF99, 0xFBC); (0xFC6, 0xFC6); (0x102D, 0x1030); (0x1032, 0x1037);
   (0x1039, 0x103A); (0x103D, 0x103E); (0x1058, 0x1059); (0x105E, 0x1060);
   (0x1071, 0x1074); (0x1082, 0x1082); (0x1085, 0x1086); (0x108D, 0x108D);
   (0x109D, 0x109D); (0x10FC, 0x10FC); (0x135D, 0x135F); (0x1712, 0x1714);
   (0x1732, 0x1733); (0x1752, 0x1753); (0x1772, 0x1773); (0x17B4, 0x17B5);
   (0x17B7, 0x17BD); (0x17C6, 0x17C6); (0x17C9, 0x17D3); (0x17D7, 0x17D7);
   (0x17DD, 0x17DD); (0x180B, 0x180F); (0x1843, 0x1843); (0x1885, 0x1886);
   (0x18A9, 0x18A9); (0x1920, 0x1922); (0x1927, 0x1928); (0x1932, 0x1932);
   (0x1939, 0x193B); (0x1A17, 0x1A18); (0x1A1B, 0x1A1B); (0x1A56, 0x1A56);
   (0x1A58, 0x1A5E); (0x1A60, 0x1A60); (0x1A62, 0x1A62); (0x1A65, 0x1A6C);
   (0x1A73, 0x1A7C); (0x1A7F, 0x1A7F); (0x1AA7, 0x1AA7); (0x1AB0, 0x1ACE);
   (0x1B00, 0x1B03); (0x1B34, 0x1B34); (0x1B36, 0x1B3A); (0x1B3C, 0x1B3C);
   (0x1B42, 0x1B42); (0x1B6B, 0x1B73); (0x1B80, 0x1B81); (0x1BA2, 0x1BA5);
   (0x1BA8, 0x1BA9); (0x1BAB, 0x1BAD); (0x1BE6, 0x1BE6); (0x1BE8, 0x1BE9);
   (0x1BED, 0x1BED); (0x1BEF, 0x1BF1); (0x1C2C, 0x1C33); (0x1C36, 0x1C37);
   (0x1C78, 0x1C7D); (0x1CD0, 0x1CD2); (0x1CD4, 0x1CE0); (0x1CE2, 0x1CE8);
   (0x1CED, 0x1CED); (0x1CF4, 0x1CF4); (0x1CF8, 0x1CF9); (0x1D2C, 0x1D6A);
   (0x1D78, 0x1D78); (0x1D9B, 0x1DFF); (0x1FBD, 0x1FBD); (0x1FBF, 0x1FC1);
   (0x1FCD, 0x1FCF); (0x1FDD, 0x1FDF); (0x1FED, 0x1FEF); (0x1FFD, 0x1FFE);
   (0x200B, 0x200F); (0x2018, 0x2019); (0x2024, 0x2024); (0x2027, 0x2027);
   (0x202A, 0x202E); (0x2060, 0x2064); (0x2066, 0x206F); (0x2071, 0x2071);
   (0x207F, 0x207F); (0x2090, 0x209C); (0x20D0, 0x20F0); (0x2C7C, 0x2C7D);
   (0x2CEF, 0x2CF1); (0x2D6F, 0x2D6F); (0x2D7F, 0x2D7F); (0x2DE0, 0x2DFF);
   (0x2E2F, 0x2E2F); (0x3005, 0x3005); (0x302A, 0x302D); (0x3031, 0x3035);
   (0x303B, 0x303B); (0x3099, 0x309E); (0x30FC, 0x30FE); (0xA015, 0xA015);
   (0xA4F8, 0xA4FD); (0xA60C, 0xA60C); (0xA66F, 0xA672); (0xA674, 0xA67D);
   (0xA67F, 0xA67F); (0xA69C, 0xA69F); (0xA6F0, 0xA6F1); (0xA700, 0xA721);
   (0xA770, 0xA770); (0xA788, 0xA78A); (0xA7F2, 0xA7F4); (0xA7F8, 0xA7F9);
   (0xA802, 0xA802); (0xA806, 0xA806); (0xA80B, 0xA80B); (0xA825, 0xA826);
   (0xA82C, 0xA82C); (0xA8C4, 0xA8C5); (0xA8E0, 0xA8F1); (0xA8FF, 0xA8FF);
   (0xA926, 0xA92D); (0xA947, 0xA951); (0xA980, 0xA982); (0xA9B3, 0xA9B3);
   (0xA9B6, 0xA9B9); (0xA9BC, 0xA9BD); (0xA9CF, 0xA9CF); (0xA9E5, 0xA9E6);
   (0xAA29, 0xAA2E); (0xAA31, 0xAA32); (0xAA35, 0xAA36); (0xAA43, 0xAA43);
   (0xAA4C, 0xAA4C); (0xAA70, 0xAA70); (0xAA7C, 0xAA7C); (0xAAB0, 0xAAB0);
   (0xAAB2, 0xAAB4); (0xAAB7, 0xAAB8); (0xAABE, 0xAABF); (0xAAC1, 0xAAC1);
   (0xAADD, 0xAADD); (0xAAEC, 0xAAED); (0xAAF3, 0xAAF4); (0xAAF6, 0xAAF6);
   (0xAB5B, 0xAB5F); (0xAB69, 0xAB6B); (0xABE5, 0xABE5); (0xABE8, 0xABE8);
   (0xABED, 0xABED); (0xFB1E, 0xFB1E); (0xFBB2, 0xFBC2); (0xFE00, 0xFE0F);
   (0xFE13, 0xFE13); (0xFE20, 0xFE2F); (0xFE52, 0xFE52); (0xFE55, 0xFE55);
   (0xFEFF, 0xFEFF); (0xFF07, 0xFF07); (0xFF0E, 0xFF0E); (0xFF1A, 0xFF1A);
   (0xFF3E, 0xFF3E); (0xFF40, 0xFF40); (0xFF70, 0xFF70); (0xFF9E, 0xFF9F);
   (0xFFE3, 0xFFE3); (0xFFF9, 0xFFFB); (0x101FD, 0x101FD);
   (0x102E0, 0x102E0); (0x10376, 0x1037A); (0x10780, 0x10785);
   (0x10787, 0x107B0); (0x107B2, 0x107BA); (0x10A01, 0x10A03);
   (0x10A05, 0x10A06); (0x10A0C, 0x10A0F); (0x10A38, 0x10A3A);
   (0x10A3F, 0x10A3F); (0x10AE5, 0x10AE6); (0x10D24, 0x10D27);
   (0x10EAB, 0x10EAC); (0x10F46, 0x10F50); (0x10F82, 0x10F85);
   (0x11001, 0x11001); (0x11038, 0x11046); (0x11070, 0x11070);
   (0x11073, 0x11074); (0x1107F, 0x11081); (0x110B3, 0x110B6);
   (0x110B9, 0x110BA); (0x110BD, 0x110BD); (0x110C2, 0x110C2);
   (0x110CD, 0x110CD); (0x11100, 0x11102); (0x11127, 0x1112B);
   (0x1112D, 0x11134); (0x11173, 0x11173); (0x11180, 0x11181);
   (0x111B6, 0x111BE); (0x111C9, 0x111CC); (0x111CF, 0x111CF);
   (0x1122F, 0x11231); (0x11234, 0x11234); (0x11236, 0x11237);
   (0x1123E, 0x1123E); (0x112DF, 0x112DF); (0x112E3, 0x112EA);
   (0x11300, 0x11301); (0x1133B, 0x1133C); (0x11340, 0x11340);
   (0x11366, 0x1136C); (0x11370, 0x11374); (0x11438, 0x1143F);
   (0x11442, 0x11444); (0x11446, 0x11446); (0x1145E, 0x1145E);
   (0x114B3, 0x114B8); (0x114BA, 0x114BA); (0x114BF, 0x114C0);
   (0x114C2, 0x114C3); (0x115B2, 0x115B5); (0x115BC, 0x115BD);
   (0x115BF, 0x115C0); (0x115DC, 0x115DD); (0x11633, 0x1163A);
   (0x1163D, 0x1163D); (0x1163F, 0x11640); (0x116AB, 0x116AB);
   (0x116AD, 0x116AD); (0x116B0, 0x116B5); (0x116B7, 0x116B7);
   (0x1171D, 0x1171F); (0x11722, 0x11725); (0x11727, 0x1172B);
   (0x1182F, 0x11837); (0x11839, 0x1183A); (0x1193B, 0x1193C);
   (0x1193E, 0x1193E); (0x11943, 0x11943); (0x119D4, 0x119D7);
   (0x119DA, 0x119DB); (0x119E0, 0x119E0); (0x11A01, 0x11A0A);
   (0x11A33, 0x11A38); (0x11A3B, 0x11A3E); (0x11A47, 0x11A47);
   (0x11A51, 0x11A56); (0x11A59, 0x11A5B); (0x11A8A, 0x11A96);
   (0x11A98, 0x11A99); (0x11C30, 0x11C36); (0x11C38, 0x11C3D);
   (0x11C3F, 0x11C3F); (0x11C92, 0x11CA7); (0x11CAA, 0x11CB0);
   (0x11CB2, 0x11CB3); (0x11CB5, 0x11CB6); (0x11D31, 0x11D36);
   (0x11D3A, 0x11D3A); (0x11D3C, 0x11D3D); (0x11D3F, 0x11D45);
   (0x11D47, 0x11D47); (0x11D90, 0x11D91); (0x11D95, 0x11D95);
   (0x11D97, 0x11D97); (0x11EF3, 0x11EF4); (0x13430, 0x13438);
   (0x16AF0, 0x16AF4); (0x16B30, 0x16B36); (0x16B40, 0x16B43);
   (0x16F4F, 0x16F4F); (0x16F8F, 0x16F9F); (0x16FE0, 0x16FE1);
   (0x16FE3, 0x16FE4); (0x1AFF0, 0x1AFF3); (0x1AFF5, 0x1AFFB);
   (0x1AFFD, 0x1AFFE); (0x1BC9D, 0x1BC9E); (0x1BCA0, 0x1BCA3);
   (0x1CF00, 0x1CF2D); (0x1CF30, 0x1CF46); (0x1D167, 0x1D169);
   (0x1D173, 0x1D182); (0x1D185, 0x1D18B); (0x1D1AA, 0x1D1AD);
   (0x1D242, 0x1D244); (0x1DA00, 0x1DA36); (0x1DA3B, 0x1DA6C);
   (0x1DA75, 0x1DA75); (0x1DA84, 0x1DA84); (0x1DA9B, 0x1DA9F);
   (0x1DAA1, 0x1DAAF); (0x1E000, 0x1E006); (0x1E008, 0x1E018);
   (0x1E01B, 0x1E021); (0x1E023, 0x1E024); (0x1E026, 0x1E02A);
   (0x1E130, 0x1E13D); (0x1E2AE, 0x1E2AE); (0x1E2EC, 0x1E2EF);
   (0x1E8D0, 0x1E8D6); (0x1E944, 0x1E94B); (0x1F3FB, 0x1F3FF);
   (0xE0001, 0xE0001); (0xE0020, 0xE007F); (0xE0100, 0xE01EF)]%N.

(** The characters with the property [Cased] that are not
    [Case_Ignorable]. *)
Definition cased : list (N * N) :=
  [(0x41, 0x5A); (0x61, 0x7A); (0xAA, 0xAA); (0xB5, 0xB5); (0xBA, 0xBA);
   (0xC0, 0xD6); (0xD8, 0xF6); (0xF8, 0x1BA); (0x1BC, 0x1BF); (0x1C4, 0x293);
   (0x295, 0x2AF); (0x370, 0x373); (0x376, 0x377); (0x37B, 0x37D);
   (0x37F, 0x37F); (0x386, 0x386); (0x388, 0x38A); (0x38C, 0x38C);
   (0x38E, 0x3A1); (0x3A3, 0x3F5); (0x3F7, 0x481); (0x48A, 0x52F);
   (0x531, 0x556); (0x560, 0x588); (0x10A0, 0x10C5); (0x10C7, 0x10C7);
   (0x10CD, 0x10CD); (0x10D0, 0x10FA); (0x10FD, 0x10FF); (0x13A0, 0x13F5);
   (0x13F8, 0x13FD); (0x1C80, 0x1C88); (0x1C90, 0x1CBA); (0x1CBD, 0x1CBF);
   (0x1D00, 0x1D2B); (0x1D6B, 0x1D77); (0x1D79, 0x1D9A); (0x1E00, 0x1F15);
   (0x1F18, 0x1F1D); (0x1F20, 0x1F45); (0x1F48, 0x1F4D); (0x1F50, 0x1F57);
   (0x1F59, 0x1F59); (0x1F5B, 0x1F5B); (0x1F5D, 0x1F5D); (0x1F5F, 0x1F7D);
   (0x1F80, 0x1FB4); (0x1FB6, 0x1FBC); (0x1FBE, 0x1FBE); (0x1FC2, 0x1FC4);
   (0x1FC6, 0x1FCC); (0x1FD0, 0x1FD3); (0x1FD6, 0x1FDB); (0x1FE0, 0x1FEC);
   (0x1FF2, 0x1FF4); (0x1FF6, 0x1FFC); (0x2102, 0x2102); (0x2107, 0x2107);
   (0x210A, 0x2113); (0x2115, 0x2115); (0x2119, 0x211D); (0x2124, 0x2124);
   (0x2126, 0x2126); (0x2128, 0x2128); (0x212A, 0x212D); (0x212F, 0x2134);
   (0x2139, 0x2139); (0x213C, 0x213F); (0x2145, 0x2149); (0x214E, 0x214E);
   (0x2160, 0x217F); (0x2183, 0x2184); (0x24B6, 0x24E9); (0x2C00, 0x2C7B);
   (0x2C7E, 0x2CE4); (0x2CEB, 0x2CEE); (0x2CF2, 0x2CF3); (0x2D00, 0x2D25);
   (0x2D27, 0x2D27); (0x2D2D, 0x2D2D); (0xA640, 0xA66D); (0xA680, 0xA69B);
   (0xA722, 0xA76F); (0xA771, 0xA787); (0xA78B, 0xA78E); (0xA790, 0xA7CA);
   (0xA7D0, 0xA7D1); (0xA7D3, 0xA7D3); (0xA7D5, 0xA7D9); (0xA7F5, 0xA7F6);
   (0xA7FA, 0xA7FA); (0xAB30, 0xAB5A); (0xAB60, 0xAB68); (0xAB70, 0xABBF);
   (0xFB00, 0xFB06); (0xFB13, 0xFB17); (0xFF21, 0xFF3A); (0xFF41, 0xFF5A);
   (0x10400, 0x1044F); (0x104B0, 0x104D3); (0x104D8, 0x104FB);
   (0x10570, 0x1057A); (0x1057C, 0x1058A); (0x1058C, 0x10592);
   (0x10594, 0x10595); (0x10597, 0x105A1); (0x105A3, 0x105B1);
   (0x105B3, 0x105B9); (0x105BB, 0x105BC); (0x10C80, 0x10CB2);
   (0x10CC0, 0x10CF2); (0x118A0, 0x118DF); (0x16E40, 0x16E7F);
   (0x1D400, 0x1D454); (0x1D456, 0x1D49C); (0x1D49E, 0x1D49F);
   (0x1D4A2, 0x1D4A2); (0x1D4A5, 0x1D4A6); (0x1D4A9, 0x1D4AC);
   (0x1D4AE, 0x1D4B9); (0x1D4BB, 0x1D4BB); (0x1D4BD, 0x1D4C3);
   (0x1D4C5, 0x1D505); (0x1D507, 0x1D50A); (0x1D50D, 0x1D514);
   (0x1D516, 0x1D51C); (0x1D51E, 0x1D539); (0x1D53B, 0x1D53E);
   (0x1D540, 0x1D544); (0x1D546, 0x1D546); (0x1D54A, 0x1D550);
   (0x1D552, 0x1D6A5); (0x1D6A8, 0x1D6C0); (0x1D6C2, 0x1D6DA);
   (0x1D6DC, 0x1D6FA); (0x1D6FC, 0x1D714); (0x1D716, 0x1D734);
   (0x1D736, 0x1D74E); (0x1D750, 0x1D76E); (0x1D770, 0x1D788);
   (0x1D78A, 0x1D7A8); (0x1D7AA, 0x1D7C2); (0x1D7C4, 0x1D7CB);
   (0x1DF00, 0x1DF09); (0x1DF0B, 0x1DF1E); (0x1E900, 0x1E943);
   (0x1F130, 0x1F149); (0x1F150, 0x1F169); (0x1F170, 0x1F189)]%N.

(** [re._casefix._EXTRA_CASES]: the other lower-case characters that
    share an upper case with the key. *)
Definition extra_cases : list (N * list N) :=
  [(0x69, [0x131]); (0x73, [0x17F]); (0xB5, [0x3BC]); (0x131, [0x69]);
   (0x17F, [0x73]); (0x345, [0x3B9; 0x1FBE]); (0x390, [0x1FD3]);
   (0x3B0, [0x1FE3]); (0x3B2, [0x3D0]); (0x3B5, [0x3F5]); (0x3B8, [0x3D1]);
   (0x3B9, [0x345; 0x1FBE]); (0x3BA, [0x3F0]); (0x3BC, [0xB5]);
   (0x3C0, [0x3D6]); (0x3C1, [0x3F1]); (0x3C2, [0x3C3]); (0x3C3, [0x3C2]);
   (0x3C6, [0x3D5]); (0x3D0, [0x3B2]); (0x3D1, [0x3B8]); (0x3D5, [0x3C6]);
   (0x3D6, [0x3C0]); (0x3F0, [0x3BA]); (0x3F1, [0x3C1]); (0x3F5, [0x3B5]);
   (0x432, [0x1C80]); (0x434, [0x1C81]); (0x43E, [0x1C82]);
   (0x441, [0x1C83]); (0x442, [0x1C84; 0x1C85]); (0x44A, [0x1C86]);
   (0x463, [0x1C87]); (0x1C80, [0x432]); (0x1C81, [0x434]);
   (0x1C82, [0x43E]); (0x1C83, [0x441]); (0x1C84, [0x442; 0x1C85]);
   (0x1C85, [0x442; 0x1C84]); (0x1C86, [0x44A]); (0x1C87, [0x463]);
   (0x1C88, [0xA64B]); (0x1E61, [0x1E9B]); (0x1E9B, [0x1E61]);
   (0x1FBE, [0x345; 0x3B9]); (0x1FD3, [0x390]); (0x1FE3, [0x3B0]);
   (0xA64B, [0x1C88]); (0xFB05, [0xFB06]); (0xFB06, [0xFB05])]%N.

End Unicode.
(** ** Python string primitives *)

Module Py.

(** [s.startswith(p)] *)
Fixpoint startswith (s p : string) {struct p} : bool :=
  match p, s with
  | EmptyString, _ => true
  | String _ _, EmptyString => false
  | String a p', String b s' => Char.eqb a b && startswith s' p'
  end.

(** [s[n:]] *)
Fixpoint slice_from (n : nat) (s : string) : string :=
  match n, s with
  | O, _ => s
  | S _, EmptyString => EmptyString
  | S n', String _ s' => slice_from n' s'
  end.

(** [s[:n]] *)
Fixpoint slice_to (n : nat) (s : string) : string :=
  match n, s with
  | O, _ => EmptyString
  | S _, EmptyString => EmptyString
  | S n', String c s' => String c (slice_to n' s')
  end.

(** [needle in s] *)
Fixpoint contains (needle s : string) : bool :=
  startswith s needle ||
  match s with
  | EmptyString => false
  | String _ s' => contains needle s'
  end.

(** The letters and the digits of [string.ascii_letters] and
    [string.digits]. *)
Definition is_ascii_upper (c : char) : bool := (65 <=? c)%N && (c <=? 90)%N.

Definition is_ascii_lower (c : char) : bool := (97 <=? c)%N && (c <=? 122)%N.

Definition is_ascii_alpha (c : char) : bool :=
  is_ascii_upper c || is_ascii_lower c.

Definition is_ascii_digit (c : char) : bool := (48 <=? c)%N && (c <=? 57)%N.

Definition in_ranges (c : char) (l : list (N * N)) : bool :=
  existsb (fun r => (fst r <=? c)%N && (c <=? snd r)%N) l.

(** The value of a decimal digit ([unicodedata.decimal]). *)
Definition digit_value (c : char) : option N :=
  match List.find (fun z => (z <=? c)%N && (c <? z + 10)%N)
          Unicode.decimal_zeros with
  | Some z => Some (c - z)%N
  | None => None
  end.

(** [\d]: a decimal digit. *)
Definition is_digit (c : char) : bool :=
  match digit_value c with Some _ => true | None => false end.

(** [c.isspace()], [\s]. *)
Definition is_space (c : char) : bool := existsb (N.eqb c) Unicode.whitespace.

(** [c.lower()] for one character out of context. *)
Definition lower_char (c : char) : string :=
  if (c =? 0x130)%N then String 0x69%N (String 0x307%N EmptyString)
  else
    match List.find
            (fun r => let '(first, last, step, _) := r in
                      (first <=? c)%N && (c <=? last)%N
                      && ((c - first) mod step =? 0)%N)
            Unicode.lowercase_runs with
    | Some (first, _, _, image) => String (image + (c - first))%N EmptyString
    | None => String c EmptyString
    end.

(** [_sre.unicode_tolower]: the lower-case mapping to one character. *)
Definition simple_lower (c : char) : char :=
  match lower_char c with
  | String x _ => x
  | EmptyString => c
  end.

Fixpoint take_while (p : char -> bool) (s : string) : string :=
  match s with
  | EmptyString => EmptyString
  | String c s' => if p c then String c (take_while p s') else EmptyString
  end.

Fixpoint drop_while (p : char -> bool) (s : string) : string :=
  match s with
  | EmptyString => EmptyString
  | String c s' => if p c then drop_while p s' else s
  end.

Fixpoint all_chars (p : char -> bool) (s : string) : bool :=
  match s with
  | EmptyString => true
  | String c s' => p c && all_chars p s'
  end.

Definition nonempty (s : string) : bool :=
  match s with EmptyString => false | String _ _ => true end.

(** The first character of [s] that is not case-ignorable is cased. *)
Definition next_cased (s : string) : bool :=
  match drop_while (fun c => in_ranges c Unicode.case_ignorable) s with
  | String c _ => in_ranges c Unicode.cased
  | EmptyString => false
  end.

(** The test of [str.lower] on a capital sigma: it ends a word when a cased
    letter precedes it and none follows, case-ignorable characters
    skipped. [before] is the text before the sigma, last character
    first. *)
Definition final_sigma (before after : string) : bool :=
  next_cased before && negb (next_cased after).

(** [s.lower()]; [before] is the text already passed, last character
    first. *)
Fixpoint lower_from (before s : string) : string :=
  match s with
  | EmptyString => EmptyString
  | String c s' =>
      (if (c =? 0x3A3)%N
       then String (if final_sigma before s' then 0x3C2 else 0x3C3)%N EmptyString
       else lower_char c)
      ++ lower_from (String c before) s'
  end.

Definition lower (s : string) : string := lower_from EmptyString s.

Definition lstrip (s : string) : string := drop_while is_space s.

Fixpoint rstrip (s : string) : string :=
  match s with
  | EmptyString => EmptyString
  | String c s' =>
      match rstrip s' with
      | EmptyString => if is_space c then EmptyString else String c EmptyString
      | r => String c r
      end
  end.

(** [s.strip()] *)
Definition strip (s : string) : string := rstrip (lstrip s).

(** [s.split(sep)] for a one-character separator: never empty. *)
Fixpoint split (sep : char) (s : string) : list string :=
  match s with
  | EmptyString => [EmptyString]
  | String c s' =>
      if Char.eqb c sep then EmptyString :: split sep s'
      else match split sep s' with
           | [] => [String c EmptyString]
           | w :: ws => String c w :: ws
           end
  end.

(** [sep.join(parts)] *)
Fixpoint join (sep : string) (parts : list string) : string :=
  match parts with
  | [] => EmptyString
  | [w] => w
  | w :: ws => w ++ sep ++ join sep ws
  end.

(** [s.replace(old, new)] for a non-empty [old]: occurrences are replaced
    left to right without overlap; [skip] counts the characters of the
    occurrence just replaced that are still to be dropped. *)
Fixpoint replace_from (skip : nat) (old new s : string) : string :=
  match s with
  | EmptyString => EmptyString
  | String c s' =>
      match skip with
      | S k => replace_from k old new s'
      | O =>
          if startswith s old
          then new ++ replace_from (String.length old - 1) old new s'
          else String c (replace_from O old new s')
      end
  end.

Definition replace (s old new : string) : string := replace_from O old new s.

(** [s.partition(c)] restricted to what the callers need: the text before
    the first character satisfying [p], and the text after it when there
    is one. *)
Fixpoint cut_at (p : char -> bool) (s : string) : string * option string :=
  match s with
  | EmptyString => (EmptyString, None)
  | String c s' =>
      if p c then (EmptyString, Some s')
      else let '(a, b) := cut_at p s' in (String c a, b)
  end.

Fixpoint digits_value (acc : Z) (s : string) : Z :=
  match s with
  | EmptyString => acc
  | String c s' =>
      digits_value (10 * acc + Z.of_N (default 0%N (digit_value c))) s'
  end.

(** [sys.get_int_max_str_digits()] *)
Definition INT_MAX_STR_DIGITS : N := 4300.

(** [int(s)] on a run of decimal digits: [None] is the [ValueError] raised
    for a run longer than the limit. *)
Definition int_of_digits (s : string) : option Z :=
  if (N.of_nat (String.length s) <=? INT_MAX_STR_DIGITS)%N
  then Some (digits_value 0 s) else None.

Fixpoint pow10 (n : nat) : positive :=
  match n with
  | O => 1%positive
  | S n' => (10 * pow10 n')%positive
  end.

(** [float(s)] on a run of digits and points, as [re.search(r'[\d.]+')]
    returns it: the literal is accepted when it has at most one point and
    at least one digit, and [ValueError] ([None]) is raised otherwise. *)
Definition float_of_run (s : string) : option Q :=
  let ip := take_while is_digit s in
  match drop_while is_digit s with
  | EmptyString =>
      if nonempty ip then Some (inject_Z (digits_value 0 ip)) else None
  | String c fp =>
      if Char.eqb c "." && all_chars is_digit fp && (nonempty ip || nonempty fp)
      then Some (Qred (Qmake (digits_value 0 (ip ++ fp))
                             (pow10 (String.length fp))))
      else None
  end.

End Py.

(** ** The regular expressions of the extractors *)

Module Re.

(** [re.search(r'[\d.]+', s)]: the leftmost maximal run of digits and
    points ([group()]), [None] when [s] has no such character. *)
Definition number_char (c : char) : bool := Py.is_digit c || Char.eqb c ".".

Definition search_number (s : string) : option string :=
  match Py.take_while number_char (Py.drop_while (fun c => negb (number_char c)) s) with
  | EmptyString => None
  | run => Some run
  end.

(** [re.search(r'(\d+)', s)]: the leftmost maximal run of digits
    ([group(1)]). *)
Definition search_digits (s : string) : option string :=
  match Py.take_while Py.is_digit (Py.drop_while (fun c => negb (Py.is_digit c)) s) with
  | EmptyString => None
  | run => Some run
  end.

(** What a cased letter of a pattern, given in lower case, matches under
    [re.IGNORECASE]: the characters whose lower case is the letter or one
    of its extra cases. *)
Definition ignorecase (letter c : char) : bool :=
  let t := Py.simple_lower c in
  Char.eqb t letter
  || existsb (Char.eqb t)
       (match List.find (fun e => (fst e =? letter)%N) Unicode.extra_cases with
        | Some e => snd e
        | None => []
        end).

(** The letters of a pattern at the start of [s], in any letter case: the
    text after them. *)
Fixpoint match_letters (letters s : string) : option string :=
  match letters, s with
  | EmptyString, _ => Some s
  | String _ _, EmptyString => None
  | String l letters', String c s' =>
      if ignorecase l c then match_letters letters' s' else None
  end.

(** [r'\((\d+)\s+available\)'] with [re.IGNORECASE], anchored at the
    start of [s]. Digits, white space and the characters that match the
    letter [a] are pairwise disjoint, so the greedy runs are the only way
    to match. *)
Definition match_available (s : string) : option string :=
match s with
| String c s1 =>
    if Char.eqb c "("
    then
      let ds := Py.take_while Py.is_digit s1 in
      let s2 := Py.drop_while Py.is_digit s1 in
      let ws := Py.take_while Py.is_space s2 in
      let s3 := Py.drop_while Py.is_space s2 in
      if Py.nonempty ds && Py.nonempty ws
      then match match_letters "available" s3 with
           | Some (String c' _) => if Char.eqb c' ")" then Some ds else None
           | _ => None
           end
      else None
    else None
| EmptyString => None
end.

(** [re.search(r'\((\d+)\s+available\)', s, re.IGNORECASE)]: the match at
    the leftmost position that has one ([group(1)]). *)
Fixpoint search_available (s : string) : option string :=
  match match_available s with
  | Some ds => Some ds
  | None =>
      match s with
      | EmptyString => None
      | String _ s' => search_available s'
      end
  end.

End Re.

#[local] Arguments Py.is_digit : simpl never.
#[local] Arguments Py.is_space : simpl never.
#[local] Arguments Py.digit_value : simpl never.
#[local] Arguments Py.lower_char : simpl never.
#[local] Arguments Py.lower : simpl never.
#[local] Arguments Re.ignorecase : simpl never.

(** ** [urllib.parse.urljoin]

    The standard library's resolution of a reference against a base, as the
    extractors call it (strings in, string out, fragments allowed). The
    stripping of control characters and the validation of the host
    (brackets, characters that normalise to a delimiter) that [urlsplit]
    performs are not part of the model. *)

Module Url.

Definition uses_relative : list string :=
  [""; "ftp"; "http"; "gopher"; "nntp"; "imap"; "wais"; "file"; "https";
   "shttp"; "mms"; "prospero"; "rtsp"; "rtsps"; "rtspu"; "sftp"; "svn";
   "svn+ssh"; "ws"; "wss"].

Definition uses_netloc : list string :=
  [""; "ftp"; "http"; "gopher"; "nntp"; "telnet"; "imap"; "wais"; "file";
   "mms"; "https"; "shttp"; "snews"; "prospero"; "rtsp"; "rtsps"; "rtspu";
   "rsync"; "svn"; "svn+ssh"; "sftp"; "nfs"; "git"; "git+ssh"; "ws"; "wss";
   "itms-services"].

Definition uses_params : list string :=
  [""; "ftp"; "hdl"; "prospero"; "http"; "imap"; "https"; "shttp"; "rtsp";
   "rtsps"; "rtspu"; "sip"; "sips"; "mms"; "sftp"; "tel"].

Definition member (s : string) (l : list string) : bool :=
  existsb (String.eqb s) l.

Definition scheme_char (c : char) : bool :=
  Py.is_ascii_alpha c || Py.is_ascii_digit c
  || Char.eqb c "+" || Char.eqb c "-" || Char.eqb c ".".

(** The six components [urlparse] returns. *)
Record parts := {
  scheme : string; netloc : string; path : string;
  params : string; query : string; fragment : string }.

(** The scheme test of [urlsplit]: a colon at a positive index, a letter
    first, scheme characters up to the colon. *)
Definition split_scheme (dflt url : string) : string * string :=
  match Py.cut_at (Char.eqb ":") url with
  | (String c0 _ as pre, Some rest) =>
      if Py.is_ascii_alpha c0 && Py.all_chars scheme_char pre
      then (Py.lower pre, rest) else (dflt, url)
  | _ => (dflt, url)
  end.

Definition netloc_end (c : char) : bool :=
  Char.eqb c "/" || Char.eqb c "?" || Char.eqb c "#".

(** [_splitnetloc(url, 2)] after the test [url[:2] == '//']. *)
Definition split_netloc (url : string) : string * string :=
  match url with
  | String "/" (String "/" rest) =>
      (Py.take_while (fun c => negb (netloc_end c)) rest,
       Py.drop_while (fun c => negb (netloc_end c)) rest)
  | _ => (EmptyString, url)
  end.

(** [_splitparams]: the parameters start at the first semicolon of the
    last path segment. *)
Fixpoint split_params_segments (segs : list string) : list string * string :=
  match segs with
  | [] => ([], EmptyString)
  | [w] =>
      match Py.cut_at (Char.eqb ";") w with
      | (a, Some b) => ([a], b)
      | (a, None) => ([a], EmptyString)
      end
  | w :: ws => let '(ws', p) := split_params_segments ws in (w :: ws', p)
  end.

Definition split_params (url : string) : string * string :=
  let '(segs, p) := split_params_segments (Py.split "/" url) in
  (Py.join "/" segs, p).

Definition urlparse (url dflt : string) : parts :=
  let '(sch, u1) := split_scheme dflt url in
  let '(nl, u2) := split_netloc u1 in
  let '(u3, frag) := Py.cut_at (Char.eqb "#") u2 in
  let '(u4, qry) := Py.cut_at (Char.eqb "?") u3 in
  let '(u5, prm) :=
    if member sch uses_params && Py.contains ";" u4
    then split_params u4 else (u4, EmptyString) in
  {| scheme := sch; netloc := nl; path := u5; params := prm;
     query := default EmptyString qry; fragment := default EmptyString frag |}.

Definition urlunparse (p : parts) : string :=
  let url := if Py.nonempty (params p) then path p ++ ";" ++ params p else path p in
  let url :=
    if Py.nonempty (netloc p)
       || (Py.nonempty (scheme p) && member (scheme p) uses_netloc
           && negb (Py.startswith url "//"))
    then "//" ++ netloc p
         ++ (if Py.nonempty url && negb (Py.startswith url "/")
             then "/" ++ url else url)
    else url in
  let url := if Py.nonempty (scheme p) then scheme p ++ ":" ++ url else url in
  let url := if Py.nonempty (query p) then url ++ "?" ++ query p else url in
  if Py.nonempty (fragment p) then url ++ "#" ++ fragment p else url.

(** [segments[1:-1] = filter(None, segments[1:-1])] *)
Definition drop_inner_empty (segments : list string) : list string :=
  match segments with
  | first :: (_ :: _) as rest =>
      (first :: filter (fun s => Py.nonempty s = true) (removelast rest)
             ++ [List.last rest EmptyString])%list
  | _ => segments
  end.

(** The loop over [segments]; [resolved] is the stack, top first. *)
Fixpoint resolve (resolved : list string) (segments : list string) : list string :=
  match segments with
  | [] => rev resolved
  | seg :: rest =>
      if String.eqb seg ".." then resolve (tl resolved) rest
      else if String.eqb seg "." then resolve resolved rest
      else resolve (seg :: resolved) rest
  end.

Definition urljoin (base url : string) : string :=
  if negb (Py.nonempty base) then url
  else if negb (Py.nonempty url) then base
  else
    let b := urlparse base EmptyString in
    let u := urlparse url (scheme b) in
    if negb (String.eqb (scheme u) (scheme b))
       || negb (member (scheme u) uses_relative)
    then url
    else if member (scheme u) uses_netloc && Py.nonempty (netloc u)
    then urlunparse u
    else
      let nl := if member (scheme u) uses_netloc then netloc b else netloc u in
      if negb (Py.nonempty (path u)) && negb (Py.nonempty (params u))
      then urlunparse
             {| scheme := scheme u; netloc := nl; path := path b;
                params := params b;
                query := if Py.nonempty (query u) then query u else query b;
                fragment := fragment u |}
      else
        let base_parts := Py.split "/" (path b) in
        let base_parts :=
          if Py.nonempty (List.last base_parts EmptyString)
          then removelast base_parts else base_parts in
        let segments :=
          if Py.startswith (path u) "/" then Py.split "/" (path u)
          else drop_inner_empty (base_parts ++ Py.split "/" (path u))%list in
        let resolved := resolve [] segments in
        let last_seg := List.last segments EmptyString in
        let resolved :=
          if String.eqb last_seg "." || String.eqb last_seg ".."
          then (resolved ++ [EmptyString])%list else resolved in
        let joined := Py.join "/" resolved in
        urlunparse
          {| scheme := scheme u; netloc := nl;
             path := if Py.nonempty joined then joined else "/";
             params := params u; query := query u; fragment := fragment u |}.

End Url.

(** ** The parsed document (BeautifulSoup) *)

Module Soup.

(** An element carries its tag name, its single-valued attributes and the
    tokens of its multi-valued [class] attribute; a [NavigableString] is a
    text leaf. The document object is the element at the root. *)
#[warnings="-register-all"]
Inductive node :=
| NavigableString (s : string)
| Tag (name : string) (attrs : list (string * string))
      (class_ : list string) (contents : list node).

Definition tag_name (n : node) : string :=
  match n with Tag nm _ _ _ => nm | NavigableString _ => EmptyString end.

Definition classes (n : node) : list string :=
  match n with Tag _ _ cl _ => cl | NavigableString _ => [] end.

Fixpoint assoc (k : string) (l : list (string * string)) : option string :=
  match l with
  | [] => None
  | (k', v) :: l' => if String.eqb k k' then Some v else assoc k l'
  end.

(** [tag.get(key, dflt)] *)
Definition get (n : node) (key dflt : string) : string :=
  match n with
  | Tag _ attrs _ _ => default dflt (assoc key attrs)
  | NavigableString _ => dflt
  end.

(** [tag.text]: the strings below the element, in document order. *)
Fixpoint text (n : node) : string :=
  match n with
  | NavigableString s => s
  | Tag _ _ _ cs =>
      (fix texts (l : list node) : string :=
         match l with
         | [] => EmptyString
         | c :: l' => text c ++ texts l'
         end) cs
  end.

(** The element itself followed by everything below it, in document
    order. *)
Fixpoint self_and_descendants (n : node) : list node :=
  n :: match n with
       | NavigableString _ => []
       | Tag _ _ _ cs =>
           (fix below (l : list node) : list node :=
              match l with
              | [] => []
              | c :: l' => (self_and_descendants c ++ below l')%list
              end) cs
       end.

(** [tag.descendants] *)
Definition descendants (n : node) : list node := tl (self_and_descendants n).

(** How [class_=wanted] is matched against a multi-valued attribute: one
    of the tokens is [wanted], or the tokens joined by a blank are. *)
Definition class_matches (wanted : string) (cl : list string) : bool :=
  existsb (String.eqb wanted) cl || String.eqb (Py.join " " cl) wanted.

Definition matches (name : string) (class_wanted : option string) (n : node) : bool :=
  match n with
  | NavigableString _ => false
  | Tag nm _ cl _ =>
      String.eqb nm name
      && match class_wanted with
         | None => true
         | Some w => class_matches w cl
         end
  end.

(** [tag.find_all(name, class_=...)] *)
Definition find_all (name : string) (class_wanted : option string) (n : node)
  : list node :=
  List.filter (matches name class_wanted) (descendants n).

(** [tag.find(name, class_=...)] *)
Definition find (name : string) (class_wanted : option string) (n : node)
  : option node :=
  head (find_all name class_wanted n).

(** [soup.select('li.col-xs-6 article')]: the [article] elements that have
    an [li] ancestor with the class token [col-xs-6], in document order.
    [inside] records that such an ancestor has been passed. *)
Fixpoint select_li_article (inside : bool) (n : node) : list node :=
  match n with
  | NavigableString _ => []
  | Tag nm _ cl cs =>
      let here := if inside && String.eqb nm "article" then [n] else [] in
      let inside' :=
        inside || (String.eqb nm "li" && existsb (String.eqb "col-xs-6") cl) in
      (here ++
       (fix below (l : list node) : list node :=
          match l with
          | [] => []
          | c :: l' => (select_li_article inside' c ++ below l')%list
          end) cs)%list
  end.

Definition select_cards (soup : node) : list node :=
  match soup with
  | NavigableString _ => []
  | Tag _ _ _ cs => flat_map (select_li_article false) cs
  end.

End Soup.

(** ** Records *)

Inductive value :=
| VStr (s : string)
| VInt (z : Z)
| VFloat (q : Q)
| VBool (b : bool).

(** A record is a dictionary from field names to values. *)
Abbreviation record := (gmap string value).

(** [base.update(detail)]: the fields of [detail] win. *)
Definition dict_update (base detail : record) : record := detail ∪ base.

(** [bool(d)] for a dictionary. *)
Definition dict_truthy (d : record) : bool :=
  match map_to_list d with [] => false | _ => true end.

(** ** Constants ([src/constants.py]) *)

Definition RATING_MAP : list (string * Z) :=
  [("One", 1); ("Two", 2); ("Three", 3); ("Four", 4); ("Five", 5); ("Zero", 0)].

Definition DEFAULT_RATING : Z := 0.

Definition MAX_WORKERS_VALUE : Z := 20.

Fixpoint rating_lookup (cls : string) (m : list (string * Z)) : option Z :=
  match m with
  | [] => None
  | (k, v) :: m' => if String.eqb cls k then Some v else rating_lookup cls m'
  end.

(** ** The extractors *)

(** The [for cls in rating_classes: ... break / else] loop. *)
Fixpoint rating_of_classes (rating_classes : list string) : Z :=
  match rating_classes with
  | [] => DEFAULT_RATING
  | cls :: rest =>
      match rating_lookup cls RATING_MAP with
      | Some r => r
      | None => rating_of_classes rest
      end
  end.

(** The price rule shared by both extractors: [None] is the [ValueError] of
    [float] on a run that is not a literal. *)
Definition price_of_elem (price_elem : option Soup.node) : option Q :=
  let price_text :=
    match price_elem with
    | Some e => Py.strip (Soup.text e)
    | None => EmptyString
    end in
  match Re.search_number price_text with
  | Some run => Py.float_of_run run
  | None => Some 0%Q
  end.

(** The stock element: the exact class string first, then the token. *)
Definition find_stock_elem (doc : Soup.node) : option Soup.node :=
  match Soup.find "p" (Some "instock availability") doc with
  | Some e => Some e
  | None => Soup.find "p" (Some "availability") doc
  end.

Definition stock_text_of (stock_elem : option Soup.node) : string :=
  match stock_elem with
  | Some e => Py.strip (Soup.text e)
  | None => EmptyString
  end.

(** The stock count; [None] is the [ValueError] of [int]. *)
Definition stock_of_text (stock_text : string) : option Z :=
  let stock_match :=
    match Re.search_available stock_text with
    | Some ds => Some ds
    | None => Re.search_digits stock_text
    end in
  match stock_match with
  | Some ds => Py.int_of_digits ds
  | None => Some 0
  end.

Definition in_stock_of (stock_elem : option Soup.node) (stock_text : string) : bool :=
  match stock_elem with
  | Some e =>
      existsb (String.eqb "instock") (Soup.classes e)
      || Py.contains "available" (Py.lower stock_text)
      || Py.contains "in stock" (Py.lower stock_text)
  | None => false
  end.

(** The rewriting of the card's [href] before it is resolved. *)
Definition normalize_href (href : string) : string :=
  if Py.startswith href "../../../" then "catalogue/" ++ Py.slice_from 9 href
  else if Py.startswith href "../../" then "catalogue/" ++ Py.slice_from 6 href
  else if negb (Py.startswith href "catalogue/") then "catalogue/" ++ href
  else href.

(** [parse_book_card]: [None] is the [except Exception] exit. *)
Definition parse_book_card (card : Soup.node) (base_url : string) : option record :=
  h3 ← Soup.find "h3" None card;
  title_elem ← Soup.find "a" None h3;
  let title := Soup.get title_elem "title" (Py.strip (Soup.text title_elem)) in
  price ← price_of_elem (Soup.find "p" (Some "price_color") card);
  let rating_classes :=
    match Soup.find "p" (Some "star-rating") card with
    | Some e => Soup.classes e
    | None => []
    end in
  let stock_elem := find_stock_elem card in
  let stock_text := stock_text_of stock_elem in
  stock ← stock_of_text stock_text;
  let href := Soup.get title_elem "href" EmptyString in
  Some (<["url" := VStr (Url.urljoin base_url (normalize_href href))]>
        (<["in_stock" := VBool (in_stock_of stock_elem stock_text)]>
        (<["stock" := VInt stock]>
        (<["rating" := VInt (rating_of_classes rating_classes)]>
        (<["price" := VFloat price]>
        (<["title" := VStr title]> ∅)))))).

(** ** The fetcher *)

(** The configuration dictionary ([CUSTOM_CONFIG]). *)
Record config := {
  headers : list (string * string);
  min_delay : Q;
  max_delay : Q;
  max_retries : Z;
  timeout : Q;
  base_url : string }.

(** What one [session.get(url, timeout=...)] does: it returns a response
    with a status code and a body (given parsed), or raises. The exception
    classes are those the [except] clauses of [make_request] tell apart;
    [OtherException] is the final [except Exception]. *)
Inductive outcome :=
| Response (status_code : Z) (content : Soup.node)
| ConnectionError
| Timeout
| TooManyRedirects
| HTTPError
| OtherException.

(** What [make_request] does to the world. *)
Inductive event :=
| Get (attempt : nat)
| Sleep (delay : Q).

(** The end of one pass through the loop body: [return] or fall through to
    the back-off. *)
Inductive verdict :=
| Return (response : option Soup.node)
| Retry.

Definition attempt_verdict (o : outcome) : verdict :=
  match o with
  | Response status_code content =>
      if status_code =? 200 then Return (Some content)
      else if (500 <=? status_code) && (status_code <? 600) then Retry
      else Return None
  | ConnectionError => Retry
  | Timeout => Retry
  | TooManyRedirects => Return None
  | HTTPError => Retry
  | OtherException => Retry
  end.

(** [min(config['min_delay'] * (2 ** attempt), config['max_delay'] * 3)],
    over the rationals. *)
Definition backoff_delay (cfg : config) (attempt : nat) : Q :=
  Qmin (min_delay cfg * inject_Z (2 ^ Z.of_nat attempt)) (max_delay cfg * 3).

(** The [for attempt in range(...)] loop with [todo] passes left; [get]
    answers the successive attempts of this call. *)
Fixpoint attempts_loop (get : nat -> outcome) (cfg : config)
    (todo attempt : nat) : option Soup.node * list event :=
  match todo with
  | O => (None, [])
  | S todo' =>
      match attempt_verdict (get attempt) with
      | Return response => (response, [Get attempt])
      | Retry =>
          let pause :=
            if Z.of_nat attempt <? max_retries cfg
            then [Sleep (backoff_delay cfg attempt)] else [] in
          let '(response, later) := attempts_loop get cfg todo' (S attempt) in
          (response, (Get attempt :: pause ++ later)%list)
      end
  end.

(** [make_request]: the response ([None] on failure) and the trace. *)
Definition make_request (get : nat -> outcome) (cfg : config)
  : option Soup.node * list event :=
  attempts_loop get cfg (Z.to_nat (max_retries cfg + 1)) 0.

Definition is_get (e : event) : bool :=
  match e with Get _ => true | Sleep _ => false end.

(** The number of HTTP attempts of a call. *)
Definition attempts (get : nat -> outcome) (cfg : config) : nat :=
  length (List.filter is_get (snd (make_request get cfg))).

(** ** The detail page *)

(** The numeric cells of the attribute table use the price scan. *)
Definition number_of_text (value_text : string) : option Q :=
  match Re.search_number value_text with
  | Some run => Py.float_of_run run
  | None => Some 0%Q
  end.

(** One row of the attribute table. *)
Definition parse_table_row (book_details : record) (row : Soup.node)
  : option record :=
  match Soup.find "th" None row, Soup.find "td" None row with
  | Some header, Some val =>
      let header_text := Py.lower (Py.strip (Soup.text header)) in
      let value_text := Py.strip (Soup.text val) in
      if Py.contains "upc" header_text
      then Some (<["upc" := VStr value_text]> book_details)
      else if Py.contains "product type" header_text
      then Some (<["product_type" := VStr value_text]> book_details)
      else if Py.contains "price (excl. tax)" (Py.lower header_text)
      then q ← number_of_text value_text;
           Some (<["price_excl_tax" := VFloat q]> book_details)
      else if Py.contains "price (incl. tax)" (Py.lower header_text)
      then q ← number_of_text value_text;
           Some (<["price_incl_tax" := VFloat q]> book_details)
      else if Py.contains "tax" header_text
              && negb (Py.contains "number" header_text)
      then q ← number_of_text value_text;
           Some (<["tax" := VFloat q]> book_details)
      else Some book_details
  | _, _ => Some book_details
  end.

Fixpoint parse_table_rows (book_details : record) (rows : list Soup.node)
  : option record :=
  match rows with
  | [] => Some book_details
  | row :: rest =>
      d ← parse_table_row book_details row;
      parse_table_rows d rest
  end.

(** The body of [parse_book_detail_page] after the fetch. *)
Definition parse_detail_soup (soup : Soup.node) (url : string) (cfg : config)
  : option record :=
  product_main ← Soup.find "div" (Some "product_main") soup;
  let title :=
    match Soup.find "h1" None product_main with
    | Some e => Py.strip (Soup.text e)
    | None => EmptyString
    end in
  price ← price_of_elem (Soup.find "p" (Some "price_color") soup);
  let availability_elem := find_stock_elem soup in
  let stock_text := stock_text_of availability_elem in
  stock ← stock_of_text stock_text;
  let rating_classes :=
    match Soup.find "p" (Some "star-rating") soup with
    | Some e => Soup.classes e
    | None => []
    end in
  let d : record :=
    <["rating" := VInt (rating_of_classes rating_classes)]>
    (<["in_stock" := VBool (in_stock_of availability_elem stock_text)]>
    (<["stock" := VInt stock]>
    (<["price" := VFloat price]>
    (<["title" := VStr title]> ∅)))) in
  d ← match Soup.find "table" (Some "table table-striped") soup with
      | Some table => parse_table_rows d (Soup.find_all "tr" None table)
      | None => Some d
      end;
  let d : record :=
    match Soup.find "ul" (Some "breadcrumb") soup with
    | Some breadcrumb =>
        match Soup.find_all "a" None breadcrumb with
        | _ :: _ :: third :: _ =>
            <["category" := VStr (Py.strip (Soup.text third))]> d
        | _ => d
        end
    | None => d
    end in
  let img_elem :=
    match Soup.find "div" (Some "item active") soup with
    | Some item => Soup.find "img" None item
    | None => None
    end in
  let d : record :=
    match img_elem with
    | Some img =>
        let img_src := Soup.get img "src" EmptyString in
        if Py.nonempty img_src
        then <["image_url" :=
                 VStr (Url.urljoin (base_url cfg)
                         (Py.replace img_src "../.." EmptyString))]> d
        else d
    | None => d
    end in
  Some (<["url" := VStr url]> d).

(** [parse_book_detail_page] *)
Definition parse_book_detail_page (url : string) (cfg : config)
    (get : nat -> outcome) : option record :=
  soup ← fst (make_request get cfg);
  parse_detail_soup soup url cfg.

(** The address [scrape_book_detail] requests for [url]. *)
Definition detail_address (url : string) (cfg : config) : string :=
  if negb (Py.startswith url "http")
  then if Py.startswith url "catalogue/"
       then base_url cfg ++ "/" ++ url
       else base_url cfg ++ "/catalogue/" ++ url
  else url.

(** [scrape_book_detail(url, config)]: the empty dictionary on failure. The
    call creates its own session, answered by [get]. *)
Definition scrape_book_detail (url : string) (cfg : config)
    (get : nat -> outcome) : record :=
  default ∅ (parse_book_detail_page (detail_address url cfg) cfg get).

(** ** One catalog page *)

Definition next_page_url (soup : Soup.node) (url : string) (cfg : config)
  : option string :=
  next_link ← Soup.find "li" (Some "next") soup;
  next_a ← Soup.find "a" None next_link;
  let next_href := Soup.get next_a "href" EmptyString in
  if Py.nonempty next_href
  then Some (if Py.startswith next_href "catalogue/"
             then Url.urljoin (base_url cfg) next_href
             else Url.urljoin url next_href)
  else None.

(** [scrape_page]: the records of the page and the next address. *)
Definition scrape_page (url : string) (cfg : config) (get : nat -> outcome)
  : list record * option string :=
  match fst (make_request get cfg) with
  | None => ([], None)
  | Some soup =>
      let book_cards :=
        match Soup.find_all "article" (Some "product_pod") soup with
        | [] => Soup.select_cards soup
        | found => found
        end in
      (omap (fun card => parse_book_card card (base_url cfg)) book_cards,
       next_page_url soup url cfg)
  end.

(** ** The page walk *)

(** The variables of the [while current_url] loop; [fetched] logs the pages
    requested, with their ordinals. *)
Record crawl_state := {
  books_data : list record;
  current_url : option string;
  page_num : Z;
  fetched : list (Z * string) }.

(** [max_pages and page_num > max_pages] *)
Definition over_cap (max_pages : option Z) (page_num : Z) : bool :=
  match max_pages with
  | Some m => negb (m =? 0) && (m <? page_num)
  | None => false
  end.

(** The answers of the site: to the attempts on the page with a given
    ordinal at a given address. *)
Definition website := Z -> string -> nat -> outcome.

(** One pass through the loop body, for a page that is not over the cap. *)
Definition crawl_step (web : website) (cfg : config) (url : string)
    (st : crawl_state) : crawl_state :=
  let '(books, next_url) := scrape_page url cfg (web (page_num st) url) in
  let log := (fetched st ++ [(page_num st, url)])%list in
  match next_url with
  | Some next =>
      if Py.nonempty next
      then {| books_data := (books_data st ++ books)%list;
              current_url := Some next;
              page_num := page_num st + 1;
              fetched := log |}
      else {| books_data := (books_data st ++ books)%list;
              current_url := None;
              page_num := page_num st;
              fetched := log |}
  | None =>
      {| books_data := (books_data st ++ books)%list;
         current_url := None;
         page_num := page_num st;
         fetched := log |}
  end.

(** The loop; [None] when [fuel] passes do not reach its exit. *)
Fixpoint crawl_loop (fuel : nat) (web : website) (cfg : config)
    (max_pages : option Z) (st : crawl_state) : option crawl_state :=
  match fuel with
  | O => None
  | S fuel' =>
      match current_url st with
      | None => Some st
      | Some url =>
          if negb (Py.nonempty url) then Some st
          else if over_cap max_pages (page_num st) then Some st
          else crawl_loop fuel' web cfg max_pages (crawl_step web cfg url st)
      end
  end.

Definition first_page (cfg : config) : string :=
  base_url cfg ++ "/catalogue/page-1.html".

Definition initial_state (cfg : config) : crawl_state :=
  {| books_data := []; current_url := Some (first_page cfg);
     page_num := 1; fetched := [] |}.

Definition crawl (fuel : nat) (web : website) (cfg : config)
    (max_pages : option Z) : option crawl_state :=
  crawl_loop fuel web cfg max_pages (initial_state cfg).

(** ** The url-indexed dictionary and the detailed pass *)

(** A dictionary in insertion order: assigning to a key that is present
    keeps its position. *)
Module OrderedDict.

Section Dict.
Context {V : Type}.

Fixpoint get (k : string) (d : list (string * V)) : option V :=
  match d with
  | [] => None
  | (k', v) :: d' => if String.eqb k k' then Some v else get k d'
  end.

Fixpoint set (k : string) (v : V) (d : list (string * V))
  : list (string * V) :=
  match d with
  | [] => [(k, v)]
  | (k', v') :: d' =>
      if String.eqb k k' then (k', v) :: d' else (k', v') :: set k v d'
  end.

Definition keys (d : list (string * V)) : list string := map fst d.

Definition values (d : list (string * V)) : list V := map snd d.
End Dict.

End OrderedDict.

(** [book['url']]. Every record of the listing pass has the field, as a
    string ([parse_book_card_url] below), so the default is never taken. *)
Definition url_of (book : record) : string :=
  match book !! "url" with
  | Some (VStr u) => u
  | _ => EmptyString
  end.

(** [{book['url']: book for book in all_books}] *)
Definition index_by_url (all_books : list record) : list (string * record) :=
  fold_left (fun d book => OrderedDict.set (url_of book) book d) all_books [].

(** What [future.result(timeout=10)] gives: the dictionary the task
    returned, or an exception (raised by the task, or the wait timing
    out). *)
Inductive future_result :=
| Returned (detailed_info : record)
| Raised.

(** What the environment does to one detail task: it makes it raise, or it
    answers the requests of its session. *)
Inductive task_env :=
| Crashes
| Answers (get : nat -> outcome).

Definition run_task (cfg : config) (url : string) (env : task_env)
  : future_result :=
  match env with
  | Crashes => Raised
  | Answers get => Returned (scrape_book_detail url cfg get)
  end.

(** The body of the [for future in as_completed(...)] loop. *)
Definition merge_result (book_dict : list (string * record)) (url : string)
    (res : future_result) : list (string * record) :=
  match res with
  | Returned detailed_info =>
      if dict_truthy detailed_info
      then match OrderedDict.get url book_dict with
           | Some book =>
               OrderedDict.set url (dict_update book detailed_info) book_dict
           | None => book_dict
           end
      else book_dict
  | Raised => book_dict
  end.

(** The detailed pass over the records of the listing pass. Task [i] is the
    one submitted for [detail_urls[i]]; [completion] is the order in which
    [as_completed] yields the futures. *)
Definition enrich (cfg : config) (all_books : list record)
    (tasks : nat -> task_env) (completion : list nat) : list record :=
  let detail_urls := map url_of all_books in
  let book_dict := index_by_url all_books in
  OrderedDict.values
    (fold_left
       (fun d i =>
          match detail_urls !! i with
          | Some url => merge_result d url (run_task cfg url (tasks i))
          | None => d
          end)
       completion book_dict).

(** [scrape_all_pages]; [None] when the page walk does not end within
    [fuel] pages. *)
Definition scrape_all_pages (fuel : nat) (web : website)
    (tasks : nat -> task_env) (completion : list nat)
    (cfg : config) (max_pages : option Z) (get_detailed : bool)
  : option (list record) :=
  st ← crawl fuel web cfg max_pages;
  Some (if get_detailed
        then enrich cfg (books_data st) tasks completion
        else books_data st).

(** ** The retry policy in the words of the specification *)

(** A status in the 500s. *)
Definition server_error (o : outcome) : Prop :=
  exists status content, o = Response status content /\ 500 <= status < 600.

(** A status in the 400s. *)
Definition client_error (o : outcome) : Prop :=
  exists status content, o = Response status content /\ 400 <= status < 500.

(** A failure below HTTP: everything [session.get] raises apart from the
    redirect loop. *)
Definition network_failure (o : outcome) : Prop :=
  o = ConnectionError \/ o = Timeout \/ o = HTTPError \/ o = OtherException.

Definition redirect_loop (o : outcome) : Prop := o = TooManyRedirects.

Definition success (o : outcome) (content : Soup.node) : Prop :=
  o = Response 200 content.

(** The trace of a call that makes [count] attempts, starting with attempt
    [first]: between attempt [k] and the next one a sleep of
    [min(min_delay * 2^k, max_delay * 3)] seconds, and nothing after the
    last attempt. *)
Fixpoint schedule (cfg : config) (first count : nat) : list event :=
  match count with
  | O => []
  | S O => [Get first]
  | S count' =>
      Get first
      :: Sleep (Qmin (min_delay cfg * inject_Z (2 ^ Z.of_nat first))
                     (max_delay cfg * 3))
      :: schedule cfg (S first) count'
  end.


(** The number of HTTP attempts in a trace. *)
Definition count_gets (tr : list event) : nat := length (List.filter is_get tr).

(** ** The card rules in the words of the specification *)

(** The [href] of the card's link. *)
Definition link_href (card : Soup.node) : option string :=
  h3 ← Soup.find "h3" None card;
  a ← Soup.find "a" None h3;
  Some (Soup.get a "href" EmptyString).

(** [av] reads [letters] in some letter case. *)
Definition reads (av letters : string) : Prop :=
  Re.match_letters letters av = Some EmptyString.

(** [s] starts with a parenthesised count [(ds available)]: an opening
    parenthesis, the digits [ds], white space, the word [available] in any
    letter case and a closing parenthesis. *)
Definition available_here (s ds : string) : Prop :=
  exists ws av rest,
    s = "(" ++ ds ++ ws ++ av ++ ")" ++ rest
    /\ ds <> EmptyString /\ Py.all_chars Py.is_digit ds = true
    /\ ws <> EmptyString /\ Py.all_chars Py.is_space ws = true
    /\ reads av "available".

(** The first place of [t] where a parenthesised count starts has the
    digits [ds]. *)
Definition first_available (t ds : string) : Prop :=
  exists before s,
    t = before ++ s /\ available_here s ds
    /\ forall before' s' ds',
         t = before' ++ s' ->
         (String.length before' < String.length before)%nat ->
         ~ available_here s' ds'.

(** [t] has no parenthesised count. *)
Definition no_available (t : string) : Prop :=
  forall before s ds, t = before ++ s -> ~ available_here s ds.

(** [ds] is the first bare integer of [t]: a maximal run of digits with no
    digit before it. *)
Definition first_integer (t ds : string) : Prop :=
  exists before rest,
    t = before ++ ds ++ rest
    /\ ds <> EmptyString /\ Py.all_chars Py.is_digit ds = true
    /\ Py.all_chars (fun c => negb (Py.is_digit c)) before = true
    /\ (forall c rest', rest = String c rest' -> Py.is_digit c = false).

(** The number a run of decimal digits denotes. *)
Definition count_of (ds : string) : Z := Py.digits_value 0 ds.

(** The digits the stock is read from: those of the first parenthesised
    [available], else the first bare integer. *)
Definition stock_digits (t ds : string) : Prop :=
  first_available t ds \/ (no_available t /\ first_integer t ds).

(** The stock rule: the count of the first parenthesised [available], else
    the first bare integer, else zero. *)
Inductive stock_rule (t : string) : Z -> Prop :=
| stock_available ds :
    first_available t ds -> stock_rule t (count_of ds)
| stock_integer ds :
    no_available t -> first_integer t ds -> stock_rule t (count_of ds)
| stock_default :
    no_available t ->
    Py.all_chars (fun c => negb (Py.is_digit c)) t = true ->
    stock_rule t 0.

(** The availability rule: the element exists, and it has the class token
    [instock] or its text contains [available] or [in stock] in any letter
    case. *)
Definition in_stock_rule (stock_elem : option Soup.node) (t : string) : Prop :=
  exists e,
    stock_elem = Some e
    /\ (In "instock" (Soup.classes e)
        \/ Py.contains "available" (Py.lower t) = true
        \/ Py.contains "in stock" (Py.lower t) = true).

(** ** The detailed pass in the words of the specification *)

(** What the result of its task makes of a base record: the merge with a
    non-empty detail record, the record itself otherwise. *)
Definition apply_result (book : record) (res : future_result) : record :=
  match res with
  | Returned detailed_info =>
      if dict_truthy detailed_info then dict_update book detailed_info else book
  | Raised => book
  end.

(** A task failed: it raised or timed out, or it came back empty-handed. *)
Definition task_failed (res : future_result) : Prop :=
  res = Raised \/ res = Returned ∅.

(** The record has an absolute url. *)
Definition absolute_url (book : record) : Prop :=
  exists u, book !! "url" = Some (VStr u) /\ Py.startswith u "http" = true.

(** ** The page walk in the words of the specification *)

(** The records of the page with ordinal [n] at address [u]. *)
Definition page_books (web : website) (cfg : config) (p : Z * string)
  : list record :=
  fst (scrape_page (snd p) cfg (web (fst p) (snd p))).

(** The address its next-page link leads to, when it has one. *)
Definition page_next (web : website) (cfg : config) (p : Z * string)
  : option string :=
  match snd (scrape_page (snd p) cfg (web (fst p) (snd p))) with
  | Some next => if Py.nonempty next then Some next else None
  | None => None
  end.

(** The walk from the page with ordinal [n] at address [u]: the pages
    fetched, in order, and the address left unvisited. The walk stops before
    fetching a page over the cap, it ends at a page without a next link, and
    it goes on to the page the next link leads to otherwise. *)
Inductive walk (web : website) (cfg : config) (max_pages : option Z)
  : Z -> string -> list (Z * string) -> option string -> Prop :=
| walk_over_cap n u :
    over_cap max_pages n = true ->
    walk web cfg max_pages n u [] (Some u)
| walk_end n u :
    over_cap max_pages n = false ->
    page_next web cfg (n, u) = None ->
    walk web cfg max_pages n u [(n, u)] None
| walk_next n u next log left :
    over_cap max_pages n = false ->
    page_next web cfg (n, u) = Some next ->
    walk web cfg max_pages (n + 1) next log left ->
    walk web cfg max_pages n u ((n, u) :: log) left.

(** The result of the task submitted for record [i]. *)
Definition result_of (cfg : config) (tasks : nat -> task_env) (i : nat)
    (book : record) : future_result :=
  run_task cfg (url_of book) (tasks i).

(** The dictionary once the futures of [finished] have been handled. *)
Definition dict_after (cfg : config) (all_books : list record)
    (tasks : nat -> task_env) (finished : list nat) : list (string * record) :=
  imap (fun i book =>
          (url_of book,
           if bool_decide (i ∈ finished)
           then apply_result book (result_of cfg tasks i book) else book))
       all_books.

(** One pass of the loop over the finished futures. *)
Definition merge_future (cfg : config) (all_books : list record)
    (tasks : nat -> task_env) (d : list (string * record)) (i : nat)
  : list (string * record) :=
  match map url_of all_books !! i with
  | Some url => merge_result d url (run_task cfg url (tasks i))
  | None => d
  end.

(** ** Further notions used by the theorems on the rest of the code *)

(** The delays slept in a trace, in order. *)
Fixpoint sleeps (tr : list event) : list Q :=
  match tr with
  | [] => []
  | Get _ :: tr' => sleeps tr'
  | Sleep d :: tr' => d :: sleeps tr'
  end.

(** The time slept in a trace. *)
Definition total_sleep (tr : list event) : Q :=
  fold_right Qplus 0%Q (sleeps tr).

(** The class tokens of the rating element give the rating [n]: the value
    of the first token that is a rating word, 0 when there is none. *)
Definition rating_rule (tokens : list string) (n : Z) : Prop :=
  (exists before cls after,
      tokens = (before ++ cls :: after)%list
      /\ Forall (fun c => rating_lookup c RATING_MAP = None) before
      /\ rating_lookup cls RATING_MAP = Some n)
  \/ (Forall (fun c => rating_lookup c RATING_MAP = None) tokens /\ n = 0).

(** The keys of a record of the listing pass. *)
Definition card_keys : list string :=
  ["title"; "price"; "rating"; "stock"; "in_stock"; "url"].

(** The keys the attribute table of a detail page can set. *)
Definition table_keys : list string :=
  ["upc"; "product_type"; "price_excl_tax"; "price_incl_tax"; "tax"].

(** The keys of a record of the detailed pass: those every record has and
    those it may have. *)
Definition detail_required_keys : list string :=
  ["title"; "price"; "stock"; "in_stock"; "rating"; "url"].

Definition detail_optional_keys : list string :=
  (table_keys ++ ["category"; "image_url"])%list.

(** The steps of the detail extractor after the attribute table: the
    category from the breadcrumb, then the image address. *)
Definition with_category (soup : Soup.node) (d : record) : record :=
  match Soup.find "ul" (Some "breadcrumb") soup with
  | Some breadcrumb =>
      match Soup.find_all "a" None breadcrumb with
      | _ :: _ :: third :: _ =>
          <["category" := VStr (Py.strip (Soup.text third))]> d
      | _ => d
      end
  | None => d
  end.

Definition image_elem (soup : Soup.node) : option Soup.node :=
  match Soup.find "div" (Some "item active") soup with
  | Some item => Soup.find "img" None item
  | None => None
  end.

Definition with_image (soup : Soup.node) (cfg : config) (d : record) : record :=
  match image_elem soup with
  | Some img =>
      let img_src := Soup.get img "src" EmptyString in
      if Py.nonempty img_src
      then <["image_url" :=
               VStr (Url.urljoin (base_url cfg)
                       (Py.replace img_src "../.." EmptyString))]> d
      else d
  | None => d
  end.

(** The five fields the detail extractor reads off the page elements. *)
Definition detail_core (soup product_main : Soup.node) (price : Q)
    (stock : Z) : record :=
  <["rating" := VInt (rating_of_classes
                        match Soup.find "p" (Some "star-rating") soup with
                        | Some e => Soup.classes e
                        | None => []
                        end)]>
  (<["in_stock" := VBool (in_stock_of (find_stock_elem soup)
                            (stock_text_of (find_stock_elem soup)))]>
  (<["stock" := VInt stock]>
  (<["price" := VFloat price]>
  (<["title" := VStr match Soup.find "h1" None product_main with
                     | Some e => Py.strip (Soup.text e)
                     | None => EmptyString
                     end]> ∅)))).

(** The rows of the attribute table. *)
Definition table_rows (soup : Soup.node) : list Soup.node :=
  match Soup.find "table" (Some "table table-striped") soup with
  | Some table => Soup.find_all "tr" None table
  | None => []
  end.

(** Each element once, at the place of its first occurrence. *)
Fixpoint first_seen (l : list string) : list string :=
  match l with
  | [] => []
  | x :: l' => x :: filter (fun y => y <> x) (first_seen l')
  end.

(** [o is not None] *)
Definition is_some {A : Type} (o : option A) : bool :=
  match o with Some _ => true | None => false end.

(** ** The storage configuration ([src/s3_interaction.py])

    [os.getenv] is a function from variable names to optional strings. *)

Definition S3_REGION_DEFAULT : string := "ru-7".

Record s3_config := {
  endpoint_url : option string;
  bucket_name : option string;
  access_key : string;
  secret_key : string;
  region : string }.

(** The truth value of what [os.getenv] returns: set and not empty. *)
Definition env_truthy (o : option string) : bool :=
  match o with
  | Some s => Py.nonempty s
  | None => false
  end.

(** [r'ru-(\d+)'] anchored at the start of [s]: [group(1)]. *)
Definition match_region (s : string) : option string :=
  if Py.startswith s "ru-"
  then match Py.take_while Py.is_digit (Py.slice_from 3 s) with
       | EmptyString => None
       | ds => Some ds
       end
  else None.

(** [re.search(r'ru-(\d+)', s)]: the match at the leftmost position that
    has one ([group(1)]). *)
Fixpoint search_region (s : string) : option string :=
  match match_region s with
  | Some ds => Some ds
  | None =>
      match s with
      | EmptyString => None
      | String _ s' => search_region s'
      end
  end.

(** The region read off the endpoint, [S3_REGION_DEFAULT] without one. *)
Definition region_of (endpoint : option string) : string :=
  match endpoint with
  | Some e =>
      if Py.nonempty e && Py.contains "ru-" e
      then match search_region e with
           | Some ds => "ru-" ++ ds
           | None => S3_REGION_DEFAULT
           end
      else S3_REGION_DEFAULT
  | None => S3_REGION_DEFAULT
  end.

(** [get_s3_config]: [None] when the credentials are not found. *)
Definition get_s3_config (getenv : string -> option string) : option s3_config :=
  let access := getenv "SELECTEL_ACCESS_KEY" in
  let secret := getenv "SELECTEL_SECRET_KEY" in
  let bucket := getenv "SELECTEL_BUCKET" in
  let endpoint := getenv "SELECTEL_ENDPOINT" in
  if negb (env_truthy access) || negb (env_truthy secret) then None
  else
    Some {| endpoint_url := endpoint;
            bucket_name := bucket;
            access_key := default EmptyString access;
            secret_key := default EmptyString secret;
            region := region_of endpoint |}.

(** A string that does not start with a digit. *)
Definition no_leading_digit (s : string) : Prop :=
  match s with
  | EmptyString => True
  | String c _ => Py.is_digit c = false
  end.

(** ** Frames and the filter ([save_data_locally], [src/data_analyze.py])

    A [pd.DataFrame] as the filter uses it: the column labels and the rows,
    each row a map from labels to cells. A label without a cell in a row is
    the [NaN] that [pd.DataFrame(books_data)] fills in for a key a
    dictionary lacks. Only membership in [columns] is used; their order
    (first appearance, in pandas) is not part of the model. *)

Record DataFrame := {
  columns : list string;
  rows : list record }.

(** [pd.DataFrame()] *)
Definition empty_frame : DataFrame := {| columns := []; rows := [] |}.

(** [pd.DataFrame(books_data)] *)
Definition frame_of (books_data : list record) : DataFrame :=
  {| columns := remove_dups (books_data ≫= fun book => (map_to_list book).*1);
     rows := books_data |}.

(** What [save_data_locally] returns and whether it wrote the file. *)
Definition save_data_locally (books_data : list record) : DataFrame * bool :=
  match books_data with
  | [] => (empty_frame, false)
  | _ => (frame_of books_data, true)
  end.

(** The number a cell compares as. A string has none: comparing it with a
    number raises [TypeError]. *)
Definition cell_number (v : value) : option Q :=
  match v with
  | VInt z => Some (inject_Z z)
  | VFloat q => Some q
  | VBool b => Some (if b then 1%Q else 0%Q)
  | VStr _ => None
  end.

(** One entry of the mask [df[col] >= x] or [df[col] <= x]: [NaN] compares
    false, [None] is the [TypeError]. *)
Definition compare_cell (test : Q -> bool) (col : string) (row : record)
  : option bool :=
  match row !! col with
  | Some v => test <$> cell_number v
  | None => Some false
  end.

(** [df[mask]] with the mask computed over the whole column. *)
Fixpoint select_rows (test : Q -> bool) (col : string) (l : list record)
  : option (list record) :=
  match l with
  | [] => Some []
  | row :: l' =>
      match compare_cell test col row with
      | Some keep =>
          kept ← select_rows test col l';
          Some (if keep then row :: kept else kept)
      | None => None
      end
  end.

(** [if col in df.columns: df = df[test(df[col])]] *)
Definition select_if_column (test : Q -> bool) (col : string) (df : DataFrame)
  : option DataFrame :=
  if bool_decide (col ∈ columns df)
  then kept ← select_rows test col (rows df);
       Some {| columns := columns df; rows := kept |}
  else Some df.

(** [df['rating'] >= min_rating] and [df['price'] <= max_price] on a
    number. *)
Definition rating_test (min_rating : Z) (q : Q) : bool :=
  Qle_bool (inject_Z min_rating) q.

Definition price_test (max_price : Q) (q : Q) : bool := Qle_bool q max_price.

(** The frame [filter_and_save_books] returns; [None] when a comparison
    raises. *)
Definition filter_books (df : DataFrame) (min_rating : Z) (max_price : Q)
  : option DataFrame :=
  filtered ← select_if_column (rating_test min_rating) "rating" df;
  select_if_column (price_test max_price) "price" filtered.

(** What [filter_and_save_books] does besides: it writes the local file,
    then uploads it under a key made of the time stamp. The outcome of the
    upload is ignored. *)
Inductive output :=
| ToCsv (name : string) (records : nat)
| UploadFile (bucket key : string).

Definition CSV_FILTERED_BOOKS : string := "filtered_books.csv".
Definition S3_PREFIX_FILTERED : string := "filtered_data/".
Definition MIN_RATING_FILTER : Z := 4.
Definition MAX_PRICE_FILTER : Q := 50.

Definition filter_and_save_books (df : DataFrame) (min_rating : Z)
    (max_price : Q) (s3_client : bool) (bucket : option string)
    (timestamp : string) : option (DataFrame * list output) :=
  filtered ← filter_books df min_rating max_price;
  Some (filtered,
        if (0 <? length (rows filtered))%nat
        then ToCsv CSV_FILTERED_BOOKS (length (rows filtered))
             :: (if s3_client && env_truthy bucket
                 then [UploadFile (default EmptyString bucket)
                         (S3_PREFIX_FILTERED ++ timestamp ++ "_"
                          ++ CSV_FILTERED_BOOKS)]
                 else [])
        else []).

(** A row passes the filter of a frame: where the frame has the column, the
    cell is a number within the bound. *)
Definition passes (df : DataFrame) (min_rating : Z) (max_price : Q)
    (row : record) : Prop :=
  ("rating" ∈ columns df ->
   exists q, row !! "rating" ≫= cell_number = Some q
             /\ (inject_Z min_rating <= q)%Q)
  /\ ("price" ∈ columns df ->
      exists q, row !! "price" ≫= cell_number = Some q /\ (q <= max_price)%Q).

(** The cell of a row in a column is a number or missing. *)
Definition numeric_or_missing (col : string) (row : record) : Prop :=
  match row !! col with
  | Some v => is_Some (cell_number v)
  | None => True
  end.

(** The mask says [True] for the row. *)
Definition keeps (test : Q -> bool) (col : string) (row : record) : bool :=
  match compare_cell test col row with
  | Some true => true
  | _ => false
  end.

(** The same for a frame with the columns [cols]: a column the frame lacks
    keeps every row. *)
Definition keeps_in (cols : list string) (test : Q -> bool) (col : string)
    (row : record) : bool :=
  negb (bool_decide (col ∈ cols)) || keeps test col row.

(** A scraped record passes the bounds. *)
Definition within_bounds (min_rating : Z) (max_price : Q) (row : record)
  : Prop :=
  exists n q,
    row !! "rating" = Some (VInt n) /\ min_rating <= n
    /\ row !! "price" = Some (VFloat q) /\ (q <= max_price)%Q.

(** The six fields of a book record and their types. *)
Definition book_schema (r : record) : Prop :=
  (exists s, r !! "title" = Some (VStr s))
  /\ (exists q, r !! "price" = Some (VFloat q) /\ (0 <= q)%Q)
  /\ (exists n, r !! "rating" = Some (VInt n) /\ 0 <= n <= 5)
  /\ (exists n, r !! "stock" = Some (VInt n) /\ 0 <= n)
  /\ (exists b, r !! "in_stock" = Some (VBool b))
  /\ (exists u, r !! "url" = Some (VStr u)).

(** ** The configuration of the repository and sample documents *)

Definition CUSTOM_CONFIG : config :=
  {| headers :=
       [("User-Agent",
         "Mozilla/5.0             (Windows NT 10.0; Win64; x64)             AppleWebKit/537.36");
        ("Accept",
         "text/html,application/xhtml+xml,            application/xml;q=0.9,*/*;q=0.8");
        ("Accept-Language", "en-US,en;q=0.5")];
     min_delay := 1;
     max_delay := 3;
     max_retries := 3;
     timeout := 10;
     base_url := "https://books.toscrape.com" |}.

(** A listing card as the site serves it. *)
Definition sample_card (href price : string) (stock_classes : list string)
    (stock : string) : Soup.node :=
  Soup.Tag "article" [] ["product_pod"]
    [Soup.Tag "p" [] ["star-rating"; "Three"] [];
     Soup.Tag "h3" [] []
       [Soup.Tag "a" [("href", href); ("title", "A Light in the Attic")] []
          [Soup.NavigableString "A Light in the ..."]];
     Soup.Tag "div" [] ["product_price"]
       [Soup.Tag "p" [] ["price_color"] [Soup.NavigableString price];
        Soup.Tag "p" [] stock_classes [Soup.NavigableString stock]]].

(** A catalog page with its cards and, when there is one, the link to the
    next page. *)
Definition listing_page (cards : list Soup.node) (next_href : option string)
  : Soup.node :=
  Soup.Tag "[document]" [] []
    [Soup.Tag "html" [] []
       [Soup.Tag "body" [] []
          (Soup.Tag "ol" [] ["row"]
             (map (fun c => Soup.Tag "li" [] ["col-xs-6"; "col-sm-4"] [c]) cards)
           :: match next_href with
              | Some h =>
                  [Soup.Tag "ul" [] ["pager"]
                     [Soup.Tag "li" [] ["next"]
                        [Soup.Tag "a" [("href", h)] []
                           [Soup.NavigableString "next"]]]]
              | None => []
              end)]].

Definition in_stock_card (name : string) : Soup.node :=
  sample_card (name ++ "/index.html") "51.77" ["instock"; "availability"]
    "In stock (19 available)".

(** A catalog of three pages: a next link on the first two, none on the
    third; every other address answers 404. *)
Definition three_pages : website :=
  fun _ url _ =>
    if String.eqb url "https://books.toscrape.com/catalogue/page-1.html"
    then Response 200
           (listing_page [in_stock_card "a"; in_stock_card "b"] (Some "page-2.html"))
    else if String.eqb url "https://books.toscrape.com/catalogue/page-2.html"
    then Response 200 (listing_page [in_stock_card "c"] (Some "page-3.html"))
    else if String.eqb url "https://books.toscrape.com/catalogue/page-3.html"
    then Response 200 (listing_page [in_stock_card "d"] None)
    else Response 404 (Soup.NavigableString "Not Found").

(** The same catalog with a server that fails on every attempt at the
    second page. *)
Definition second_page_down : website :=
  fun n url k =>
    if String.eqb url "https://books.toscrape.com/catalogue/page-2.html"
    then Response 503 (Soup.NavigableString "Service Unavailable")
    else three_pages n url k.

(** A server that answers 503 twice and then 200. *)
Definition flaky (content : Soup.node) : nat -> outcome :=
  fun k => if (k <? 2)%nat then Response 503 (Soup.NavigableString "") 
           else Response 200 content.

(** A detail page as the site serves it. *)
Definition sample_detail_page (price : string) (with_category : bool)
  : Soup.node :=
  Soup.Tag "[document]" [] []
    [Soup.Tag "ul" [] ["breadcrumb"]
       (Soup.Tag "li" [] [] [Soup.Tag "a" [("href", "../../index.html")] []
                               [Soup.NavigableString "Home"]]
        :: Soup.Tag "li" [] [] [Soup.Tag "a" [("href", "../category/books_1/index.html")] []
                                  [Soup.NavigableString "Books"]]
        :: if with_category
           then [Soup.Tag "li" [] []
                   [Soup.Tag "a" [("href", "../category/books/poetry_23/index.html")] []
                      [Soup.NavigableString "Poetry"]]]
           else []);
     Soup.Tag "div" [] ["item"; "active"]
       [Soup.Tag "img" [("src", "../../media/cache/fe/72/cover.jpg")] [] []];
     Soup.Tag "div" [] ["col-sm-6"; "product_main"]
       [Soup.Tag "h1" [] [] [Soup.NavigableString "A Light in the Attic"];
        Soup.Tag "p" [] ["price_color"] [Soup.NavigableString price];
        Soup.Tag "p" [] ["instock"; "availability"]
          [Soup.NavigableString "
    In stock (22 available)
"];
        Soup.Tag "p" [] ["star-rating"; "Three"] []];
     Soup.Tag "table" [] ["table"; "table-striped"]
       [Soup.Tag "tr" [] [] [Soup.Tag "th" [] [] [Soup.NavigableString "UPC"];
                             Soup.Tag "td" [] [] [Soup.NavigableString "a897fe39b1053632"]];
        Soup.Tag "tr" [] [] [Soup.Tag "th" [] [] [Soup.NavigableString "Product Type"];
                             Soup.Tag "td" [] [] [Soup.NavigableString "Books"]];
        Soup.Tag "tr" [] [] [Soup.Tag "th" [] [] [Soup.NavigableString "Price (excl. tax)"];
                             Soup.Tag "td" [] [] [Soup.NavigableString "51.77"]];
        Soup.Tag "tr" [] [] [Soup.Tag "th" [] [] [Soup.NavigableString "Price (incl. tax)"];
                             Soup.Tag "td" [] [] [Soup.NavigableString "51.77"]];
        Soup.Tag "tr" [] [] [Soup.Tag "th" [] [] [Soup.NavigableString "Tax"];
                             Soup.Tag "td" [] [] [Soup.NavigableString "0.50"]];
        Soup.Tag "tr" [] [] [Soup.Tag "th" [] [] [Soup.NavigableString "Number of reviews"];
                             Soup.Tag "td" [] [] [Soup.NavigableString "0"]]]].

(** The records of the first sample page. *)
Definition sample_books : list record :=
  fst (scrape_page "https://books.toscrape.com/catalogue/page-1.html"
         CUSTOM_CONFIG
         (three_pages 1 "https://books.toscrape.com/catalogue/page-1.html")).

(** The first detail task raises, the second one gets its page. *)
Definition sample_tasks : nat -> task_env :=
  fun i =>
    match i with
    | O => Crashes
    | _ => Answers (fun _ => Response 200 (sample_detail_page "51.77" false))
    end.

Definition sample_book : record := default ∅ (sample_books !! 1%nat).

Definition sample_get : nat -> outcome :=
  fun _ => Response 200 (sample_detail_page "51.77" false).

Definition sample_detail : record :=
  scrape_book_detail "https://books.toscrape.com/catalogue/b/index.html"
    CUSTOM_CONFIG sample_get.


(** The card of a book in stock and the record it yields. *)
Definition stock_card : Soup.node :=
  sample_card "a/index.html" "51.77" ["instock"; "availability"]
    "In stock (19 available)".

Definition stock_card_record : record :=
  default ∅ (parse_book_card stock_card "https://books.toscrape.com").

(** The record of a sample card, the record of a sample detail page and
    the records of the sample catalog. *)
Definition sample_card_record : record :=
  default ∅ (parse_book_card (in_stock_card "a") "https://books.toscrape.com").

Definition sample_detail_record (with_category : bool) : record :=
  default ∅ (parse_detail_soup (sample_detail_page "51.77" with_category)
               "https://books.toscrape.com/catalogue/a/index.html" CUSTOM_CONFIG).

Definition sample_catalog_records : list record :=
  default [] (scrape_all_pages 4 three_pages sample_tasks [] CUSTOM_CONFIG None false).

(** Two bare base records with distinct urls. *)
Definition two_books : list record :=
  [{[ "url" := VStr "http://a" ]}; {[ "url" := VStr "http://b" ]}].

(** An environment with the credentials and an endpoint. *)
Definition sample_env (name : string) : option string :=
  if String.eqb name "SELECTEL_ACCESS_KEY" then Some "key"
  else if String.eqb name "SELECTEL_SECRET_KEY" then Some "secret"
  else if String.eqb name "SELECTEL_ENDPOINT"
       then Some "https://s3.ru-3.storage.selcloud.ru"
  else None.

Definition sample_s3_config : s3_config :=
  {| endpoint_url := Some "https://s3.ru-3.storage.selcloud.ru";
     bucket_name := None;
     access_key := "key";
     secret_key := "secret";
     region := "ru-3" |}.

(** A frame of three books: one passes the default bounds, one is rated
    too low, one costs too much. *)
Definition sample_rows : list record :=
  [ {[ "title" := VStr "a"; "rating" := VInt 5; "price" := VFloat 20 ]};
    {[ "title" := VStr "b"; "rating" := VInt 3; "price" := VFloat 20 ]};
    {[ "title" := VStr "c"; "rating" := VInt 4; "price" := VFloat 51 ]} ].

Definition sample_frame : DataFrame := frame_of sample_rows.

Definition sample_filtered : DataFrame :=
  default empty_frame
    (filter_books sample_frame MIN_RATING_FILTER MAX_PRICE_FILTER).

(** * Theorems *)

(** ** Equality of characters and strings *)

Lemma char_eqb_eq (a b : char) : Char.eqb a b = true <-> a = b.
Proof. apply N.eqb_eq. Qed.

Lemma char_eqb_refl (a : char) : Char.eqb a a = true.
Proof. apply N.eqb_refl. Qed.

Lemma char_eqb_spec (a b : char) : reflect (a = b) (Char.eqb a b).
Proof. apply N.eqb_spec. Qed.

Lemma string_eqb_eq (a b : string) : String.eqb a b = true <-> a = b.
Proof.
  revert b. induction a as [|x a IH]; intros [|y b]; simpl;
    try (split; [discriminate|discriminate]); [tauto|].
  rewrite andb_true_iff, char_eqb_eq, IH. split; [intros [-> ->]|intros [= -> ->]]; auto.
Qed.

Lemma string_eqb_refl (a : string) : String.eqb a a = true.
Proof. now apply string_eqb_eq. Qed.

Lemma string_eqb_spec (a b : string) : reflect (a = b) (String.eqb a b).
Proof.
  destruct (String.eqb a b) eqn:E; constructor.
  - now apply string_eqb_eq.
  - intros H. apply string_eqb_eq in H. congruence.
Qed.

(** A computation that succeeds returns its result. *)
Lemma is_some_default {A : Type} (d : A) (o : option A) :
  is_some o = true -> o = Some (default d o).
Proof. destruct o; [reflexivity|discriminate]. Qed.

(** ** The fetcher *)

Lemma verdict_retry o :
  attempt_verdict o = Retry <-> server_error o \/ network_failure o.
Proof.
  unfold server_error, network_failure. split.
  - destruct o as [s c| | | | |]; simpl; intros H; try (right; tauto);
      try discriminate.
    destruct (s =? 200) eqn:E2; [discriminate|].
    destruct ((500 <=? s) && (s <? 600)) eqn:E5; [|discriminate].
    left. exists s, c. split; [reflexivity|lia].
  - intros [(s & c & -> & Hs)|[->|[->|[->| ->]]]]; simpl; try reflexivity.
    replace (s =? 200) with false by lia.
    replace ((500 <=? s) && (s <? 600)) with true by lia. reflexivity.
Qed.

Lemma verdict_success o content :
  success o content -> attempt_verdict o = Return (Some content).
Proof. intros ->. reflexivity. Qed.

Lemma verdict_terminal o :
  client_error o \/ redirect_loop o -> attempt_verdict o = Return None.
Proof.
  intros [(s & c & -> & Hs)| ->]; simpl; [|reflexivity].
  replace (s =? 200) with false by lia.
  replace ((500 <=? s) && (s <? 600)) with false by lia. reflexivity.
Qed.

(** The shape of a run of the loop: it stops at the first pass that
    returns, or when the passes are used up. *)
Lemma attempts_loop_shape get cfg todo a :
  let r := fst (attempts_loop get cfg todo a) in
  let n := count_gets (snd (attempts_loop get cfg todo a)) in
  (n <= todo)%nat
  /\ (todo <> O -> n <> O)
  /\ (forall j, (S j < n)%nat -> attempt_verdict (get (a + j)%nat) = Retry)
  /\ (forall j, n = S j ->
        match attempt_verdict (get (a + j)%nat) with
        | Return x => r = x
        | Retry => n = todo /\ r = None
        end)
  /\ (todo = O -> r = None).
Proof.
  unfold count_gets. revert a. induction todo as [|todo IH]; intros a; simpl.
  - repeat split; try lia; try discriminate.
  - destruct (attempt_verdict (get a)) eqn:Ev.
    + simpl. repeat split; try lia; try discriminate.
      intros j [= <-]. rewrite Nat.add_0_r, Ev. reflexivity.
    + specialize (IH (S a)).
      destruct (attempts_loop get cfg todo (S a)) as [r later] eqn:El.
      simpl in IH. destruct IH as (IH1 & IH2 & IH3 & IH4 & IH5).
      assert (Hc : length (List.filter is_get
                     ((if Z.of_nat a <? max_retries cfg
                       then [Sleep (backoff_delay cfg a)] else []) ++ later))
                   = length (List.filter is_get later)).
      { destruct (Z.of_nat a <? max_retries cfg); reflexivity. }
      simpl. rewrite Hc. repeat split; try lia; try discriminate.
      * intros [|j] Hj; [rewrite Nat.add_0_r; exact Ev|].
        rewrite Nat.add_succ_r. apply IH3. lia.
      * intros j [= Hj]. destruct j as [|j].
        -- rewrite Nat.add_0_r, Ev. destruct todo; [|lia].
           split; [lia|]. apply IH5. reflexivity.
        -- rewrite Nat.add_succ_r. specialize (IH4 j Hj).
           destruct (attempt_verdict (get (S (a + j)))); [exact IH4|].
           destruct IH4; split; [lia|assumption].
Qed.

(** The trace of a run of the loop is the schedule of its attempts. *)
Lemma attempts_loop_trace get cfg todo a :
  (todo <> O -> Z.of_nat (a + todo) = max_retries cfg + 1) ->
  snd (attempts_loop get cfg todo a)
  = schedule cfg a (count_gets (snd (attempts_loop get cfg todo a))).
Proof.
  revert a. induction todo as [|todo IH]; intros a Hb; simpl; [reflexivity|].
  destruct (attempt_verdict (get a)) eqn:Ev; [reflexivity|].
  specialize (IH (S a)).
  pose proof (attempts_loop_shape get cfg todo (S a)) as (_ & Hn & _).
  destruct (attempts_loop get cfg todo (S a)) as [r later] eqn:El.
  simpl in *. destruct todo as [|todo].
  - simpl in El. injection El as <- <-.
    replace (Z.of_nat a <? max_retries cfg) with false by lia. reflexivity.
  - replace (Z.of_nat a <? max_retries cfg) with true by lia.
    unfold count_gets in *. simpl.
    assert (IH' := IH ltac:(lia)). clear IH.
    destruct (length (List.filter is_get later)) eqn:En;
      [exfalso; apply Hn; [discriminate|reflexivity]|].
    unfold backoff_delay. f_equal. f_equal. exact IH'.
Qed.

(** C2. With a non-negative [max_retries] and non-negative delays,
    [make_request] issues at least one and at most [max_retries + 1]
    attempts. Only an attempt that failed with a 5xx status or below HTTP is
    followed by another one, and such a failure is followed by another
    attempt while the budget lasts. The first attempt that does not fail in
    this way ends the call: a 200 with the response, a 4xx or a redirect
    loop with [None], and no further attempt is made; in particular a 200
    on the first attempt returns the response after one attempt. When every
    attempt of the budget fails in a retryable way the call makes them all
    and returns [None]. *)
Theorem make_request_retry_policy (get : nat -> outcome) (cfg : config) :
  0 <= max_retries cfg ->
  (0 <= min_delay cfg)%Q ->
  (0 <= max_delay cfg)%Q ->
  let response := fst (make_request get cfg) in
  let n := attempts get cfg in
  let retryable k := server_error (get k) \/ network_failure (get k) in
  (0 < n)%nat
  /\ Z.of_nat n <= max_retries cfg + 1
  /\ (forall k, (S k < n)%nat -> retryable k)
  /\ (forall k content,
        Z.of_nat k <= max_retries cfg ->
        (forall j, (j < k)%nat -> retryable j) ->
        success (get k) content ->
        response = Some content /\ n = S k)
  /\ (forall k,
        Z.of_nat k <= max_retries cfg ->
        (forall j, (j < k)%nat -> retryable j) ->
        client_error (get k) \/ redirect_loop (get k) ->
        response = None /\ n = S k)
  /\ (forall k,
        Z.of_nat k < max_retries cfg ->
        (forall j, (j <= k)%nat -> retryable j) ->
        (S k < n)%nat)
  /\ (forall content, success (get 0%nat) content ->
        make_request get cfg = (Some content, [Get 0%nat]))
  /\ ((forall k, Z.of_nat k <= max_retries cfg -> retryable k) ->
      response = None /\ Z.of_nat n = max_retries cfg + 1).
Proof.
  intros Hm _ _. unfold attempts, make_request.
  fold (count_gets (snd (attempts_loop get cfg (Z.to_nat (max_retries cfg + 1)) 0))).
  pose proof (attempts_loop_shape get cfg (Z.to_nat (max_retries cfg + 1)) 0)
    as (H1 & H2 & H3 & H4 & _).
  simpl in *.
  set (n := count_gets _) in *. set (r := fst _) in *.
  assert (Hpos : (0 < n)%nat) by (apply Nat.neq_0_lt_0, H2; lia).
  assert (Hfirst : forall k x,
             Z.of_nat k <= max_retries cfg ->
             (forall j, (j < k)%nat ->
                        server_error (get j) \/ network_failure (get j)) ->
             attempt_verdict (get k) = Return x -> r = x /\ n = S k).
  { intros k x Hk Hbefore Hx.
    destruct n as [|m] eqn:En; [lia|].
    destruct (Nat.lt_trichotomy m k) as [Hlt|[->|Hgt]].
    - specialize (H4 m eq_refl).
      rewrite (proj2 (verdict_retry _) (Hbefore m Hlt)) in H4. lia.
    - specialize (H4 k eq_refl). rewrite Hx in H4. auto.
    - rewrite H3 in Hx by lia. discriminate. }
  split; [exact Hpos|].
  split; [lia|].
  split; [intros k Hk; apply verdict_retry, H3, Hk|].
  split; [intros k content Hk Hb Hs; eapply Hfirst; eauto using verdict_success|].
  split; [intros k Hk Hb Hs; eapply Hfirst; eauto using verdict_terminal|].
  split.
  - intros k Hk Hall. destruct n as [|m] eqn:En; [lia|].
    destruct (Nat.lt_ge_cases k m) as [Hlt|Hge]; [lia|].
    specialize (H4 m eq_refl).
    rewrite (proj2 (verdict_retry _) (Hall m Hge)) in H4. lia.
  - split.
    + intros content Hs. apply verdict_success in Hs.
      destruct (Z.to_nat (max_retries cfg + 1)) as [|todo] eqn:Et; [lia|].
      simpl. now rewrite Hs.
    + intros Hall. destruct n as [|j] eqn:En; [lia|].
      specialize (H4 j eq_refl).
      rewrite (proj2 (verdict_retry _)) in H4 by (apply Hall; lia).
      split; [tauto|lia].
Qed.

(** C3. The trace of [make_request] is the schedule of its attempts: the
    sleep after a failed attempt [k] that is followed by another attempt is
    [min(min_delay * 2^k, max_delay * 3)], and nothing is slept after the
    last attempt. *)
Theorem make_request_backoff_schedule (get : nat -> outcome) (cfg : config) :
  snd (make_request get cfg) = schedule cfg 0 (attempts get cfg).
Proof.
  unfold attempts, make_request. apply attempts_loop_trace. lia.
Qed.

Lemma make_request_retry_policy_witness :
  0 <= max_retries CUSTOM_CONFIG
  /\ fst (make_request (flaky (Soup.NavigableString "ok")) CUSTOM_CONFIG)
     = Some (Soup.NavigableString "ok")
  /\ attempts (flaky (Soup.NavigableString "ok")) CUSTOM_CONFIG = 3%nat.
Proof.
  assert (H : 0 <= max_retries CUSTOM_CONFIG) by (simpl; lia).
  assert (H1 : (0 <= min_delay CUSTOM_CONFIG)%Q) by (vm_compute; discriminate).
  assert (H2 : (0 <= max_delay CUSTOM_CONFIG)%Q) by (vm_compute; discriminate).
  split; [exact H|].
  destruct (make_request_retry_policy (flaky (Soup.NavigableString "ok"))
              CUSTOM_CONFIG H H1 H2) as (_ & _ & _ & Hsuccess & _).
  apply (Hsuccess 2%nat (Soup.NavigableString "ok")).
  - simpl. lia.
  - intros [|[|j]] Hj; [| |lia];
      left; exists 503, (Soup.NavigableString ""); (split; [reflexivity|lia]).
  - reflexivity.
Defined.

(** ** The listing card *)

(** What a card that parses yields, field by field. *)
Lemma parse_book_card_inv card base r :
  parse_book_card card base = Some r ->
  exists href price title stock,
    link_href card = Some href
    /\ price_of_elem (Soup.find "p" (Some "price_color") card) = Some price
    /\ stock_of_text (stock_text_of (find_stock_elem card)) = Some stock
    /\ r = <["url" := VStr (Url.urljoin base (normalize_href href))]>
           (<["in_stock" := VBool (in_stock_of (find_stock_elem card)
                                     (stock_text_of (find_stock_elem card)))]>
           (<["stock" := VInt stock]>
           (<["rating" := VInt (rating_of_classes
                                  match Soup.find "p" (Some "star-rating") card with
                                  | Some e => Soup.classes e
                                  | None => []
                                  end)]>
           (<["price" := VFloat price]>
           (<["title" := VStr title]> ∅))))).
Proof.
  unfold parse_book_card, link_href.
  destruct (Soup.find "h3" None card) as [h3|]; [|discriminate]. simpl.
  destruct (Soup.find "a" None h3) as [a|]; [|discriminate]. simpl.
  destruct (price_of_elem _) as [price|]; [|discriminate]. simpl.
  destruct (stock_of_text _) as [stock|]; [|discriminate]. simpl.
  intros [= <-]. do 4 eexists. repeat split; reflexivity.
Qed.

Lemma parse_book_card_url card base r :
  parse_book_card card base = Some r ->
  exists href,
    link_href card = Some href
    /\ r !! "url" = Some (VStr (Url.urljoin base (normalize_href href))).
Proof.
  intros H. apply parse_book_card_inv in H
    as (href & price & title & stock & Hl & _ & Hstock & ->).
  exists href. split; [exact Hl|]. apply lookup_insert_eq.
Qed.

Lemma normalize_href_up3 x :
  normalize_href ("../../../" ++ x) = "catalogue/" ++ x.
Proof. reflexivity. Qed.

Lemma normalize_href_catalogue x :
  normalize_href ("catalogue/" ++ x) = "catalogue/" ++ x.
Proof. reflexivity. Qed.

(** C1, as stated, fails: against the site's base address the card with the
    link [../../../catalogue/foo.html] gets a url with the [catalogue/]
    segment twice, the card with [catalogue/foo.html] gets it once. *)
Lemma card_url_catalogue_twice :
  let base := "https://books.toscrape.com" in
  exists r1 r2,
    link_href (sample_card "../../../catalogue/foo.html" "51.77" [] "")
      = Some "../../../catalogue/foo.html"
    /\ link_href (sample_card "catalogue/foo.html" "51.77" [] "")
      = Some "catalogue/foo.html"
    /\ parse_book_card (sample_card "../../../catalogue/foo.html" "51.77" [] "") base
       = Some r1
    /\ parse_book_card (sample_card "catalogue/foo.html" "51.77" [] "") base
       = Some r2
    /\ r1 !! "url"
       = Some (VStr "https://books.toscrape.com/catalogue/catalogue/foo.html")
    /\ r2 !! "url" = Some (VStr "https://books.toscrape.com/catalogue/foo.html")
    /\ r1 !! "url" <> r2 !! "url".
Proof.
  eexists _, _. split; [reflexivity|]. split; [reflexivity|].
  split; [reflexivity|]. split; [reflexivity|].
  split; [vm_compute; reflexivity|]. split; [vm_compute; reflexivity|].
  vm_compute. discriminate.
Qed.

(** C1, amended. For every base address, a card whose link is [../../../X]
    and a card whose link is [catalogue/X] get the same url: the resolution
    of [catalogue/X] against the base. *)
Theorem card_url_relative_prefix (base : string) (card1 card2 : Soup.node)
    (r1 r2 : record) (x : string) :
  link_href card1 = Some ("../../../" ++ x) ->
  link_href card2 = Some ("catalogue/" ++ x) ->
  parse_book_card card1 base = Some r1 ->
  parse_book_card card2 base = Some r2 ->
  r1 !! "url" = r2 !! "url"
  /\ r1 !! "url" = Some (VStr (Url.urljoin base ("catalogue/" ++ x))).
Proof.
  intros L1 L2 P1 P2.
  apply parse_book_card_url in P1 as (h1 & L1' & ->).
  apply parse_book_card_url in P2 as (h2 & L2' & ->).
  assert (E1 : h1 = "../../../" ++ x) by congruence.
  assert (E2 : h2 = "catalogue/" ++ x) by congruence.
  rewrite E1, E2, normalize_href_up3, normalize_href_catalogue. auto.
Qed.

Lemma card_url_relative_prefix_witness :
  exists r1 r2,
    parse_book_card (sample_card "../../../foo.html" "51.77" [] "")
      "https://books.toscrape.com" = Some r1
    /\ parse_book_card (sample_card "catalogue/foo.html" "51.77" [] "")
      "https://books.toscrape.com" = Some r2
    /\ r1 !! "url" = r2 !! "url".
Proof.
  eexists _, _. split; [reflexivity|]. split; [reflexivity|].
  refine (proj1 (card_url_relative_prefix "https://books.toscrape.com"
                   (sample_card "../../../foo.html" "51.77" [] "")
                   (sample_card "catalogue/foo.html" "51.77" [] "")
                   _ _ "foo.html" eq_refl eq_refl eq_refl eq_refl)).
Defined.

(** ** The price *)

(** The price of a card that parses is what the price rule gives. *)
Lemma parse_book_card_price card base r :
  parse_book_card card base = Some r ->
  exists q,
    price_of_elem (Soup.find "p" (Some "price_color") card) = Some q
    /\ r !! "price" = Some (VFloat q).
Proof.
  intros H. apply parse_book_card_inv in H
    as (href & price & title & stock & _ & Hp & Hstock & ->).
  exists price. split; [exact Hp|].
  rewrite !lookup_insert_ne by discriminate. apply lookup_insert_eq.
Qed.

(** Without a price element, or without a digit or point in its text, the
    price is 0.0; a run that is a literal gives its value. *)
Lemma price_of_elem_cases price_elem :
  match price_elem with
  | None => price_of_elem price_elem = Some 0%Q
  | Some e =>
      match Re.search_number (Py.strip (Soup.text e)) with
      | None => price_of_elem price_elem = Some 0%Q
      | Some run => price_of_elem price_elem = Py.float_of_run run
      end
  end.
Proof.
  destruct price_elem as [e|]; [|reflexivity]. unfold price_of_elem.
  destruct (Re.search_number _); reflexivity.
Qed.

(** C6. The price rule holds when the first run of digits and points is a
    literal, and the price is 0.0 without an element or without such a
    character; but a price text whose first run is not a literal ([N.A.]
    gives the run [.], [12.50.] gives [12.50.]) makes [float] raise, and
    the extractor drops the whole card (and the whole detail record)
    instead of setting the price to 0.0. *)
Theorem price_run_not_a_literal :
  Re.search_number (Py.strip "N.A.") = Some "."
  /\ Py.float_of_run "." = None
  /\ parse_book_card
       (sample_card "a/index.html" "N.A." ["instock"; "availability"]
          "In stock (19 available)")
       "https://books.toscrape.com" = None
  /\ Re.search_number (Py.strip "12.50.") = Some "12.50."
  /\ parse_book_card
       (sample_card "a/index.html" "12.50." ["instock"; "availability"]
          "In stock (19 available)")
       "https://books.toscrape.com" = None
  /\ parse_detail_soup (sample_detail_page "N.A." true)
       "https://books.toscrape.com/catalogue/a/index.html" CUSTOM_CONFIG = None
  /\ (exists r,
        parse_book_card
          (sample_card "a/index.html" "free" ["instock"; "availability"]
             "In stock (19 available)")
          "https://books.toscrape.com" = Some r
        /\ r !! "price" = Some (VFloat 0)).
Proof.
  repeat (split; [vm_compute; reflexivity|]).
  eexists. split; vm_compute; reflexivity.
Qed.

(** ** Runs of characters *)

Section Runs.
Variable p : char -> bool.

Lemma take_drop_while s : Py.take_while p s ++ Py.drop_while p s = s.
Proof.
  induction s as [|c s IH]; simpl; [reflexivity|].
  destruct (p c); simpl; [now rewrite IH|reflexivity].
Qed.

Lemma take_while_all s : Py.all_chars p (Py.take_while p s) = true.
Proof.
  induction s as [|c s IH]; simpl; [reflexivity|].
  destruct (p c) eqn:E; simpl; [now rewrite E|reflexivity].
Qed.

Lemma drop_while_head s c r : Py.drop_while p s = String c r -> p c = false.
Proof.
  induction s as [|c' s IH]; simpl; [discriminate|].
  destruct (p c') eqn:E; [exact IH|]. intros [= -> _]. exact E.
Qed.

(** A run that is followed by a character outside the class, or by
    nothing, is what [take_while] takes. *)
Lemma take_while_run a b :
  Py.all_chars p a = true ->
  (forall c r, b = String c r -> p c = false) ->
  Py.take_while p (a ++ b) = a /\ Py.drop_while p (a ++ b) = b.
Proof.
  intros Ha Hb. induction a as [|c a IH]; simpl in *.
  - destruct b as [|c r]; simpl; [auto|]. rewrite (Hb c r eq_refl). auto.
  - apply andb_true_iff in Ha as [Hc Ha]. rewrite Hc.
    destruct (IH Ha) as [-> ->]. auto.
Qed.

End Runs.

Lemma append_assoc (a b c : string) : (a ++ b) ++ c = a ++ b ++ c.
Proof. induction a as [|x a IH]; simpl; [reflexivity|now rewrite IH]. Qed.

Lemma append_nil_r (a : string) : a ++ "" = a.
Proof. induction a as [|x a IH]; simpl; [reflexivity|now rewrite IH]. Qed.

Lemma nonempty_true s : Py.nonempty s = true <-> s <> EmptyString.
Proof. destruct s; simpl; split; congruence. Qed.

(** ** The character classes *)

Lemma is_space_cases c : Py.is_space c = true -> In c Unicode.whitespace.
Proof.
  unfold Py.is_space. intros H. apply existsb_exists in H as (x & Hx & E).
  apply N.eqb_eq in E. now subst.
Qed.

(** No white space character is a decimal digit. *)
Lemma space_not_digit c : Py.is_space c = true -> Py.is_digit c = false.
Proof.
  intros H. apply is_space_cases in H. unfold Unicode.whitespace in H.
  simpl in H.
  repeat (destruct H as [<-|H]; [vm_compute; reflexivity|]). destruct H.
Qed.

(** No white space character reads as the letter [a]. *)
Lemma ignorecase_a_not_space c :
  Re.ignorecase "a" c = true -> Py.is_space c = false.
Proof.
  intros H. destruct (Py.is_space c) eqn:E; [|reflexivity].
  apply is_space_cases in E. unfold Unicode.whitespace in E. simpl in E.
  repeat (destruct E as [<-|E]; [vm_compute in H; discriminate|]). destruct E.
Qed.

(** The letters matched at the start of a text split the text. *)
Lemma match_letters_split letters s rest :
  Re.match_letters letters s = Some rest ->
  exists av, s = av ++ rest /\ reads av letters.
Proof.
  unfold reads. revert s. induction letters as [|l letters IH]; intros s H.
  - exists EmptyString. simpl in H. injection H as ->. auto.
  - destruct s as [|c s]; simpl in H; [discriminate|].
    destruct (Re.ignorecase l c) eqn:E; [|discriminate].
    destruct (IH s H) as (av & -> & Hav).
    exists (String c av). split; [reflexivity|]. simpl. now rewrite E.
Qed.

Lemma match_letters_append letters av rest :
  reads av letters -> Re.match_letters letters (av ++ rest) = Some rest.
Proof.
  unfold reads. revert av. induction letters as [|l letters IH]; intros av H.
  - destruct av; [reflexivity|discriminate].
  - destruct av as [|c av]; simpl in H; [discriminate|].
    destruct (Re.ignorecase l c) eqn:E; [|discriminate].
    change (String c av ++ rest) with (String c (av ++ rest)).
    simpl. rewrite E. now apply IH.
Qed.

(** ** The stock patterns meet their descriptions *)

Lemma match_available_spec s ds :
  Re.match_available s = Some ds <-> available_here s ds.
Proof.
  unfold available_here. split.
  - unfold Re.match_available. destruct s as [|c s1]; [discriminate|].
    destruct (char_eqb_spec c "("%char) as [->|Hc]; [|discriminate].
    cbv zeta.
    destruct (Py.nonempty (Py.take_while Py.is_digit s1)) eqn:Hd; [|discriminate].
    destruct (Py.nonempty (Py.take_while Py.is_space
                (Py.drop_while Py.is_digit s1))) eqn:Hw; [|discriminate].
    rewrite andb_true_l.
    destruct (Re.match_letters _ _) as [[|c' tail]|] eqn:Ha; try discriminate.
    destruct (char_eqb_spec c' ")"%char) as [->|Hc']; [|discriminate].
    intros [= <-]. apply match_letters_split in Ha as (av & Hs3 & Hav).
    exists (Py.take_while Py.is_space (Py.drop_while Py.is_digit s1)), av, tail.
    split; [|repeat split; auto using take_while_all; now apply nonempty_true].
    change (")" ++ tail) with (String ")" tail).
    change ("(" ++ ?x) with (String "(" x). f_equal.
    rewrite <- Hs3, !take_drop_while. reflexivity.
  - intros (ws & av & rest & -> & Hd & Hda & Hw & Hwa & Hav).
    change ("(" ++ ds ++ ws ++ av ++ ")" ++ rest)
      with (String "(" (ds ++ ws ++ av ++ String ")" rest)).
    unfold Re.match_available. rewrite char_eqb_refl. cbv zeta.
    assert (Hws : forall c r, ws ++ av ++ String ")" rest = String c r ->
                              Py.is_digit c = false).
    { destruct ws as [|w ws]; [congruence|]. simpl in Hwa.
      apply andb_true_iff in Hwa as [Hw1 _]. intros c r [= <- _].
      now apply space_not_digit. }
    assert (Hav' : forall c r, av ++ String ")" rest = String c r ->
                               Py.is_space c = false).
    { unfold reads in Hav. destruct av as [|a av]; [discriminate|].
      simpl in Hav. destruct (Re.ignorecase "a" a) eqn:Ea; [|discriminate].
      intros c r [= <- _]. now apply ignorecase_a_not_space. }
    destruct (take_while_run Py.is_digit ds (ws ++ av ++ String ")" rest) Hda Hws)
      as [-> ->].
    destruct (take_while_run Py.is_space ws (av ++ String ")" rest) Hwa Hav')
      as [-> ->].
    rewrite (proj2 (nonempty_true ds) Hd), (proj2 (nonempty_true ws) Hw).
    rewrite (match_letters_append _ _ _ Hav), char_eqb_refl. reflexivity.
Qed.

Lemma search_available_unfold t :
  Re.search_available t
  = match Re.match_available t with
    | Some ds => Some ds
    | None =>
        match t with
        | EmptyString => None
        | String _ t' => Re.search_available t'
        end
    end.
Proof. destruct t; reflexivity. Qed.

Lemma match_available_none t :
  Re.match_available t = None <-> forall ds, ~ available_here t ds.
Proof.
  split.
  - intros H ds Hd. apply match_available_spec in Hd. congruence.
  - intros H. destruct (Re.match_available t) as [ds|] eqn:E; [|reflexivity].
    apply match_available_spec in E. now apply H in E.
Qed.

Lemma search_available_none t :
  Re.search_available t = None <-> no_available t.
Proof.
  unfold no_available. induction t as [|c t IH].
  - rewrite search_available_unfold. split.
    + intros _ [|b before] s ds; [|discriminate]. simpl. intros <- (ws & av & rest & H & _).
      discriminate.
    + intros _. reflexivity.
  - rewrite search_available_unfold. split.
    + destruct (Re.match_available (String c t)) eqn:E; [discriminate|].
      intros Ht [|b before] s ds; simpl.
      * intros <-. now apply match_available_none.
      * intros [= _ ->]. now apply (proj1 IH Ht before s ds).
    + intros H.
      rewrite (proj2 (match_available_none (String c t)));
        [|intros ds; now apply (H EmptyString)].
      apply IH. intros before s ds ->. now apply (H (String c before)).
Qed.

Lemma search_available_some t ds :
  Re.search_available t = Some ds <-> first_available t ds.
Proof.
  unfold first_available. split.
  - induction t as [|c t IH]; rewrite search_available_unfold.
    + discriminate.
    + destruct (Re.match_available (String c t)) as [ds'|] eqn:E.
      * intros [= ->]. exists EmptyString, (String c t).
        split; [reflexivity|]. split; [now apply match_available_spec|].
        simpl. intros; lia.
      * intros Ht. destruct (IH Ht) as (before & s & -> & Hs & Hmin).
        exists (String c before), s. split; [reflexivity|]. split; [exact Hs|].
        intros [|b before'] s' ds'; simpl.
        -- intros <- _. now apply match_available_none.
        -- intros [= _ Hb] Hl. apply (Hmin before' s' ds' Hb). lia.
  - intros (before & s & -> & Hs & Hmin). induction before as [|b before IH].
    + rewrite search_available_unfold. simpl.
      now rewrite (proj2 (match_available_spec s ds) Hs).
    + rewrite search_available_unfold.
      change (String b before ++ s) with (String b (before ++ s)) in *.
      rewrite (proj2 (match_available_none (String b (before ++ s)))).
      * apply IH. intros before' s' ds' Hb Hl.
        apply (Hmin (String b before') s' ds'); simpl; [now rewrite Hb|lia].
      * intros ds'. apply (Hmin EmptyString); simpl; [reflexivity|lia].
Qed.

Lemma search_digits_some t ds :
  Re.search_digits t = Some ds <-> first_integer t ds.
Proof.
  unfold Re.search_digits, first_integer.
  set (nd := fun c => negb (Py.is_digit c)). split.
  - intros H.
    exists (Py.take_while nd t),
           (Py.drop_while Py.is_digit (Py.drop_while nd t)).
    assert (E : Py.take_while Py.is_digit (Py.drop_while nd t) = ds)
      by (destruct (Py.take_while _ _); congruence).
    rewrite <- E. rewrite !take_drop_while.
    split; [reflexivity|]. split; [destruct (Py.take_while _ _); congruence|].
    split; [apply take_while_all|]. split; [apply take_while_all|].
    intros c rest'. apply drop_while_head.
  - intros (before & rest & -> & Hne & Hds & Hb & Hr).
    assert (Hhead : forall c r, ds ++ rest = String c r -> nd c = false).
    { destruct ds as [|d ds]; [congruence|]. simpl in *.
      apply andb_true_iff in Hds as [Hd _]. intros c r [= <- _].
      unfold nd. now rewrite Hd. }
    destruct (take_while_run nd before (ds ++ rest) Hb Hhead) as [_ ->].
    destruct (take_while_run Py.is_digit ds rest Hds Hr) as [-> _].
    destruct ds; congruence.
Qed.

Lemma search_digits_none t :
  Re.search_digits t = None
  <-> Py.all_chars (fun c => negb (Py.is_digit c)) t = true.
Proof.
  unfold Re.search_digits. set (nd := fun c => negb (Py.is_digit c)). split.
  - intros H. destruct (Py.drop_while nd t) as [|c r] eqn:E.
    + rewrite <- (take_drop_while nd t), E, append_nil_r. apply take_while_all.
    + apply drop_while_head in E as Hc. unfold nd in Hc.
      apply negb_false_iff in Hc. simpl in H. rewrite Hc in H. discriminate.
  - intros H.
    assert (Hnil : forall c r, EmptyString = String c r -> nd c = false)
      by (intros c r; discriminate).
    destruct (take_while_run nd t EmptyString H Hnil) as [_ E].
    rewrite append_nil_r in E. now rewrite E.
Qed.

Lemma stock_digits_search t ds :
  stock_digits t ds
  <-> match Re.search_available t with
      | Some ds' => ds' = ds
      | None => Re.search_digits t = Some ds
      end.
Proof.
  unfold stock_digits.
  destruct (Re.search_available t) as [ds'|] eqn:Ea.
  - split.
    + intros [H|[H _]].
      * apply search_available_some in H. congruence.
      * apply search_available_none in H. congruence.
    + intros <-. left. now apply search_available_some.
  - pose proof (proj1 (search_available_none t) Ea) as Hn. split.
    + intros [H|[_ H]].
      * apply search_available_some in H. congruence.
      * now apply search_digits_some.
    + intros H. right. split; [exact Hn|]. now apply search_digits_some.
Qed.

(** The stock count follows the stock rule. *)
Lemma stock_of_text_rule t n : stock_of_text t = Some n -> stock_rule t n.
Proof.
  unfold stock_of_text, Py.int_of_digits.
  destruct (Re.search_available t) as [ds|] eqn:Ea.
  - destruct (_ <=? _)%N; [|discriminate]. intros [= <-].
    apply stock_available. now apply search_available_some.
  - apply search_available_none in Ea.
    destruct (Re.search_digits t) as [ds|] eqn:Ed.
    + destruct (_ <=? _)%N; [|discriminate]. intros [= <-].
      apply stock_integer; [exact Ea|]. now apply search_digits_some.
    + intros [= <-]. apply stock_default; [exact Ea|]. now apply search_digits_none.
Qed.

(** [int] raises exactly when the digits the stock is read from are more
    than the limit allows. *)
Lemma stock_of_text_raises t :
  stock_of_text t = None
  <-> exists ds,
        stock_digits t ds
        /\ (Py.INT_MAX_STR_DIGITS < N.of_nat (String.length ds))%N.
Proof.
  unfold stock_of_text, Py.int_of_digits. split.
  - intros H.
    destruct (match Re.search_available t with
              | Some ds => Some ds
              | None => Re.search_digits t
              end) as [ds|] eqn:E; [|discriminate].
    exists ds. split.
    + apply stock_digits_search.
      destruct (Re.search_available t); congruence.
    + destruct (N.leb_spec (N.of_nat (String.length ds)) Py.INT_MAX_STR_DIGITS);
        [discriminate|assumption].
  - intros (ds & Hd & Hl). apply stock_digits_search in Hd.
    assert (E : match Re.search_available t with
                | Some ds => Some ds
                | None => Re.search_digits t
                end = Some ds)
      by (destruct (Re.search_available t); congruence).
    rewrite E. apply N.leb_gt in Hl. now rewrite Hl.
Qed.

(** The classes are Python's: a no-break space separates the count from
    the word, Arabic-Indic digits count, and a dotted capital I or a
    dotless i reads as the letter i of the pattern. *)
Lemma stock_of_text_examples :
  stock_of_text ("7 (19" ++ String 0xA0%N "available)") = Some 19
  /\ stock_of_text (String "(" (String 0x661%N (String 0x669%N " available)")))
     = Some 19
  /\ stock_of_text ("(5 AVA" ++ String 0x130%N "LABLE)") = Some 5
  /\ stock_of_text ("(5 ava" ++ String 0x131%N "lable)") = Some 5
  /\ stock_of_text "7 (19 available" = Some 7.
Proof. repeat split; vm_compute; reflexivity. Qed.

Lemma in_stock_of_rule stock_elem t :
  in_stock_of stock_elem t = true <-> in_stock_rule stock_elem t.
Proof.
  unfold in_stock_of, in_stock_rule. destruct stock_elem as [e|].
  - rewrite !orb_true_iff, existsb_exists. split.
    + intros [[(x & Hx & E)|H]|H]; exists e; split; auto.
      apply string_eqb_eq in E. subst x. auto.
    + intros (e' & [= <-] & [H|[H|H]]); auto.
      left; left. exists "instock". split; [exact H|apply string_eqb_refl].
  - split; [discriminate|]. intros (e & H & _). discriminate.
Qed.

(** C7. For every card that yields a record, [stock] follows the stock rule
    on the text of the stock element (the count of the first
    [(N available)] in any letter case, else the first bare integer, else 0)
    and [in_stock] is true exactly when the stock element exists and has
    the class token [instock] or a text containing [available] or
    [in stock] in any letter case. Digits, white space and letter case are
    those of Python. A card yields no record when the digits of its count
    are more than [int] accepts. In particular the text
    [In stock (19 available)] gives stock 19 and in_stock true, and the text
    [Out of stock] on an element without the [instock] token gives stock 0
    and in_stock false. *)
Theorem card_stock_rules (card : Soup.node) (base : string) (r : record) :
  parse_book_card card base = Some r ->
  let stock_elem := find_stock_elem card in
  let t := stock_text_of stock_elem in
  (exists n, r !! "stock" = Some (VInt n) /\ stock_rule t n)
  /\ (exists b, r !! "in_stock" = Some (VBool b)
                /\ (b = true <-> in_stock_rule stock_elem t))
  /\ (forall ds, stock_digits t ds ->
        (N.of_nat (String.length ds) <= Py.INT_MAX_STR_DIGITS)%N)
  /\ (t = "In stock (19 available)" ->
      r !! "stock" = Some (VInt 19) /\ r !! "in_stock" = Some (VBool true))
  /\ (t = "Out of stock" ->
      (forall e, stock_elem = Some e -> ~ In "instock" (Soup.classes e)) ->
      r !! "stock" = Some (VInt 0) /\ r !! "in_stock" = Some (VBool false)).
Proof.
  intros H. apply parse_book_card_inv in H
    as (href & price & title & stock & _ & _ & Hstock & ->).
  cbv zeta.
  assert (Hs : forall (m : record) a b c,
             (<["url" := a]> (<["in_stock" := b]> (<["stock" := c]> m)))
               !! "stock" = Some c).
  { intros. rewrite !lookup_insert_ne by discriminate. apply lookup_insert_eq. }
  assert (Hi : forall (m : record) a b,
             (<["url" := a]> (<["in_stock" := b]> m)) !! "in_stock" = Some b).
  { intros. rewrite lookup_insert_ne by discriminate. apply lookup_insert_eq. }
  rewrite Hs, Hi. revert Hstock. generalize (find_stock_elem card) as stock_elem.
  intros stock_elem Hstock.
  split; [eexists; split; [reflexivity|now apply stock_of_text_rule]|].
  split; [eexists; split; [reflexivity|apply in_stock_of_rule]|].
  split.
  { intros ds Hds. apply N.le_ngt. intros Hl.
    assert (Hnone : stock_of_text (stock_text_of stock_elem) = None)
      by (apply stock_of_text_raises; eauto).
    congruence. }
  split.
  - intros Et. rewrite Et in Hstock. vm_compute in Hstock.
    injection Hstock as <-. split; [reflexivity|]. f_equal. f_equal.
    destruct stock_elem as [e|]; [|discriminate]. unfold in_stock_of.
    rewrite Et, orb_true_iff. left. rewrite orb_true_iff. right.
    vm_compute. reflexivity.
  - intros Et Hc. rewrite Et in Hstock. vm_compute in Hstock.
    injection Hstock as <-. split; [reflexivity|]. f_equal. f_equal.
    destruct (in_stock_of stock_elem (stock_text_of stock_elem)) eqn:E;
      [|reflexivity].
    apply in_stock_of_rule in E as (e & He & [Hin|[Ha|Ha]]).
    + now apply Hc in He.
    + rewrite Et in Ha. vm_compute in Ha. discriminate.
    + rewrite Et in Ha. vm_compute in Ha. discriminate.
Qed.

Lemma card_stock_rules_witness :
  parse_book_card stock_card "https://books.toscrape.com"
  = Some stock_card_record
  /\ stock_card_record !! "stock" = Some (VInt 19)
  /\ stock_card_record !! "in_stock" = Some (VBool true).
Proof.
  assert (H : parse_book_card stock_card "https://books.toscrape.com"
              = Some stock_card_record)
    by (apply is_some_default; vm_compute; reflexivity).
  split; [exact H|].
  refine (proj1 (proj2 (proj2 (proj2 (card_stock_rules _ _ _ H)))) _).
  vm_compute. reflexivity.
Defined.

(** ** The url-indexed dictionary *)

Lemma od_set_fresh {V} (k : string) (v : V) (d : list (string * V)) :
  k ∉ OrderedDict.keys d -> OrderedDict.set k v d = (d ++ [(k, v)])%list.
Proof.
  induction d as [|[k' v'] d IH]; simpl; [reflexivity|]. intros Hk.
  apply not_elem_of_cons in Hk as [Hne Hk].
  destruct (string_eqb_spec k k') as [->|_]; [congruence|].
  now rewrite IH.
Qed.

(** With distinct keys, the key stored at position [i] is found there, and
    assigning to it rewrites position [i] alone. *)
Lemma od_get_set_at {V} (d : list (string * V)) (i : nat) (k : string) (v v' : V) :
  NoDup (OrderedDict.keys d) ->
  d !! i = Some (k, v) ->
  OrderedDict.get k d = Some v
  /\ OrderedDict.set k v' d = <[i := (k, v')]> d.
Proof.
  revert i. induction d as [|[k0 v0] d IH]; intros i Hnd Hi; [discriminate|].
  simpl in Hnd. apply NoDup_cons in Hnd as [Hk0 Hnd]. destruct i as [|i]; simpl in *.
  - injection Hi as -> ->. rewrite string_eqb_refl. auto.
  - assert (Hin : k ∈ OrderedDict.keys d).
    { apply list_elem_of_fmap. exists (k, v). split; [reflexivity|].
      now apply list_elem_of_lookup_2 in Hi. }
    destruct (string_eqb_spec k k0) as [->|_]; [contradiction|].
    destruct (IH i Hnd Hi) as [-> ->]. auto.
Qed.

Lemma index_by_url_from (all_books : list record) (d : list (string * record)) :
  NoDup (OrderedDict.keys d ++ map url_of all_books)%list ->
  fold_left (fun d book => OrderedDict.set (url_of book) book d) all_books d
  = (d ++ map (fun book => (url_of book, book)) all_books)%list.
Proof.
  revert d. induction all_books as [|b bs IH]; intros d Hnd; simpl.
  - now rewrite app_nil_r.
  - apply NoDup_app in Hnd as Hnd'. destruct Hnd' as (Hd & Hdis & Hbs).
    rewrite od_set_fresh by (intros Hin; apply (Hdis _ Hin); left).
    rewrite IH.
    + now rewrite <- app_assoc.
    + unfold OrderedDict.keys in *. rewrite map_app. simpl.
      rewrite <- app_assoc. exact Hnd.
Qed.

(** With distinct urls the dictionary lists the records in their order. *)
Lemma index_by_url_distinct (all_books : list record) :
  NoDup (map url_of all_books) ->
  index_by_url all_books = map (fun book => (url_of book, book)) all_books.
Proof. intros H. unfold index_by_url. now rewrite index_by_url_from. Qed.

(** ** The detailed pass *)

Section Enrich.
Variables (cfg : config) (all_books : list record) (tasks : nat -> task_env).

Local Abbreviation result_of := (result_of cfg tasks).
Local Abbreviation dict_after := (dict_after cfg all_books tasks).
Local Abbreviation merge_future := (merge_future cfg all_books tasks).

Lemma dict_after_keys finished :
  OrderedDict.keys (dict_after finished) = map url_of all_books.
Proof.
  unfold OrderedDict.keys, dict_after. apply list_eq. intros i.
  rewrite !list_lookup_fmap, list_lookup_imap.
  destruct (all_books !! i); reflexivity.
Qed.

Lemma merge_result_apply d url book res :
  OrderedDict.get url d = Some book ->
  merge_result d url res
  = match res with
    | Returned detailed_info =>
        if dict_truthy detailed_info
        then OrderedDict.set url (apply_result book res) d else d
    | Raised => d
    end.
Proof.
  intros Hg. unfold merge_result, apply_result. destruct res; [|reflexivity].
  destruct (dict_truthy detailed_info); [|reflexivity]. now rewrite Hg.
Qed.

Lemma merge_future_step finished i :
  NoDup (map url_of all_books) ->
  i ∉ finished ->
  (i < length all_books)%nat ->
  merge_future (dict_after finished) i = dict_after (finished ++ [i])%list.
Proof.
  intros Hnd Hi Hlt. unfold merge_future.
  destruct (lookup_lt_is_Some_2 all_books i Hlt) as [book Hb].
  rewrite list_lookup_fmap, Hb. simpl.
  assert (Hat : dict_after finished !! i = Some (url_of book, book)).
  { unfold dict_after. rewrite list_lookup_imap, Hb. simpl.
    now rewrite bool_decide_eq_false_2. }
  assert (Hk : NoDup (OrderedDict.keys (dict_after finished)))
    by now rewrite dict_after_keys.
  assert (Hsame : forall v,
             v = (if bool_decide (i ∈ (finished ++ [i])%list)
                  then apply_result book (result_of i book) else book) ->
             <[i := (url_of book, v)]> (dict_after finished)
             = dict_after (finished ++ [i])%list).
  { intros v ->. apply list_eq. intros j. unfold dict_after.
    destruct (decide (i = j)) as [<-|Hne].
    - rewrite list_lookup_insert_eq by (now rewrite length_imap).
      now rewrite list_lookup_imap, Hb.
    - rewrite list_lookup_insert_ne by exact Hne.
      rewrite !list_lookup_imap. destruct (all_books !! j); [|reflexivity].
      simpl. do 2 f_equal.
      destruct (decide (j ∈ finished)) as [Hj|Hj].
      + rewrite !bool_decide_eq_true_2; [reflexivity| |exact Hj].
        apply elem_of_app. now left.
      + rewrite !bool_decide_eq_false_2; [reflexivity| |exact Hj].
        rewrite elem_of_app, list_elem_of_singleton. intros [?|?]; congruence. }
  assert (Hin : bool_decide (i ∈ (finished ++ [i])%list) = true).
  { apply bool_decide_eq_true_2, elem_of_app. right. now left. }
  destruct (od_get_set_at _ i _ book
              (apply_result book (result_of i book)) Hk Hat) as [Hget Hset].
  rewrite (merge_result_apply _ _ book) by exact Hget.
  fold (result_of i book).
  destruct (result_of i book) as [detailed_info|] eqn:Er.
  - destruct (dict_truthy detailed_info) eqn:Et.
    + rewrite Hset. apply Hsame. now rewrite Hin.
    + rewrite <- (list_insert_id _ _ _ Hat) at 1. apply Hsame.
      rewrite Hin. simpl. now rewrite Et.
  - rewrite <- (list_insert_id _ _ _ Hat) at 1. apply Hsame.
    now rewrite Hin.
Qed.

Lemma merge_futures finished rest :
  NoDup (map url_of all_books) ->
  NoDup (finished ++ rest)%list ->
  Forall (fun i => (i < length all_books)%nat) rest ->
  fold_left merge_future rest (dict_after finished)
  = dict_after (finished ++ rest)%list.
Proof.
  intros Hnd. revert finished. induction rest as [|i rest IH];
    intros finished Hf Hlt; simpl.
  - now rewrite app_nil_r.
  - apply Forall_cons in Hlt as [Hi Hlt].
    rewrite merge_future_step; [|exact Hnd| |exact Hi].
    + rewrite IH; [now rewrite <- app_assoc| |exact Hlt].
      now rewrite <- app_assoc.
    + apply NoDup_app in Hf as (_ & Hdis & _). intros Hin.
      apply (Hdis _ Hin). now left.
Qed.

(** The detailed pass, position by position: with distinct urls, and every
    future handled once, record [i] of the output is base record [i] with
    the result of its own task applied. *)
Lemma enrich_positions completion :
  NoDup (map url_of all_books) ->
  completion ≡ₚ seq 0 (length all_books) ->
  enrich cfg all_books tasks completion
  = imap (fun i book => apply_result book (result_of i book)) all_books.
Proof.
  intros Hnd Hp. unfold enrich. rewrite index_by_url_distinct by exact Hnd.
  assert (H0 : map (fun book => (url_of book, book)) all_books = dict_after []).
  { unfold dict_after. apply list_eq. intros i.
    rewrite list_lookup_fmap, list_lookup_imap.
    destruct (all_books !! i); reflexivity. }
  rewrite H0.
  change (fold_left _ completion) with (fold_left merge_future completion).
  rewrite merge_futures; [|exact Hnd| |].
  - unfold OrderedDict.values, dict_after. apply list_eq. intros i.
    rewrite list_lookup_fmap, !list_lookup_imap.
    destruct (all_books !! i) eqn:Hb; [|reflexivity]. simpl.
    rewrite bool_decide_eq_true_2; [reflexivity|].
    rewrite Hp. apply elem_of_seq. apply lookup_lt_Some in Hb. lia.
  - simpl. rewrite Hp. apply NoDup_seq.
  - apply Forall_forall. intros i Hi. rewrite Hp in Hi.
    apply elem_of_seq in Hi. lia.
Qed.

End Enrich.

(** ** Merging a detail record *)

Lemma dict_update_lookup (base detail : record) (k : string) :
  dict_update base detail !! k
  = match detail !! k with
    | Some v => Some v
    | None => base !! k
    end.
Proof.
  unfold dict_update. rewrite lookup_union.
  destruct (detail !! k), (base !! k); reflexivity.
Qed.

Lemma dict_truthy_lookup (d : record) k v :
  d !! k = Some v -> dict_truthy d = true.
Proof.
  unfold dict_truthy. intros H. destruct (map_to_list d) eqn:E; [|reflexivity].
  apply map_to_list_empty_iff in E. subst d. now rewrite lookup_empty in H.
Qed.

Lemma dict_truthy_empty : dict_truthy (∅ : record) = false.
Proof. unfold dict_truthy. now rewrite map_to_list_empty. Qed.

Lemma detail_address_absolute u cfg :
  Py.startswith u "http" = true -> detail_address u cfg = u.
Proof. intros H. unfold detail_address. now rewrite H. Qed.

Lemma parse_detail_soup_url soup url cfg d :
  parse_detail_soup soup url cfg = Some d -> d !! "url" = Some (VStr url).
Proof.
  unfold parse_detail_soup.
  destruct (Soup.find "div" (Some "product_main") soup); [|discriminate]. simpl.
  destruct (price_of_elem _); [|discriminate]. simpl.
  destruct (stock_of_text _); [|discriminate]. simpl.
  match goal with |- context [mbind _ ?x] => destruct x; [|discriminate] end.
  simpl. intros [= <-]. apply lookup_insert_eq.
Qed.

Lemma parse_book_detail_page_url url cfg get d :
  parse_book_detail_page url cfg get = Some d -> d !! "url" = Some (VStr url).
Proof.
  unfold parse_book_detail_page.
  destruct (fst (make_request get cfg)) as [soup|]; [|discriminate]. simpl.
  apply parse_detail_soup_url.
Qed.

(** A detail task comes back empty-handed or with the address it
    requested as [url]. *)
Lemma scrape_book_detail_cases u cfg get :
  scrape_book_detail u cfg get = ∅
  \/ scrape_book_detail u cfg get !! "url" = Some (VStr (detail_address u cfg)).
Proof.
  unfold scrape_book_detail.
  destruct (parse_book_detail_page _ cfg get) as [d|] eqn:E; simpl; [|now left].
  right. now apply parse_book_detail_page_url in E.
Qed.

Lemma url_of_absolute book u :
  book !! "url" = Some (VStr u) -> url_of book = u.
Proof. intros H. unfold url_of. now rewrite H. Qed.

(** Handling the result of its task leaves the url of a record with an
    absolute url as it is. *)
Lemma apply_result_url cfg book env :
  absolute_url book ->
  apply_result book (run_task cfg (url_of book) env) !! "url" = book !! "url".
Proof.
  intros (u & Hu & Ha). rewrite (url_of_absolute _ _ Hu).
  destruct env as [|get]; simpl; [reflexivity|].
  destruct (scrape_book_detail_cases u cfg get) as [->|Hd].
  - now rewrite dict_truthy_empty.
  - rewrite (dict_truthy_lookup _ _ _ Hd), dict_update_lookup, Hd.
    rewrite detail_address_absolute by exact Ha. now rewrite Hu.
Qed.

(** C5. Merging a successfully extracted detail record into its base
    record is a right-biased union of the fields: what the detail record
    has wins, what it lacks stays as in the base record (absent when it was
    absent), and the url of a base record with an absolute url stays the
    same; the merge is what the loop over the finished futures stores under
    that url. *)
Theorem merge_is_right_biased (cfg : config) (book detail : record)
    (u : string) (get : nat -> outcome) :
  book !! "url" = Some (VStr u) ->
  Py.startswith u "http" = true ->
  parse_book_detail_page (detail_address u cfg) cfg get = Some detail ->
  let merged := dict_update book detail in
  (forall k v, detail !! k = Some v -> merged !! k = Some v)
  /\ (forall k, detail !! k = None -> merged !! k = book !! k)
  /\ merged !! "url" = book !! "url"
  /\ (forall book_dict,
        OrderedDict.get u book_dict = Some book ->
        merge_result book_dict u (run_task cfg u (Answers get))
        = OrderedDict.set u merged book_dict).
Proof.
  intros Hu Ha Hd merged. unfold merged.
  pose proof (parse_book_detail_page_url _ _ _ _ Hd) as Hdu.
  rewrite detail_address_absolute in Hdu by exact Ha.
  split; [intros k v H; now rewrite dict_update_lookup, H|].
  split; [intros k H; now rewrite dict_update_lookup, H|].
  split; [now rewrite dict_update_lookup, Hdu, Hu|].
  intros book_dict Hg. simpl. unfold scrape_book_detail. rewrite Hd. simpl.
  now rewrite (dict_truthy_lookup _ _ _ Hdu), Hg.
Qed.

Lemma merge_is_right_biased_witness :
  dict_update sample_book sample_detail !! "url" = sample_book !! "url"
  /\ dict_update sample_book sample_detail !! "tax" = Some (VFloat (1 # 2))
  /\ dict_update sample_book sample_detail !! "category" = None.
Proof.
  destruct (merge_is_right_biased CUSTOM_CONFIG sample_book sample_detail
              "https://books.toscrape.com/catalogue/b/index.html" sample_get)
    as (Hwins & Hkeeps & Hurl & _).
  - vm_compute. reflexivity.
  - vm_compute. reflexivity.
  - vm_compute. reflexivity.
  - split; [exact Hurl|]. split.
    + apply Hwins. vm_compute. reflexivity.
    + rewrite Hkeeps by (vm_compute; reflexivity). vm_compute. reflexivity.
Defined.

(** ** The output of the detailed pass *)

(** C4. For base records with pairwise distinct, absolute urls, whatever
    the tasks do and in whatever order they finish, the output of the
    detailed pass has the urls of the base records, as many and in the same
    places; the record of a task that failed (raised, timed out or came back
    empty) is the base record, unmodified, and the record of a task that
    succeeded is merged with its detail record, whatever happened to the
    other tasks. *)
Theorem enrich_preserves_urls (cfg : config) (all_books : list record)
    (tasks : nat -> task_env) (completion : list nat) :
  NoDup (map url_of all_books) ->
  Forall absolute_url all_books ->
  completion ≡ₚ seq 0 (length all_books) ->
  let out := enrich cfg all_books tasks completion in
  map url_of out = map url_of all_books
  /\ (forall u, u ∈ map url_of out <-> u ∈ map url_of all_books)
  /\ length out = length all_books
  /\ NoDup (map url_of out)
  /\ (forall i book,
        all_books !! i = Some book ->
        task_failed (result_of cfg tasks i book) ->
        out !! i = Some book)
  /\ (forall i book detail,
        all_books !! i = Some book ->
        result_of cfg tasks i book = Returned detail ->
        dict_truthy detail = true ->
        out !! i = Some (dict_update book detail)).
Proof.
  intros Hnd Habs Hp out. unfold out.
  rewrite (enrich_positions cfg all_books tasks completion Hnd Hp).
  assert (Hurls : map url_of
                    (imap (fun i book => apply_result book (result_of cfg tasks i book))
                       all_books)
                  = map url_of all_books).
  { apply list_eq. intros i. rewrite !list_lookup_fmap, list_lookup_imap.
    destruct (all_books !! i) as [book|] eqn:Hb; [|reflexivity]. simpl.
    f_equal. unfold url_of, result_of.
    rewrite apply_result_url; [reflexivity|].
    eapply Forall_lookup_1; eauto. }
  split; [exact Hurls|]. split; [now rewrite Hurls|].
  split; [now rewrite length_imap|]. split; [now rewrite Hurls|]. split.
  - intros i book Hb Hf. rewrite list_lookup_imap, Hb. simpl. f_equal.
    destruct Hf as [-> | ->]; simpl; [reflexivity|].
    now rewrite dict_truthy_empty.
  - intros i book detail Hb Hr Ht. rewrite list_lookup_imap, Hb. simpl.
    rewrite Hr. simpl. now rewrite Ht.
Qed.

Lemma enrich_preserves_urls_witness :
  map url_of (enrich CUSTOM_CONFIG sample_books sample_tasks [1; 0]%nat)
  = ["https://books.toscrape.com/catalogue/a/index.html";
     "https://books.toscrape.com/catalogue/b/index.html"]
  /\ enrich CUSTOM_CONFIG sample_books sample_tasks [1; 0]%nat !! 0%nat
     = sample_books !! 0%nat.
Proof.
  assert (Hnd : NoDup (map url_of sample_books)).
  { replace (map url_of sample_books)
      with ["https://books.toscrape.com/catalogue/a/index.html";
            "https://books.toscrape.com/catalogue/b/index.html"]
      by (vm_compute; reflexivity).
    apply NoDup_cons. split; [|apply NoDup_singleton].
    rewrite list_elem_of_singleton. discriminate. }
  assert (Habs : Forall absolute_url sample_books).
  { repeat constructor; eexists; split; vm_compute; reflexivity. }
  assert (Hp : [1; 0]%nat ≡ₚ seq 0 (length sample_books)).
  { apply perm_swap. }
  destruct (enrich_preserves_urls CUSTOM_CONFIG sample_books sample_tasks
              [1; 0]%nat Hnd Habs Hp) as (Hurls & _ & _ & _ & Hfail & _).
  split.
  - rewrite Hurls. vm_compute. reflexivity.
  - destruct (sample_books !! 0%nat) as [book|] eqn:Hb; [|discriminate].
    apply (Hfail 0%nat book Hb). left. reflexivity.
Defined.

(** C10. When the detailed pass is requested and the records of the listing
    pass have pairwise distinct urls, the dictionary lists them under their
    urls in the order of the page walk, the output has a record for each of
    them in that order (record [i] is base record [i] with the result of its
    own task applied), and the order in which the tasks finish does not
    change the output. *)
Theorem detailed_output_in_traversal_order (fuel : nat) (web : website)
    (tasks : nat -> task_env) (completion : list nat) (cfg : config)
    (max_pages : option Z) (st : crawl_state) (out : list record) :
  crawl fuel web cfg max_pages = Some st ->
  scrape_all_pages fuel web tasks completion cfg max_pages true = Some out ->
  NoDup (map url_of (books_data st)) ->
  completion ≡ₚ seq 0 (length (books_data st)) ->
  index_by_url (books_data st)
  = map (fun book => (url_of book, book)) (books_data st)
  /\ length out = length (books_data st)
  /\ (forall i book,
        books_data st !! i = Some book ->
        out !! i = Some (apply_result book (result_of cfg tasks i book)))
  /\ (forall completion',
        completion' ≡ₚ completion ->
        scrape_all_pages fuel web tasks completion' cfg max_pages true
        = Some out).
Proof.
  intros Hrun Hout Hnd Hp. unfold scrape_all_pages in *. rewrite Hrun in *.
  simpl in *. injection Hout as <-.
  rewrite (enrich_positions cfg _ tasks completion Hnd Hp).
  split; [now apply index_by_url_distinct|].
  split; [now rewrite length_imap|]. split.
  - intros i book Hb. now rewrite list_lookup_imap, Hb.
  - intros completion' Hp'. f_equal. apply enrich_positions; [exact Hnd|].
    now rewrite Hp'.
Qed.

Lemma detailed_output_in_traversal_order_witness :
  exists out,
    scrape_all_pages 2 three_pages sample_tasks [1; 0]%nat CUSTOM_CONFIG
      (Some 1) true = Some out
    /\ length out = 2%nat
    /\ scrape_all_pages 2 three_pages sample_tasks [0; 1]%nat CUSTOM_CONFIG
         (Some 1) true = Some out.
Proof.
  destruct (crawl 2 three_pages CUSTOM_CONFIG (Some 1)) as [st|] eqn:Hrun;
    [|vm_compute in Hrun; discriminate].
  assert (Hb : books_data st = sample_books)
    by (vm_compute in Hrun; injection Hrun as <-; vm_compute; reflexivity).
  destruct (scrape_all_pages 2 three_pages sample_tasks [1; 0]%nat CUSTOM_CONFIG
              (Some 1) true) as [out|] eqn:Hout;
    [|vm_compute in Hout; discriminate].
  destruct (detailed_output_in_traversal_order 2 three_pages sample_tasks
              [1; 0]%nat CUSTOM_CONFIG (Some 1) st out Hrun Hout)
    as (_ & Hlen & _ & Hany).
  - rewrite Hb.
    replace (map url_of sample_books)
      with ["https://books.toscrape.com/catalogue/a/index.html";
            "https://books.toscrape.com/catalogue/b/index.html"]
      by (vm_compute; reflexivity).
    apply NoDup_cons. split; [|apply NoDup_singleton].
    rewrite list_elem_of_singleton. discriminate.
  - rewrite Hb. apply perm_swap.
  - exists out. split; [reflexivity|]. split.
    + rewrite Hlen, Hb. reflexivity.
    + apply Hany. apply perm_swap.
Defined.

(** ** The page walk *)

Lemma first_page_nonempty cfg : Py.nonempty (first_page cfg) = true.
Proof. unfold first_page. destruct (base_url cfg); reflexivity. Qed.

Lemma page_next_nonempty web cfg p next :
  page_next web cfg p = Some next -> Py.nonempty next = true.
Proof.
  unfold page_next. destruct (snd _) as [u|]; [|discriminate].
  destruct (Py.nonempty u) eqn:E; [|discriminate]. now intros [= <-].
Qed.

(** One pass of the loop in terms of the page it fetches. *)
Lemma crawl_step_page web cfg u st :
  crawl_step web cfg u st
  = {| books_data := (books_data st ++ page_books web cfg (page_num st, u))%list;
       current_url := page_next web cfg (page_num st, u);
       page_num := match page_next web cfg (page_num st, u) with
                   | Some _ => page_num st + 1
                   | None => page_num st
                   end;
       fetched := (fetched st ++ [(page_num st, u)])%list |}.
Proof.
  unfold crawl_step, page_books, page_next. simpl.
  destruct (scrape_page u cfg (web (page_num st) u)) as [books [next|]]; simpl;
    [|reflexivity].
  destruct (Py.nonempty next); reflexivity.
Qed.

(** A run of the loop that ends is a walk. *)
Lemma crawl_loop_walk fuel web cfg max_pages st st' u :
  crawl_loop fuel web cfg max_pages st = Some st' ->
  current_url st = Some u ->
  Py.nonempty u = true ->
  exists log,
    walk web cfg max_pages (page_num st) u log (current_url st')
    /\ fetched st' = (fetched st ++ log)%list
    /\ books_data st' = (books_data st ++ flat_map (page_books web cfg) log)%list.
Proof.
  revert st u. induction fuel as [|fuel IH]; intros st u Hrun Hu Hne;
    [discriminate|].
  simpl in Hrun. rewrite Hu, Hne in Hrun. simpl in Hrun.
  destruct (over_cap max_pages (page_num st)) eqn:Hcap.
  - injection Hrun as <-. exists []. rewrite Hu, !app_nil_r.
    split; [now apply walk_over_cap|auto].
  - rewrite crawl_step_page in Hrun.
    destruct (page_next web cfg (page_num st, u)) as [next|] eqn:Hn.
    + apply IH with (u := next) in Hrun as (log & Hw & Hf & Hb);
        [|reflexivity|now apply page_next_nonempty in Hn].
      simpl in *. exists ((page_num st, u) :: log).
      split; [now apply walk_next with next|].
      rewrite Hf, Hb, <- !app_assoc. simpl. auto.
    + destruct fuel as [|fuel]; [discriminate|]. simpl in Hrun.
      injection Hrun as <-. simpl. exists [(page_num st, u)].
      split; [now apply walk_end|]. simpl. now rewrite app_nil_r.
Qed.



Lemma over_cap_false_le m n :
  m <> 0 -> over_cap (Some m) n = false -> n <= m.
Proof. unfold over_cap. intros Hm H. lia. Qed.

(** The walk of a crawl that returns. *)
Lemma crawl_walk fuel web cfg max_pages st :
  crawl fuel web cfg max_pages = Some st ->
  walk web cfg max_pages 1 (first_page cfg) (fetched st) (current_url st)
  /\ books_data st = flat_map (page_books web cfg) (fetched st).
Proof.
  intros H. unfold crawl in H.
  apply crawl_loop_walk with (u := first_page cfg) in H as (log & Hw & Hf & Hb);
    [|reflexivity|apply first_page_nonempty].
  simpl in *. now rewrite Hf, Hb.
Qed.


Lemma scrape_all_pages_basic fuel web tasks completion cfg max_pages st :
  crawl fuel web cfg max_pages = Some st ->
  scrape_all_pages fuel web tasks completion cfg max_pages false
  = Some (books_data st).
Proof. intros H. unfold scrape_all_pages. now rewrite H. Qed.

(** C8. The code does not stop before a page whose ordinal exceeds
    [max_pages] when [max_pages = 0]: the guard [if max_pages and ...] takes
    0 for no cap, and the crawl of the three-page catalog fetches the pages
    with ordinals 1, 2 and 3, all of them over 0. *)
Lemma max_pages_zero_is_no_cap :
  exists st,
    crawl 4 three_pages CUSTOM_CONFIG (Some 0) = Some st
    /\ map fst (fetched st) = [1; 2; 3]
    /\ length (books_data st) = 4%nat
    /\ ~ Forall (fun p => fst p <= 0) (fetched st).
Proof.
  eexists. split; [vm_compute; reflexivity|]. split; [reflexivity|].
  split; [reflexivity|]. intros H. apply Forall_cons in H as [H _].
  simpl in H. lia.
Qed.



(** ** A page that cannot be fetched *)

Lemma scrape_page_failed url cfg get :
  fst (make_request get cfg) = None -> scrape_page url cfg get = ([], None).
Proof. intros H. unfold scrape_page. now rewrite H. Qed.

Lemma failed_page web cfg n u :
  fst (make_request (web n u) cfg) = None ->
  page_books web cfg (n, u) = [] /\ page_next web cfg (n, u) = None.
Proof.
  intros H. unfold page_books, page_next. simpl.
  now rewrite (scrape_page_failed u cfg _ H).
Qed.

(** A page without a next link is the last page of a walk, and it is
    fetched once. *)
Lemma walk_ends_at web cfg max_pages n0 u0 log left p :
  walk web cfg max_pages n0 u0 log left ->
  p ∈ log ->
  page_next web cfg p = None ->
  exists before, log = (before ++ [p])%list /\ (p ∉ before) /\ left = None.
Proof.
  induction 1 as [n u Hcap|n u Hcap Hn|n u next log left Hcap Hn Hw IH];
    intros Hin Hp.
  - now apply elem_of_nil in Hin.
  - apply list_elem_of_singleton in Hin as ->. exists []. split; [reflexivity|].
    split; [apply not_elem_of_nil|reflexivity].
  - apply elem_of_cons in Hin as [->|Hin]; [congruence|].
    destruct (IH Hin Hp) as (before & -> & Hnot & ->).
    exists ((n, u) :: before). split; [reflexivity|]. split; [|reflexivity].
    apply not_elem_of_cons. split; [congruence|exact Hnot].
Qed.

(** C9. When the fetch of the current catalog page fails, the loop leaves
    after that one request with the records it had, whatever they are; in a
    crawl that returns, a page whose fetch failed is the last page
    requested, it was requested once, and the crawl returns the records of
    the pages before it. *)
Theorem failed_page_ends_crawl (web : website) (cfg : config)
    (max_pages : option Z) :
  (forall fuel st u,
      current_url st = Some u ->
      Py.nonempty u = true ->
      over_cap max_pages (page_num st) = false ->
      fst (make_request (web (page_num st) u) cfg) = None ->
      crawl_loop (S (S fuel)) web cfg max_pages st
      = Some {| books_data := books_data st;
                current_url := None;
                page_num := page_num st;
                fetched := (fetched st ++ [(page_num st, u)])%list |})
  /\ (forall fuel st n u,
        crawl fuel web cfg max_pages = Some st ->
        (n, u) ∈ fetched st ->
        fst (make_request (web n u) cfg) = None ->
        exists before,
          fetched st = (before ++ [(n, u)])%list
          /\ ((n, u) ∉ before)
          /\ current_url st = None
          /\ books_data st = flat_map (page_books web cfg) before
          /\ forall tasks completion,
               scrape_all_pages fuel web tasks completion cfg max_pages false
               = Some (flat_map (page_books web cfg) before)).
Proof.
  split.
  - intros fuel st u Hu Hne Hcap Hfail.
    cbn [crawl_loop]. rewrite Hu, Hne, Hcap. cbn [negb].
    rewrite crawl_step_page.
    destruct (failed_page web cfg _ _ Hfail) as [-> ->].
    now rewrite app_nil_r.
  - intros fuel st n u Hrun Hin Hfail.
    destruct (crawl_walk _ _ _ _ _ Hrun) as [Hw Hb].
    destruct (failed_page web cfg _ _ Hfail) as [Hbooks Hnext].
    destruct (walk_ends_at _ _ _ _ _ _ _ _ Hw Hin Hnext) as (before & Hf & Hnot & Hl).
    exists before. rewrite Hf in Hb. rewrite flat_map_app in Hb. simpl in Hb.
    rewrite Hbooks, !app_nil_r in Hb.
    split; [exact Hf|]. split; [exact Hnot|]. split; [exact Hl|].
    split; [exact Hb|]. intros tasks completion. rewrite <- Hb.
    now apply scrape_all_pages_basic.
Qed.

Lemma failed_page_ends_crawl_witness :
  exists st before,
    crawl 3 second_page_down CUSTOM_CONFIG None = Some st
    /\ fetched st
       = (before ++ [(2, "https://books.toscrape.com/catalogue/page-2.html")])%list
    /\ current_url st = None
    /\ books_data st = flat_map (page_books second_page_down CUSTOM_CONFIG) before.
Proof.
  destruct (crawl 3 second_page_down CUSTOM_CONFIG None) as [st|] eqn:Hrun;
    [|vm_compute in Hrun; discriminate].
  destruct (proj2 (failed_page_ends_crawl second_page_down CUSTOM_CONFIG None)
              3%nat st 2 "https://books.toscrape.com/catalogue/page-2.html" Hrun)
    as (before & Hf & _ & Hl & Hb & _).
  - vm_compute in Hrun. injection Hrun as <-. right. left.
  - vm_compute. reflexivity.
  - exists st, before. auto.
Defined.

(** ** The urls of the listing pass are absolute *)

Lemma startswith_split s p :
  Py.startswith s p = true -> s = p ++ Py.slice_from (String.length p) s.
Proof.
  revert s. induction p as [|c p IH]; intros s H; [reflexivity|].
  destruct s as [|d s]; simpl in H; [discriminate|].
  apply andb_true_iff in H as [Hc H]. apply char_eqb_eq in Hc. subst d.
  simpl. f_equal. now apply IH.
Qed.

(** Whatever the link, the address resolved starts with [catalogue/]. *)
Lemma normalize_href_prefix href :
  exists x, normalize_href href = "catalogue/" ++ x.
Proof.
  unfold normalize_href.
  destruct (Py.startswith href "../../../"); [eauto|].
  destruct (Py.startswith href "../../"); [eauto|].
  destruct (Py.startswith href "catalogue/") eqn:E; simpl; [|eauto].
  exists (Py.slice_from 10 href). now apply startswith_split in E.
Qed.

Lemma split_scheme_catalogue dflt x :
  Url.split_scheme dflt ("catalogue/" ++ x) = (dflt, "catalogue/" ++ x).
Proof.
  unfold Url.split_scheme. simpl.
  destruct (Py.cut_at (Char.eqb ":") x) as [a [b|]]; reflexivity.
Qed.

Lemma urlparse_catalogue_scheme dflt x :
  Url.scheme (Url.urlparse ("catalogue/" ++ x) dflt) = dflt.
Proof.
  unfold Url.urlparse. rewrite split_scheme_catalogue.
  repeat match goal with
         | |- context [let '(_, _) := ?e in _] => destruct e
         end.
  reflexivity.
Qed.

Lemma startswith_append s t p :
  Py.startswith s p = true -> Py.startswith (s ++ t) p = true.
Proof.
  revert s. induction p as [|c p IH]; intros s H; [reflexivity|].
  destruct s as [|d s]; simpl in *; [discriminate|].
  apply andb_true_iff in H as [-> H]. now rewrite IH.
Qed.

Lemma urlunparse_http p :
  Url.scheme p = "http" \/ Url.scheme p = "https" ->
  Py.startswith (Url.urlunparse p) "http" = true.
Proof.
  intros H. unfold Url.urlunparse. cbv zeta.
  match goal with
  | |- context [Url.scheme p ++ ":" ++ ?u] => generalize u
  end.
  intros u.
  destruct H as [-> | ->]; cbn [Py.nonempty];
    destruct (Py.nonempty (Url.query p)), (Py.nonempty (Url.fragment p));
    reflexivity.
Qed.

(** With a base address in [http] or [https], the url of every card that
    parses is absolute. *)
Lemma parse_book_card_absolute card base r :
  Url.scheme (Url.urlparse base EmptyString) = "http"
  \/ Url.scheme (Url.urlparse base EmptyString) = "https" ->
  parse_book_card card base = Some r ->
  absolute_url r.
Proof.
  intros Hs H. apply parse_book_card_url in H as (href & _ & Hu).
  eexists. split; [exact Hu|].
  destruct (normalize_href_prefix href) as [x ->].
  unfold Url.urljoin.
  destruct (Py.nonempty base) eqn:Hb.
  2:{ destruct base; [|discriminate]. destruct Hs; discriminate. }
  cbn [negb]. change (Py.nonempty ("catalogue/" ++ x)) with true. cbn [negb].
  rewrite urlparse_catalogue_scheme, string_eqb_refl. cbn [negb orb].
  assert (Hrel : Url.member (Url.scheme (Url.urlparse base "")) Url.uses_relative = true)
    by (destruct Hs as [-> | ->]; reflexivity).
  rewrite Hrel. cbn [negb].
  repeat match goal with
         | |- context [if ?c then _ else _] =>
             match c with
             | context [if _ then _ else _] => fail 1
             | _ => destruct c
             end
         end;
    apply urlunparse_http; cbn [Url.scheme];
    rewrite ?urlparse_catalogue_scheme; exact Hs.
Qed.

Lemma scrape_page_absolute url cfg get :
  Url.scheme (Url.urlparse (base_url cfg) EmptyString) = "http"
  \/ Url.scheme (Url.urlparse (base_url cfg) EmptyString) = "https" ->
  Forall absolute_url (fst (scrape_page url cfg get)).
Proof.
  intros Hs. unfold scrape_page.
  destruct (fst (make_request get cfg)) as [soup|]; [|constructor]. simpl.
  apply Forall_forall. intros r Hr. apply list_elem_of_omap in Hr as (card & _ & Hc).
  now apply parse_book_card_absolute in Hc.
Qed.

(** The records of a crawl from a base address in [http] or [https] have
    absolute urls: the detailed pass finds them as the theorems on it
    assume. *)
Lemma crawl_books_absolute fuel web cfg max_pages st :
  Url.scheme (Url.urlparse (base_url cfg) EmptyString) = "http"
  \/ Url.scheme (Url.urlparse (base_url cfg) EmptyString) = "https" ->
  crawl fuel web cfg max_pages = Some st ->
  Forall absolute_url (books_data st).
Proof.
  intros Hs H. apply crawl_walk in H as [_ ->].
  apply Forall_forall. intros r Hr. apply list_elem_of_In in Hr.
  apply in_flat_map in Hr as (p & _ & Hr). apply list_elem_of_In in Hr.
  revert r Hr. apply Forall_forall. now apply scrape_page_absolute.
Qed.

(** * Further properties of the code *)

#[local] Set Warnings "-clear-no-such-hyp".

(** ** The fetcher *)

Lemma verdict_return_some o content :
  attempt_verdict o = Return (Some content) -> o = Response 200 content.
Proof.
  destruct o as [s c| | | | |]; simpl; try discriminate.
  destruct (Z.eqb_spec s 200) as [->|_].
  - now intros [= ->].
  - destruct ((500 <=? s) && (s <? 600)); discriminate.
Qed.

(** X1. A response [make_request] returns is the body of a 200 answer to
    its last attempt, and every attempt before it failed in a retryable
    way: no response with another status ever reaches the caller. *)
Theorem make_request_returns_only_200 (get : nat -> outcome) (cfg : config)
    (content : Soup.node) :
  fst (make_request get cfg) = Some content ->
  exists k,
    attempts get cfg = S k
    /\ Z.of_nat k <= max_retries cfg
    /\ get k = Response 200 content
    /\ forall j, (j < k)%nat -> server_error (get j) \/ network_failure (get j).
Proof.
  unfold attempts, make_request.
  fold (count_gets (snd (attempts_loop get cfg (Z.to_nat (max_retries cfg + 1)) 0))).
  pose proof (attempts_loop_shape get cfg (Z.to_nat (max_retries cfg + 1)) 0)
    as (H1 & H2 & H3 & H4 & H5).
  simpl in *. intros Hr.
  destruct (count_gets _) as [|k] eqn:En.
  - destruct (Z.to_nat (max_retries cfg + 1)) eqn:Et.
    + rewrite H5 in Hr by reflexivity. discriminate.
    + exfalso. now apply H2.
  - exists k. specialize (H4 k eq_refl).
    split; [reflexivity|]. split; [lia|].
    destruct (attempt_verdict (get k)) as [x|] eqn:Ev.
    + rewrite <- H4, Hr in Ev. apply verdict_return_some in Ev.
      split; [exact Ev|]. intros j Hj. apply verdict_retry, H3. lia.
    + destruct H4 as [_ H4]. rewrite H4 in Hr. discriminate.
Qed.

Lemma make_request_returns_only_200_witness :
  exists k,
    attempts (flaky (Soup.NavigableString "ok")) CUSTOM_CONFIG = S k
    /\ flaky (Soup.NavigableString "ok") k = Response 200 (Soup.NavigableString "ok").
Proof.
  destruct (make_request_returns_only_200 (flaky (Soup.NavigableString "ok"))
              CUSTOM_CONFIG (Soup.NavigableString "ok") eq_refl)
    as (k & Hk & _ & Hg & _).
  exists k. split; assumption.
Defined.

(** X2. With a negative [max_retries] the loop body never runs:
    [make_request] gives up without a single request or sleep. *)
Theorem make_request_negative_retries (get : nat -> outcome) (cfg : config) :
  max_retries cfg < 0 ->
  make_request get cfg = (None, []).
Proof.
  intros H. unfold make_request.
  replace (Z.to_nat (max_retries cfg + 1)) with 0%nat by lia. reflexivity.
Qed.

Lemma make_request_negative_retries_witness :
  make_request (fun _ => Response 200 (Soup.NavigableString "ok"))
    {| headers := []; min_delay := 1; max_delay := 3; max_retries := -1;
       timeout := 10; base_url := "https://books.toscrape.com" |}
  = (None, []).
Proof.
  apply make_request_negative_retries. simpl. lia.
Defined.

Lemma sleeps_schedule cfg a n :
  sleeps (schedule cfg a n)
  = map (backoff_delay cfg) (seq a (Nat.pred n)).
Proof.
  revert a. induction n as [|n IH]; intros a; [reflexivity|].
  destruct n as [|n]; [reflexivity|].
  change (schedule cfg a (S (S n)))
    with (Get a :: Sleep (backoff_delay cfg a) :: schedule cfg (S a) (S n)).
  cbn [sleeps]. rewrite IH. reflexivity.
Qed.

Lemma backoff_delay_bounds cfg k :
  (0 <= min_delay cfg)%Q -> (0 <= max_delay cfg)%Q ->
  (0 <= backoff_delay cfg k)%Q /\ (backoff_delay cfg k <= max_delay cfg * 3)%Q.
Proof.
  intros Hmin Hmax. unfold backoff_delay. split.
  - apply Q.min_glb.
    + apply Qmult_le_0_compat; [exact Hmin|].
      change 0%Q with (inject_Z 0). rewrite <- Zle_Qle.
      apply Z.pow_nonneg. lia.
    + apply Qmult_le_0_compat; [exact Hmax|]. discriminate.
  - apply Q.le_min_r.
Qed.

Lemma sum_bounded (l : list Q) (cap : Q) :
  Forall (fun d => (d <= cap)%Q) l ->
  (fold_right Qplus 0 l <= inject_Z (Z.of_nat (length l)) * cap)%Q.
Proof.
  induction 1 as [|d l Hd Hl IH]; simpl fold_right.
  - simpl. rewrite Qmult_0_l. apply Qle_refl.
  - change (length (d :: l)) with (S (length l)).
    rewrite Nat2Z.inj_succ. unfold Z.succ. rewrite inject_Z_plus.
    rewrite Qmult_plus_distr_l, Qmult_1_l, Qplus_comm.
    apply Qplus_le_compat; assumption.
Qed.

(** X3. With non-negative delays configured, every sleep of [make_request]
    lies between 0 and three times [max_delay], one sleep separates each
    pair of consecutive attempts, and the whole call sleeps at most
    [max_retries * 3 * max_delay] seconds. *)
Theorem make_request_sleep_bound (get : nat -> outcome) (cfg : config) :
  (0 <= min_delay cfg)%Q ->
  (0 <= max_delay cfg)%Q ->
  0 <= max_retries cfg ->
  let tr := snd (make_request get cfg) in
  Forall (fun d => (0 <= d)%Q /\ (d <= max_delay cfg * 3)%Q) (sleeps tr)
  /\ length (sleeps tr) = Nat.pred (attempts get cfg)
  /\ (total_sleep tr <= inject_Z (max_retries cfg) * (max_delay cfg * 3))%Q.
Proof.
  intros Hmin Hmax Hret tr.
  assert (Htr : tr = schedule cfg 0 (attempts get cfg)).
  { unfold tr, attempts, make_request. apply attempts_loop_trace. lia. }
  assert (Hn : (attempts get cfg <= Z.to_nat (max_retries cfg + 1))%nat).
  { unfold attempts, make_request.
    apply (attempts_loop_shape get cfg (Z.to_nat (max_retries cfg + 1)) 0). }
  assert (Hall : Forall (fun d => (0 <= d)%Q /\ (d <= max_delay cfg * 3)%Q)
                   (sleeps tr)).
  { rewrite Htr, sleeps_schedule. apply Forall_forall. intros d Hd.
    apply list_elem_of_fmap in Hd as (k & -> & _).
    now apply backoff_delay_bounds. }
  assert (Hlen : length (sleeps tr) = Nat.pred (attempts get cfg)).
  { rewrite Htr, sleeps_schedule, length_map, length_seq. reflexivity. }
  split; [exact Hall|]. split; [exact Hlen|].
  unfold total_sleep.
  eapply Qle_trans.
  - apply sum_bounded with (cap := (max_delay cfg * 3)%Q).
    eapply Forall_impl; [exact Hall|]. intros d [_ H]. exact H.
  - rewrite Hlen. apply Qmult_le_compat_r.
    + rewrite <- Zle_Qle. lia.
    + apply Qmult_le_0_compat; [exact Hmax|discriminate].
Qed.

Lemma make_request_sleep_bound_witness :
  (total_sleep (snd (make_request (fun _ => Timeout) CUSTOM_CONFIG)) <= 27)%Q.
Proof.
  refine (proj2 (proj2 (make_request_sleep_bound (fun _ => Timeout) CUSTOM_CONFIG
                          _ _ _))).
  - discriminate.
  - discriminate.
  - discriminate.
Defined.

(** ** The listing card, further *)

Lemma digits_value_from s acc : 0 <= acc -> 0 <= Py.digits_value acc s.
Proof.
  revert acc. induction s as [|c s IH]; intros acc Hacc; simpl; [exact Hacc|].
  apply IH. pose proof (N2Z.is_nonneg (default 0%N (Py.digit_value c))). lia.
Qed.

Lemma digits_value_nonneg s acc :
  Py.all_chars Py.is_digit s = true -> 0 <= acc -> 0 <= Py.digits_value acc s.
Proof. intros _. apply digits_value_from. Qed.

Lemma all_chars_append p a b :
  Py.all_chars p (a ++ b) = Py.all_chars p a && Py.all_chars p b.
Proof.
  induction a as [|c a IH]; simpl; [reflexivity|].
  now rewrite IH, andb_assoc.
Qed.

Lemma stock_of_text_nonneg t n : stock_of_text t = Some n -> 0 <= n.
Proof.
  intros H. apply stock_of_text_rule in H.
  destruct H as [ds _|ds _ _|]; [| |lia]; apply digits_value_from; lia.
Qed.

Lemma float_of_run_nonneg s q : Py.float_of_run s = Some q -> (0 <= q)%Q.
Proof.
  unfold Py.float_of_run.
  pose proof (take_while_all Py.is_digit s) as Hip.
  destruct (Py.drop_while Py.is_digit s) as [|c fp].
  - destruct (Py.nonempty _); [|discriminate]. intros [= <-].
    change 0%Q with (inject_Z 0). rewrite <- Zle_Qle.
    now apply digits_value_nonneg.
  - destruct (Char.eqb c "." && Py.all_chars Py.is_digit fp
              && (Py.nonempty (Py.take_while Py.is_digit s) || Py.nonempty fp))
      eqn:E; [|discriminate].
    intros [= <-]. rewrite Qred_correct.
    apply andb_true_iff in E as [E _]. apply andb_true_iff in E as [_ Hfp].
    unfold Qle. simpl. rewrite Z.mul_1_r.
    apply digits_value_nonneg; [|lia].
    now rewrite all_chars_append, Hip, Hfp.
Qed.

Lemma price_of_elem_nonneg e q : price_of_elem e = Some q -> (0 <= q)%Q.
Proof.
  unfold price_of_elem. destruct (Re.search_number _) as [run|].
  - apply float_of_run_nonneg.
  - intros [= <-]. apply Qle_refl.
Qed.

(** X4. The price and the stock of a record of the listing pass are never
    negative. *)
Theorem card_price_stock_nonnegative (card : Soup.node) (base : string)
    (r : record) :
  parse_book_card card base = Some r ->
  exists q n,
    r !! "price" = Some (VFloat q) /\ (0 <= q)%Q
    /\ r !! "stock" = Some (VInt n) /\ 0 <= n.
Proof.
  intros H. apply parse_book_card_inv in H
    as (href & price & title & stock & _ & Hp & Hstock & ->).
  exists price, stock.
  split; [now rewrite !lookup_insert_ne by discriminate; apply lookup_insert_eq|].
  split; [now apply price_of_elem_nonneg in Hp|].
  split; [now rewrite !lookup_insert_ne by discriminate; apply lookup_insert_eq|].
  now apply stock_of_text_nonneg in Hstock.
Qed.

Lemma card_price_stock_nonnegative_witness :
  parse_book_card (in_stock_card "a") "https://books.toscrape.com"
  = Some sample_card_record
  /\ exists q n,
       sample_card_record !! "price" = Some (VFloat q) /\ (0 <= q)%Q
       /\ sample_card_record !! "stock" = Some (VInt n) /\ 0 <= n.
Proof.
  assert (H : parse_book_card (in_stock_card "a") "https://books.toscrape.com"
              = Some sample_card_record)
    by (apply is_some_default; vm_compute; reflexivity).
  split; [exact H|]. exact (card_price_stock_nonnegative _ _ _ H).
Defined.

Lemma rating_lookup_range cls n :
  rating_lookup cls RATING_MAP = Some n -> 0 <= n <= 5.
Proof.
  unfold RATING_MAP. simpl.
  repeat (destruct (String.eqb cls _); [intros [= <-]; lia|]).
  discriminate.
Qed.

Lemma rating_of_classes_rule tokens : rating_rule tokens (rating_of_classes tokens).
Proof.
  induction tokens as [|cls rest IH]; [right; split; [constructor|reflexivity]|].
  cbn [rating_of_classes].
  destruct (rating_lookup cls RATING_MAP) as [n|] eqn:E.
  - left. exists [], cls, rest. split; [reflexivity|]. split; [constructor|exact E].
  - destruct IH as [(before & c & after & -> & Hb & Hc)|[Hall ->]].
    + left. exists (cls :: before), c, after.
      split; [reflexivity|]. split; [now constructor|exact Hc].
    + right. split; [now constructor|reflexivity].
Qed.

(** X5. The rating of a record of the listing pass is the value of the
    first class token of the rating element that is a rating word, and 0
    when the element is missing or has no such token; it always lies
    between 0 and 5. *)
Theorem card_rating_rule (card : Soup.node) (base : string) (r : record) :
  parse_book_card card base = Some r ->
  exists n,
    r !! "rating" = Some (VInt n)
    /\ 0 <= n <= 5
    /\ rating_rule
         match Soup.find "p" (Some "star-rating") card with
         | Some e => Soup.classes e
         | None => []
         end n.
Proof.
  intros H. apply parse_book_card_inv in H
    as (href & price & title & stock & _ & _ & Hstock & ->).
  eexists. split;
    [rewrite !lookup_insert_ne by discriminate; apply lookup_insert_eq|].
  split; [|apply rating_of_classes_rule].
  destruct (rating_of_classes_rule
              match Soup.find "p" (Some "star-rating") card with
              | Some e => Soup.classes e
              | None => []
              end) as [(_ & cls & _ & _ & _ & Hc)|[_ Hz]].
  - now apply rating_lookup_range in Hc.
  - rewrite Hz. lia.
Qed.

Lemma card_rating_rule_witness :
  parse_book_card (in_stock_card "a") "https://books.toscrape.com"
  = Some sample_card_record
  /\ exists n, sample_card_record !! "rating" = Some (VInt n) /\ 0 <= n <= 5.
Proof.
  assert (H : parse_book_card (in_stock_card "a") "https://books.toscrape.com"
              = Some sample_card_record)
    by (apply is_some_default; vm_compute; reflexivity).
  split; [exact H|].
  destruct (card_rating_rule _ _ _ H) as (n & Hn & Hr & _).
  exists n. split; assumption.
Defined.

(** X6. A record of the listing pass has the six keys [title], [price],
    [rating], [stock], [in_stock] and [url], and no other. *)
Theorem card_record_keys (card : Soup.node) (base : string) (r : record) :
  parse_book_card card base = Some r ->
  forall k, is_Some (r !! k) <-> In k card_keys.
Proof.
  intros H k. apply parse_book_card_inv in H
    as (href & price & title & stock & _ & _ & Hstock & ->).
  rewrite !lookup_insert_is_Some', lookup_empty, is_Some_alt.
  unfold card_keys. simpl. intuition congruence.
Qed.

Lemma card_record_keys_witness :
  parse_book_card (in_stock_card "a") "https://books.toscrape.com"
  = Some sample_card_record
  /\ is_Some (sample_card_record !! "url").
Proof.
  assert (H : parse_book_card (in_stock_card "a") "https://books.toscrape.com"
              = Some sample_card_record)
    by (apply is_some_default; vm_compute; reflexivity).
  split; [exact H|]. apply (card_record_keys _ _ _ H). simpl. tauto.
Defined.

(** X7. The rewriting of the card's link always yields an address that
    starts with [catalogue/], it turns [../../X] into [catalogue/X], it
    leaves an address that starts with [catalogue/] alone, and applying it
    twice is applying it once. *)
Theorem normalize_href_canonical (href : string) :
  (exists x, normalize_href href = "catalogue/" ++ x)
  /\ normalize_href (normalize_href href) = normalize_href href
  /\ (forall x, href = "catalogue/" ++ x -> normalize_href href = href)
  /\ (forall x, href = "../../" ++ x -> Py.startswith x "../" = false ->
        normalize_href href = "catalogue/" ++ x).
Proof.
  split; [apply normalize_href_prefix|]. split; [|split].
  - destruct (normalize_href_prefix href) as [x ->].
    apply normalize_href_catalogue.
  - intros x ->. apply normalize_href_catalogue.
  - intros x -> Hx. unfold normalize_href.
    change (Py.startswith ("../../" ++ x) "../../../")
      with (Py.startswith x "../").
    rewrite Hx. reflexivity.
Qed.

Lemma normalize_href_canonical_witness :
  normalize_href "catalogue/a/index.html" = "catalogue/a/index.html"
  /\ normalize_href "../../a/index.html" = "catalogue/a/index.html".
Proof.
  destruct (normalize_href_canonical "catalogue/a/index.html") as (_ & _ & H1 & _).
  destruct (normalize_href_canonical "../../a/index.html") as (_ & _ & _ & H2).
  split; [exact (H1 "a/index.html" eq_refl)|exact (H2 "a/index.html" eq_refl eq_refl)].
Defined.

(** ** The detail page, further *)

(** The detail extractor, step by step. *)
Lemma parse_detail_soup_inv soup url cfg d :
  parse_detail_soup soup url cfg = Some d ->
  exists product_main price stock d2,
    Soup.find "div" (Some "product_main") soup = Some product_main
    /\ price_of_elem (Soup.find "p" (Some "price_color") soup) = Some price
    /\ stock_of_text (stock_text_of (find_stock_elem soup)) = Some stock
    /\ parse_table_rows (detail_core soup product_main price stock) (table_rows soup)
       = Some d2
    /\ d = <["url" := VStr url]> (with_image soup cfg (with_category soup d2)).
Proof.
  unfold parse_detail_soup, table_rows.
  destruct (Soup.find "div" (Some "product_main") soup) as [pm|]; [|discriminate].
  simpl. destruct (price_of_elem _) as [price|]; [|discriminate]. simpl.
  destruct (stock_of_text _) as [stock|]; [|discriminate]. simpl.
  fold (detail_core soup pm price stock).
  destruct (Soup.find "table" (Some "table table-striped") soup) as [table|].
  - destruct (parse_table_rows _ _) as [d2|] eqn:Et; [|discriminate]. simpl.
    intros [= <-]. exists pm, price, stock, d2.
    repeat split; try reflexivity. exact Et.
  - simpl. intros [= <-]. exists pm, price, stock, (detail_core soup pm price stock).
    repeat split; reflexivity.
Qed.

Ltac not_listed H :=
  let E := fresh in intros E; apply H; subst; simpl; tauto.

(** A row of the attribute table sets at most one of the table's keys and
    touches nothing else. *)
Lemma parse_table_row_frame d row d' :
  parse_table_row d row = Some d' ->
  (forall k, ~ In k table_keys -> d' !! k = d !! k)
  /\ (forall k, is_Some (d !! k) -> is_Some (d' !! k)).
Proof.
  unfold parse_table_row.
  destruct (Soup.find "th" None row) as [header|];
    [|intros [= <-]; split; auto].
  destruct (Soup.find "td" None row) as [val|];
    [|intros [= <-]; split; auto].
  assert (Hset : forall k v, In k table_keys ->
            (forall k', ~ In k' table_keys -> (<[k := v]> d) !! k' = d !! k')
            /\ (forall k', is_Some (d !! k') -> is_Some ((<[k := v]> d) !! k'))).
  { intros k v Hk. split.
    - intros k' Hk'. apply lookup_insert_ne. intros ->. contradiction.
    - intros k' Hs. apply lookup_insert_is_Some'. now right. }
  repeat match goal with
         | |- context [if ?c then _ else _] => destruct c
         end;
    try (destruct (number_of_text _) as [q|]; [|discriminate]; simpl);
    intros [= <-];
    try (apply Hset; simpl; tauto).
  split; auto.
Qed.

Lemma parse_table_rows_frame rows d d' :
  parse_table_rows d rows = Some d' ->
  (forall k, ~ In k table_keys -> d' !! k = d !! k)
  /\ (forall k, is_Some (d !! k) -> is_Some (d' !! k)).
Proof.
  revert d. induction rows as [|row rows IH]; intros d; simpl.
  - intros [= <-]. split; auto.
  - destruct (parse_table_row d row) as [d1|] eqn:E1; [|discriminate]. simpl.
    intros H. apply IH in H as (Hk & Hs).
    apply parse_table_row_frame in E1 as (Hk1 & Hs1).
    split; [|auto]. intros k Hn. now rewrite Hk, Hk1.
Qed.

Lemma with_category_frame soup d :
  (forall k, k <> "category" -> with_category soup d !! k = d !! k)
  /\ (forall k, is_Some (d !! k) -> is_Some (with_category soup d !! k)).
Proof.
  unfold with_category.
  destruct (Soup.find "ul" (Some "breadcrumb") soup) as [b|]; [|split; auto].
  destruct (Soup.find_all "a" None b) as [|? [|? [|third ?]]];
    try (split; auto; fail).
  split; [intros k Hk; now apply lookup_insert_ne|].
  intros k Hs. apply lookup_insert_is_Some'. now right.
Qed.

Lemma with_image_frame soup cfg d :
  (forall k, k <> "image_url" -> with_image soup cfg d !! k = d !! k)
  /\ (forall k, is_Some (d !! k) -> is_Some (with_image soup cfg d !! k)).
Proof.
  unfold with_image.
  destruct (image_elem soup) as [img|]; [|split; auto].
  cbv zeta. destruct (Py.nonempty _); [|split; auto].
  split; [intros k Hk; now apply lookup_insert_ne|].
  intros k Hs. apply lookup_insert_is_Some'. now right.
Qed.

Lemma detail_core_keys soup pm price stock k :
  is_Some (detail_core soup pm price stock !! k)
  <-> In k ["title"; "price"; "stock"; "in_stock"; "rating"].
Proof.
  unfold detail_core.
  rewrite !lookup_insert_is_Some', lookup_empty, is_Some_alt.
  simpl. intuition congruence.
Qed.

(** X8. A record of the detail extractor always has the keys [title],
    [price], [stock], [in_stock], [rating] and [url]; beyond them it can
    only have [upc], [product_type], [price_excl_tax], [price_incl_tax],
    [tax], [category] and [image_url]; and its [url] is the address the
    extractor was called with, whatever the page contains. *)
Theorem detail_record_keys (soup : Soup.node) (url : string) (cfg : config)
    (d : record) :
  parse_detail_soup soup url cfg = Some d ->
  (forall k, In k detail_required_keys -> is_Some (d !! k))
  /\ (forall k, is_Some (d !! k) ->
        In k (detail_required_keys ++ detail_optional_keys))
  /\ d !! "url" = Some (VStr url).
Proof.
  intros H. apply parse_detail_soup_inv in H
    as (pm & price & stock & d2 & _ & _ & Hstock & Ht & ->).
  apply parse_table_rows_frame in Ht as (Hframe & Hmono).
  destruct (with_category_frame soup d2) as (Hc & Hcm).
  destruct (with_image_frame soup cfg (with_category soup d2)) as (Hi & Him).
  split; [|split; [|apply lookup_insert_eq]].
  - intros k Hk. apply lookup_insert_is_Some'.
    destruct (string_eqb_spec "url" k) as [E|E]; [now left|right].
    apply Him, Hcm, Hmono, detail_core_keys.
    unfold detail_required_keys in Hk. simpl in *. intuition congruence.
  - intros k Hs.
    destruct (in_dec string_dec k (detail_required_keys ++ detail_optional_keys))
      as [Hin|Hnot]; [exact Hin|exfalso].
    rewrite lookup_insert_ne in Hs by not_listed Hnot.
    rewrite Hi in Hs by not_listed Hnot.
    rewrite Hc in Hs by not_listed Hnot.
    rewrite Hframe in Hs by (intros Hin; apply Hnot; simpl in *; tauto).
    apply detail_core_keys in Hs. apply Hnot. simpl in *. tauto.
Qed.

Lemma detail_record_keys_witness :
  parse_detail_soup (sample_detail_page "51.77" true)
    "https://books.toscrape.com/catalogue/a/index.html" CUSTOM_CONFIG
  = Some (sample_detail_record true)
  /\ sample_detail_record true !! "url"
     = Some (VStr "https://books.toscrape.com/catalogue/a/index.html").
Proof.
  assert (H : parse_detail_soup (sample_detail_page "51.77" true)
                "https://books.toscrape.com/catalogue/a/index.html" CUSTOM_CONFIG
              = Some (sample_detail_record true))
    by (apply is_some_default; vm_compute; reflexivity).
  split; [exact H|]. exact (proj2 (proj2 (detail_record_keys _ _ _ _ H))).
Defined.

(** X9. The fields the detail extractor reads off the page elements are
    final: no row of the attribute table, breadcrumb or image changes
    [title], [price], [stock], [in_stock] or [rating]; in particular a row
    labelled with a price sets its own key, never [price]. The price and
    the stock are not negative. *)
Theorem detail_core_fields (soup : Soup.node) (url : string) (cfg : config)
    (d : record) :
  parse_detail_soup soup url cfg = Some d ->
  exists product_main price stock,
    Soup.find "div" (Some "product_main") soup = Some product_main
    /\ price_of_elem (Soup.find "p" (Some "price_color") soup) = Some price
    /\ (0 <= price)%Q
    /\ stock_of_text (stock_text_of (find_stock_elem soup)) = Some stock
    /\ 0 <= stock
    /\ forall k,
         In k ["title"; "price"; "stock"; "in_stock"; "rating"] ->
         d !! k = detail_core soup product_main price stock !! k.
Proof.
  intros H. apply parse_detail_soup_inv in H
    as (pm & price & stock & d2 & Hpm & Hp & Hstock & Ht & ->).
  exists pm, price, stock. split; [exact Hpm|]. split; [exact Hp|].
  split; [now apply price_of_elem_nonneg in Hp|].
  split; [exact Hstock|]. split; [now apply stock_of_text_nonneg in Hstock|].
  intros k Hk.
  apply parse_table_rows_frame in Ht as (Hframe & _).
  destruct (with_category_frame soup d2) as (Hc & _).
  destruct (with_image_frame soup cfg (with_category soup d2)) as (Hi & _).
  assert (Hne : k <> "url" /\ k <> "image_url" /\ k <> "category"
                /\ ~ In k table_keys).
  { simpl in *. intuition (subst; discriminate). }
  destruct Hne as (H1 & H2 & H3 & H4).
  rewrite lookup_insert_ne by congruence.
  now rewrite Hi, Hc, Hframe.
Qed.

Lemma detail_core_fields_witness :
  parse_detail_soup (sample_detail_page "51.77" true)
    "https://books.toscrape.com/catalogue/a/index.html" CUSTOM_CONFIG
  = Some (sample_detail_record true)
  /\ exists price,
       price_of_elem
         (Soup.find "p" (Some "price_color") (sample_detail_page "51.77" true))
       = Some price
       /\ (0 <= price)%Q.
Proof.
  assert (H : parse_detail_soup (sample_detail_page "51.77" true)
                "https://books.toscrape.com/catalogue/a/index.html" CUSTOM_CONFIG
              = Some (sample_detail_record true))
    by (apply is_some_default; vm_compute; reflexivity).
  split; [exact H|].
  destruct (detail_core_fields _ _ _ _ H) as (pm & price & stock & _ & Hp & Hq & _).
  exists price. split; assumption.
Defined.

(** X10. The optional fields of a detail record. [category] is present
    exactly when the breadcrumb exists and has at least three links, and it
    is the stripped text of the third; [image_url] is present exactly when
    the active image container holds an image with a non-empty [src], and it
    is that address, with every [../..] removed, resolved against the base
    address. *)
Theorem detail_optional_fields (soup : Soup.node) (url : string) (cfg : config)
    (d : record) :
  parse_detail_soup soup url cfg = Some d ->
  d !! "category"
  = match Soup.find "ul" (Some "breadcrumb") soup with
    | Some breadcrumb =>
        (fun third => VStr (Py.strip (Soup.text third)))
          <$> Soup.find_all "a" None breadcrumb !! 2%nat
    | None => None
    end
  /\ d !! "image_url"
     = match image_elem soup with
       | Some img =>
           if Py.nonempty (Soup.get img "src" EmptyString)
           then Some (VStr (Url.urljoin (base_url cfg)
                              (Py.replace (Soup.get img "src" EmptyString)
                                 "../.." EmptyString)))
           else None
       | None => None
       end.
Proof.
  intros H. apply parse_detail_soup_inv in H
    as (pm & price & stock & d2 & _ & _ & Hstock & Ht & ->).
  apply parse_table_rows_frame in Ht as (Hframe & _).
  assert (Hc0 : d2 !! "category" = None).
  { rewrite Hframe by (simpl; intuition discriminate). reflexivity. }
  assert (Hi0 : d2 !! "image_url" = None).
  { rewrite Hframe by (simpl; intuition discriminate). reflexivity. }
  destruct (with_category_frame soup d2) as (Hc & _).
  destruct (with_image_frame soup cfg (with_category soup d2)) as (Hi & _).
  rewrite !lookup_insert_ne by discriminate. split.
  - rewrite Hi by discriminate. unfold with_category.
    destruct (Soup.find "ul" (Some "breadcrumb") soup) as [b|]; [|exact Hc0].
    destruct (Soup.find_all "a" None b) as [|? [|? [|third ?]]]; try exact Hc0.
    simpl. apply lookup_insert_eq.
  - unfold with_image. destruct (image_elem soup) as [img|].
    + cbv zeta. destruct (Py.nonempty _).
      * apply lookup_insert_eq.
      * now rewrite Hc by discriminate.
    + now rewrite Hc by discriminate.
Qed.

Lemma detail_optional_fields_witness :
  parse_detail_soup (sample_detail_page "51.77" false)
    "https://books.toscrape.com/catalogue/a/index.html" CUSTOM_CONFIG
  = Some (sample_detail_record false)
  /\ sample_detail_record false !! "category" = None.
Proof.
  assert (H : parse_detail_soup (sample_detail_page "51.77" false)
                "https://books.toscrape.com/catalogue/a/index.html" CUSTOM_CONFIG
              = Some (sample_detail_record false))
    by (apply is_some_default; vm_compute; reflexivity).
  split; [exact H|].
  rewrite (proj1 (detail_optional_fields _ _ _ _ H)). vm_compute. reflexivity.
Defined.

(** X11. [scrape_book_detail] returns the empty dictionary exactly when
    the fetch or the extraction fails; a dictionary it returns otherwise is
    not empty and carries the address requested as [url]. A failed fetch
    and a page without the product container are two such failures. *)
Theorem scrape_book_detail_empty (url : string) (cfg : config)
    (get : nat -> outcome) :
  (scrape_book_detail url cfg get = ∅
   <-> parse_book_detail_page (detail_address url cfg) cfg get = None)
  /\ (scrape_book_detail url cfg get <> ∅ ->
      dict_truthy (scrape_book_detail url cfg get) = true
      /\ scrape_book_detail url cfg get !! "url"
         = Some (VStr (detail_address url cfg)))
  /\ (fst (make_request get cfg) = None -> scrape_book_detail url cfg get = ∅)
  /\ (forall soup,
        fst (make_request get cfg) = Some soup ->
        Soup.find "div" (Some "product_main") soup = None ->
        scrape_book_detail url cfg get = ∅).
Proof.
  unfold scrape_book_detail.
  destruct (parse_book_detail_page (detail_address url cfg) cfg get) as [d|] eqn:E;
    simpl.
  - pose proof (parse_book_detail_page_url _ _ _ _ E) as Hu.
    assert (Hne : d <> ∅) by (intros ->; now rewrite lookup_empty in Hu).
    split; [split; [contradiction|discriminate]|].
    split; [intros _; split; [now apply dict_truthy_lookup in Hu|exact Hu]|].
    unfold parse_book_detail_page in E. split.
    + intros Hf. rewrite Hf in E. discriminate.
    + intros soup Hs Hpm. rewrite Hs in E. simpl in E.
      unfold parse_detail_soup in E. rewrite Hpm in E. discriminate.
  - split; [split; reflexivity|]. split; [contradiction|]. split; reflexivity.
Qed.

Lemma scrape_book_detail_empty_witness :
  scrape_book_detail "a/index.html" CUSTOM_CONFIG (fun _ => Timeout) = ∅.
Proof.
  apply (proj1 (proj2 (proj2 (scrape_book_detail_empty "a/index.html"
                                 CUSTOM_CONFIG (fun _ => Timeout))))).
  vm_compute. reflexivity.
Defined.

(** X12. The address [scrape_book_detail] requests: an address that starts
    with [http] is kept; [catalogue/X] and a bare [X] both become
    [<base_url>/catalogue/X]; and with a base address that starts with
    [http] the result starts with [http], so that computing it again
    changes nothing. *)
Theorem detail_address_rule (url : string) (cfg : config) :
  (Py.startswith url "http" = true -> detail_address url cfg = url)
  /\ (forall x, url = "catalogue/" ++ x ->
        detail_address url cfg = base_url cfg ++ "/catalogue/" ++ x)
  /\ (Py.startswith url "http" = false ->
      Py.startswith url "catalogue/" = false ->
      detail_address url cfg = base_url cfg ++ "/catalogue/" ++ url
      /\ detail_address ("catalogue/" ++ url) cfg = detail_address url cfg)
  /\ (Py.startswith (base_url cfg) "http" = true ->
      Py.startswith (detail_address url cfg) "http" = true
      /\ detail_address (detail_address url cfg) cfg = detail_address url cfg).
Proof.
  split; [apply detail_address_absolute|]. split; [|split].
  - intros x ->. reflexivity.
  - intros H1 H2. unfold detail_address. rewrite H1, H2. cbn [negb].
    split; [reflexivity|]. change (Py.startswith ("catalogue/" ++ url) "http")
      with false. reflexivity.
  - intros Hb.
    assert (H : Py.startswith (detail_address url cfg) "http" = true).
    { unfold detail_address. destruct (Py.startswith url "http") eqn:E;
        cbn [negb]; [exact E|].
      destruct (Py.startswith url "catalogue/"); now apply startswith_append. }
    split; [exact H|]. now apply detail_address_absolute.
Qed.

Lemma detail_address_rule_witness :
  detail_address "a/index.html" CUSTOM_CONFIG
  = "https://books.toscrape.com/catalogue/a/index.html"
  /\ detail_address "catalogue/a/index.html" CUSTOM_CONFIG
     = "https://books.toscrape.com/catalogue/a/index.html".
Proof.
  destruct (proj1 (proj2 (proj2 (detail_address_rule "a/index.html" CUSTOM_CONFIG)))
              eq_refl eq_refl) as [H1 H2].
  split; [exact H1|]. exact (eq_trans H2 H1).
Defined.

(** ** The page walk, further *)

Lemma enrich_nil cfg tasks completion : enrich cfg [] tasks completion = [].
Proof.
  unfold enrich. simpl. induction completion as [|i rest IH]; [reflexivity|].
  simpl. exact IH.
Qed.

Lemma walk_length_cap web cfg m n u log left :
  walk web cfg (Some m) n u log left ->
  m <> 0 ->
  Z.of_nat (length log) <= Z.max 0 (m + 1 - n).
Proof.
  intros Hw Hm.
  induction Hw as [n u Hcap|n u Hcap Hn|n u next log left Hcap Hn Hw IH];
    simpl length.
  - lia.
  - apply over_cap_false_le in Hcap; [lia|exact Hm].
  - apply over_cap_false_le in Hcap; [lia|exact Hm].
Qed.

(** X13. Under a non-zero cap [m] a crawl requests at most [m] pages, and
    none when [m] is negative: then the loop leaves at once and both modes
    of [scrape_all_pages] return the empty list, without a request. *)
Theorem crawl_page_budget (web : website) (cfg : config) (m : Z) :
  m <> 0 ->
  (forall fuel st,
      crawl fuel web cfg (Some m) = Some st ->
      Z.of_nat (length (fetched st)) <= Z.max 0 m)
  /\ (m < 0 ->
      forall fuel tasks completion get_detailed,
        crawl (S fuel) web cfg (Some m) = Some (initial_state cfg)
        /\ scrape_all_pages (S fuel) web tasks completion cfg (Some m) get_detailed
           = Some []).
Proof.
  intros Hm. split.
  - intros fuel st H. apply crawl_walk in H as [Hw _].
    apply walk_length_cap in Hw; [lia|exact Hm].
  - intros Hneg fuel tasks completion get_detailed.
    assert (Hc : crawl (S fuel) web cfg (Some m) = Some (initial_state cfg)).
    { unfold crawl. cbn [crawl_loop initial_state current_url page_num].
      rewrite first_page_nonempty. cbn [negb].
      replace (over_cap (Some m) 1) with true; [reflexivity|].
      unfold over_cap. lia. }
    split; [exact Hc|]. unfold scrape_all_pages. rewrite Hc. simpl.
    destruct get_detailed; [now rewrite enrich_nil|reflexivity].
Qed.

Lemma crawl_page_budget_witness :
  scrape_all_pages 1 three_pages sample_tasks [] CUSTOM_CONFIG (Some (-1)) true
  = Some [].
Proof.
  refine (proj2 (proj2 (crawl_page_budget three_pages CUSTOM_CONFIG (-1) _) _
                   0%nat sample_tasks [] true)); lia.
Defined.



(** X15. The records of a crawl from a base address in [http] or [https]
    all have a url that starts with [http], so that the detailed pass
    requests each of them as it is. *)
Theorem listing_urls_absolute (fuel : nat) (web : website)
    (tasks : nat -> task_env) (completion : list nat) (cfg : config)
    (max_pages : option Z) (out : list record) :
  Url.scheme (Url.urlparse (base_url cfg) EmptyString) = "http"
  \/ Url.scheme (Url.urlparse (base_url cfg) EmptyString) = "https" ->
  scrape_all_pages fuel web tasks completion cfg max_pages false = Some out ->
  Forall (fun book =>
            absolute_url book
            /\ detail_address (url_of book) cfg = url_of book) out.
Proof.
  intros Hs H. unfold scrape_all_pages in H.
  destruct (crawl fuel web cfg max_pages) as [st|] eqn:Hc; [|discriminate].
  simpl in H. injection H as <-.
  apply crawl_walk in Hc as [_ ->].
  apply Forall_forall. intros r Hr. apply list_elem_of_In in Hr.
  apply in_flat_map in Hr as (p & _ & Hr). apply list_elem_of_In in Hr.
  pose proof (scrape_page_absolute (snd p) cfg (web (fst p) (snd p)) Hs) as Hall.
  rewrite Forall_forall in Hall. specialize (Hall r Hr).
  split; [exact Hall|]. destruct Hall as (u & Hu & Ha).
  rewrite (url_of_absolute _ _ Hu). now apply detail_address_absolute.
Qed.

Lemma listing_urls_absolute_witness :
  scrape_all_pages 4 three_pages sample_tasks [] CUSTOM_CONFIG None false
  = Some sample_catalog_records
  /\ Forall absolute_url sample_catalog_records.
Proof.
  assert (H : scrape_all_pages 4 three_pages sample_tasks [] CUSTOM_CONFIG None false
              = Some sample_catalog_records)
    by (apply is_some_default; vm_compute; reflexivity).
  assert (Hs : Url.scheme (Url.urlparse (base_url CUSTOM_CONFIG) EmptyString) = "http"
               \/ Url.scheme (Url.urlparse (base_url CUSTOM_CONFIG) EmptyString)
                  = "https")
    by (right; vm_compute; reflexivity).
  split; [exact H|].
  eapply Forall_impl; [exact (listing_urls_absolute _ _ _ _ _ _ _ Hs H)|].
  intros b [Ha _]. exact Ha.
Defined.

(** X26. A cap of zero is no cap: with [max_pages = 0] the loop runs as
    with [max_pages = None], on every site and in both modes, while a cap
    of 1 stops after the first page. On the catalog of three pages the cap
    0 fetches the pages 1, 2 and 3 and the cap 1 only page 1. *)
Theorem zero_cap_is_no_cap :
  (forall fuel web cfg st,
      crawl_loop fuel web cfg (Some 0) st = crawl_loop fuel web cfg None st)
  /\ (forall fuel web cfg, crawl fuel web cfg (Some 0) = crawl fuel web cfg None)
  /\ (forall fuel web tasks completion cfg get_detailed,
        scrape_all_pages fuel web tasks completion cfg (Some 0) get_detailed
        = scrape_all_pages fuel web tasks completion cfg None get_detailed)
  /\ (exists st0 st1,
        crawl 4 three_pages CUSTOM_CONFIG (Some 0) = Some st0
        /\ map fst (fetched st0) = [1; 2; 3]
        /\ crawl 4 three_pages CUSTOM_CONFIG (Some 1) = Some st1
        /\ map fst (fetched st1) = [1]).
Proof.
  assert (Hloop : forall fuel web cfg st,
             crawl_loop fuel web cfg (Some 0) st
             = crawl_loop fuel web cfg None st).
  { induction fuel as [|fuel IH]; intros web cfg st; [reflexivity|].
    simpl. destruct (current_url st) as [url|]; [|reflexivity].
    destruct (negb (Py.nonempty url)); [reflexivity|apply IH]. }
  split; [exact Hloop|].
  split; [intros; apply Hloop|].
  split; [intros; unfold scrape_all_pages, crawl; now rewrite Hloop|].
  eexists _, _. split; [vm_compute; reflexivity|]. split; [reflexivity|].
  split; [vm_compute; reflexivity|reflexivity].
Qed.

(** ** The url-indexed dictionary, further *)

Lemma od_get_is_Some {V} (k : string) (d : list (string * V)) :
  is_Some (OrderedDict.get k d) <-> k ∈ OrderedDict.keys d.
Proof.
  induction d as [|[k' v'] d IH]; simpl.
  - split; [intros [? ?]; discriminate|intros H; now apply elem_of_nil in H].
  - destruct (string_eqb_spec k k') as [->|Hne].
    + split; [intros _; left|intros _; eexists; reflexivity].
    + rewrite IH. split; [intros H; now right|].
      intros H. apply elem_of_cons in H as [?|?]; [contradiction|assumption].
Qed.

Lemma od_get_set {V} (k k' : string) (v : V) (d : list (string * V)) :
  OrderedDict.get k' (OrderedDict.set k v d)
  = if String.eqb k' k then Some v else OrderedDict.get k' d.
Proof.
  induction d as [|[k0 v0] d IH]; simpl.
  - destruct (String.eqb k' k); reflexivity.
  - destruct (string_eqb_spec k k0) as [->|Hne]; simpl.
    + destruct (String.eqb k' k0); reflexivity.
    + destruct (string_eqb_spec k' k0) as [->|Hne'].
      * destruct (string_eqb_spec k0 k) as [->|_]; [contradiction|reflexivity].
      * exact IH.
Qed.

Lemma od_keys_set {V} (k : string) (v : V) (d : list (string * V)) :
  OrderedDict.keys (OrderedDict.set k v d)
  = if decide (k ∈ OrderedDict.keys d) then OrderedDict.keys d
    else (OrderedDict.keys d ++ [k])%list.
Proof.
  induction d as [|[k0 v0] d IH]; simpl.
  - reflexivity.
  - destruct (string_eqb_spec k k0) as [->|Hne]; simpl.
    + rewrite decide_True by left. reflexivity.
    + unfold OrderedDict.keys in *. rewrite IH.
      destruct (decide (k ∈ map fst d)) as [H|H].
      * rewrite decide_True by (now right). reflexivity.
      * rewrite decide_False; [reflexivity|].
        intros H'. apply elem_of_cons in H' as [?|?]; contradiction.
Qed.

Lemma od_set_set {V} (k : string) (v v' : V) (d : list (string * V)) :
  OrderedDict.set k v' (OrderedDict.set k v d) = OrderedDict.set k v' d.
Proof.
  induction d as [|[k0 v0] d IH]; simpl.
  - now rewrite string_eqb_refl.
  - destruct (string_eqb_spec k k0) as [->|Hne]; simpl.
    + now rewrite string_eqb_refl.
    + destruct (string_eqb_spec k k0); [contradiction|]. now rewrite IH.
Qed.

Lemma od_length_set {V} (k : string) (v : V) (d : list (string * V)) :
  (length (OrderedDict.set k v d) <= S (length d))%nat.
Proof.
  induction d as [|[k0 v0] d IH]; simpl; [lia|].
  destruct (String.eqb k k0); simpl; lia.
Qed.

Lemma index_by_url_snoc l book :
  index_by_url (l ++ [book])%list
  = OrderedDict.set (url_of book) book (index_by_url l).
Proof. unfold index_by_url. now rewrite fold_left_app. Qed.

Lemma first_seen_elem l x : x ∈ first_seen l <-> x ∈ l.
Proof.
  induction l as [|y l IH]; simpl; [reflexivity|].
  rewrite !elem_of_cons, list_elem_of_filter, IH.
  destruct (decide (x = y)); tauto.
Qed.

Lemma first_seen_snoc l x :
  first_seen (l ++ [x])%list
  = if decide (x ∈ l) then first_seen l else (first_seen l ++ [x])%list.
Proof.
  induction l as [|y l IH]; simpl.
  - reflexivity.
  - rewrite IH. destruct (decide (x ∈ l)) as [H|H].
    + rewrite decide_True by (now right). reflexivity.
    + rewrite filter_app. destruct (decide (x = y)) as [->|Hne].
      * rewrite decide_True by left.
        rewrite filter_cons_False by (intros Hc; now apply Hc).
        simpl. now rewrite app_nil_r.
      * rewrite decide_False
          by (intros H'; apply elem_of_cons in H' as [?|?]; contradiction).
        rewrite filter_cons_True by exact Hne. reflexivity.
Qed.

Lemma first_seen_NoDup l : NoDup (first_seen l).
Proof.
  induction l as [|x l IH]; simpl; [constructor|].
  apply NoDup_cons. split; [|now apply NoDup_filter].
  rewrite list_elem_of_filter. tauto.
Qed.

Lemma index_by_url_keys l :
  OrderedDict.keys (index_by_url l) = first_seen (map url_of l).
Proof.
  induction l as [|book l IH] using rev_ind; [reflexivity|].
  rewrite index_by_url_snoc, od_keys_set, IH, map_app. simpl.
  rewrite first_seen_snoc.
  destruct (decide (url_of book ∈ first_seen (map url_of l))) as [H|H].
  - rewrite decide_True; [reflexivity|]. now apply first_seen_elem.
  - rewrite decide_False; [reflexivity|]. now rewrite <- first_seen_elem.
Qed.

Lemma index_by_url_length l :
  (length (index_by_url l) <= length l)%nat.
Proof.
  induction l as [|book l IH] using rev_ind; [reflexivity|].
  rewrite index_by_url_snoc, length_app. simpl.
  pose proof (od_length_set (url_of book) book (index_by_url l)). lia.
Qed.

(** X16. The dictionary built over the base records keeps one entry for
    each distinct url, at the place of the first record that has it, and
    stores under it the last record that has it: duplicates are collapsed
    onto the latest. *)
Theorem index_by_url_collapses (all_books : list record) :
  OrderedDict.keys (index_by_url all_books) = first_seen (map url_of all_books)
  /\ NoDup (OrderedDict.keys (index_by_url all_books))
  /\ (forall u,
        OrderedDict.get u (index_by_url all_books)
        = last (filter (fun book => url_of book = u) all_books))
  /\ (length (index_by_url all_books) <= length all_books)%nat.
Proof.
  split; [apply index_by_url_keys|].
  split; [rewrite index_by_url_keys; apply first_seen_NoDup|]. split.
  - intros u. induction all_books as [|book l IH] using rev_ind; [reflexivity|].
    rewrite index_by_url_snoc, od_get_set, filter_app.
    destruct (string_eqb_spec u (url_of book)) as [->|Hne].
    + rewrite filter_cons_True by reflexivity. rewrite filter_nil.
      now rewrite last_snoc.
    + rewrite filter_cons_False by congruence. rewrite filter_nil.
      now rewrite app_nil_r.
  - apply index_by_url_length.
Qed.

Lemma merge_result_keys d url res :
  OrderedDict.keys (merge_result d url res) = OrderedDict.keys d.
Proof.
  unfold merge_result. destruct res as [detailed_info|]; [|reflexivity].
  destruct (dict_truthy detailed_info); [|reflexivity].
  destruct (OrderedDict.get url d) as [book|] eqn:E; [|reflexivity].
  rewrite od_keys_set, decide_True; [reflexivity|].
  apply od_get_is_Some. now rewrite E.
Qed.

(** X17. Whatever the base records, the tasks and the order and number of
    the futures handled, the detailed pass returns one record for each
    distinct url of the base records: it never adds or drops an entry, and
    with pairwise distinct urls the output is as long as the input. *)
Theorem enrich_one_record_per_url (cfg : config) (all_books : list record)
    (tasks : nat -> task_env) (completion : list nat) :
  length (enrich cfg all_books tasks completion)
  = length (first_seen (map url_of all_books))
  /\ (length (enrich cfg all_books tasks completion) <= length all_books)%nat
  /\ (NoDup (map url_of all_books) ->
      length (enrich cfg all_books tasks completion) = length all_books).
Proof.
  assert (Hk : forall d,
             OrderedDict.keys
               (fold_left
                  (fun d i =>
                     match map url_of all_books !! i with
                     | Some url => merge_result d url (run_task cfg url (tasks i))
                     | None => d
                     end) completion d)
             = OrderedDict.keys d).
  { induction completion as [|i rest IH]; intros d; [reflexivity|].
    simpl. rewrite IH. destruct (map url_of all_books !! i); [|reflexivity].
    apply merge_result_keys. }
  assert (Hlen : length (enrich cfg all_books tasks completion)
                 = length (first_seen (map url_of all_books))).
  { unfold enrich, OrderedDict.values. rewrite length_map.
    rewrite <- index_by_url_keys, <- (Hk (index_by_url all_books)).
    unfold OrderedDict.keys. now rewrite length_map. }
  split; [exact Hlen|]. split.
  - rewrite Hlen, <- index_by_url_keys. unfold OrderedDict.keys.
    rewrite length_map. apply index_by_url_length.
  - intros Hnd. rewrite Hlen, <- index_by_url_keys.
    rewrite index_by_url_distinct by exact Hnd.
    unfold OrderedDict.keys. now rewrite !length_map.
Qed.

Lemma enrich_one_record_per_url_witness :
  length (enrich CUSTOM_CONFIG two_books sample_tasks [1; 1; 0]%nat) = 2%nat.
Proof.
  refine (proj2 (proj2 (enrich_one_record_per_url CUSTOM_CONFIG two_books
                          sample_tasks [1; 1; 0]%nat)) _).
  replace (map url_of two_books) with ["http://a"; "http://b"]
    by (vm_compute; reflexivity).
  apply NoDup_cons. split; [|apply NoDup_singleton].
  rewrite list_elem_of_singleton. discriminate.
Defined.

Lemma dict_update_idempotent (book detail : record) :
  dict_update (dict_update book detail) detail = dict_update book detail.
Proof.
  unfold dict_update. now rewrite (assoc_L (∪)), (idemp_L (∪)).
Qed.

(** X18. Handling a finished future twice is handling it once: merging
    the same detail record again changes no record, and the dictionary
    after the second pass is the dictionary after the first. *)
Theorem merge_result_idempotent (book_dict : list (string * record))
    (url : string) (res : future_result) (book : record) :
  apply_result (apply_result book res) res = apply_result book res
  /\ merge_result (merge_result book_dict url res) url res
     = merge_result book_dict url res.
Proof.
  split.
  - destruct res as [detailed_info|]; [|reflexivity]. simpl.
    destruct (dict_truthy detailed_info) eqn:E; simpl; rewrite ?E;
      [apply dict_update_idempotent|reflexivity].
  - unfold merge_result. destruct res as [detailed_info|]; [|reflexivity].
    destruct (dict_truthy detailed_info) eqn:E; rewrite ?E; [|reflexivity].
    destruct (OrderedDict.get url book_dict) as [b|] eqn:Hg; rewrite ?Hg;
      [|reflexivity].
    rewrite od_get_set, string_eqb_refl, od_set_set.
    now rewrite dict_update_idempotent.
Qed.

(** ** The records of a crawl *)

Ltac lookup_field :=
  rewrite ?lookup_insert_ne by discriminate; apply lookup_insert_eq.

Lemma rating_of_classes_range tokens : 0 <= rating_of_classes tokens <= 5.
Proof.
  destruct (rating_of_classes_rule tokens) as [(_ & cls & _ & _ & _ & Hc)|[_ Hz]].
  - now apply rating_lookup_range in Hc.
  - rewrite Hz. lia.
Qed.

Lemma parse_book_card_schema card base r :
  parse_book_card card base = Some r -> book_schema r.
Proof.
  intros H. apply parse_book_card_inv in H
    as (href & price & title & stock & _ & Hp & Hstock & ->).
  apply price_of_elem_nonneg in Hp.
  split; [eexists; lookup_field|].
  split; [eexists; split; [lookup_field|exact Hp]|].
  split; [eexists; split; [lookup_field|apply rating_of_classes_range]|].
  split; [eexists; split; [lookup_field|now apply stock_of_text_nonneg in Hstock]|].
  split; eexists; lookup_field.
Qed.

Lemma parse_detail_soup_schema soup url cfg d :
  parse_detail_soup soup url cfg = Some d -> book_schema d.
Proof.
  intros H. apply parse_detail_soup_inv in H
    as (pm & price & stock & d2 & _ & Hp & Hstock & Ht & ->).
  apply price_of_elem_nonneg in Hp.
  apply parse_table_rows_frame in Ht as (Hframe & _).
  destruct (with_category_frame soup d2) as (Hc & _).
  destruct (with_image_frame soup cfg (with_category soup d2)) as (Hi & _).
  assert (Hcore : forall k,
             In k ["title"; "price"; "stock"; "in_stock"; "rating"] ->
             (<["url" := VStr url]> (with_image soup cfg (with_category soup d2)))
               !! k = detail_core soup pm price stock !! k).
  { intros k Hk.
    assert (Hne : k <> "url" /\ k <> "image_url" /\ k <> "category"
                  /\ ~ In k table_keys).
    { simpl in *. intuition (subst; discriminate). }
    destruct Hne as (H1 & H2 & H3 & H4).
    rewrite lookup_insert_ne by congruence.
    now rewrite Hi, Hc, Hframe. }
  unfold book_schema. rewrite !Hcore by (simpl; tauto). unfold detail_core.
  split; [eexists; lookup_field|].
  split; [eexists; split; [lookup_field|exact Hp]|].
  split; [eexists; split; [lookup_field|apply rating_of_classes_range]|].
  split; [eexists; split; [lookup_field|now apply stock_of_text_nonneg in Hstock]|].
  split; [eexists; lookup_field|].
  eexists. apply lookup_insert_eq.
Qed.

Lemma scrape_book_detail_schema u cfg get :
  scrape_book_detail u cfg get = ∅ \/ book_schema (scrape_book_detail u cfg get).
Proof.
  unfold scrape_book_detail, parse_book_detail_page.
  destruct (fst (make_request get cfg)) as [soup|]; [|now left]. simpl.
  destruct (parse_detail_soup soup _ cfg) as [d|] eqn:E; [|now left].
  right. now apply parse_detail_soup_schema in E.
Qed.

Lemma dict_update_schema book detail :
  book_schema detail -> book_schema (dict_update book detail).
Proof.
  intros ((s & Hs) & (q & Hq & Hq') & (n & Hn & Hn') & (m & Hm & Hm')
            & (b & Hb) & (u & Hu)).
  unfold book_schema. rewrite !dict_update_lookup, Hs, Hq, Hn, Hm, Hb, Hu.
  repeat split; eauto.
Qed.

Lemma od_get_values {V} (k : string) (v : V) (d : list (string * V)) :
  OrderedDict.get k d = Some v -> v ∈ OrderedDict.values d.
Proof.
  induction d as [|[k' v'] d IH]; simpl; [discriminate|].
  destruct (String.eqb k k').
  - intros [= ->]. left.
  - intros H. right. now apply IH.
Qed.

Lemma od_set_values {V} (P : V -> Prop) (k : string) (v : V)
    (d : list (string * V)) :
  P v -> Forall P (OrderedDict.values d) ->
  Forall P (OrderedDict.values (OrderedDict.set k v d)).
Proof.
  intros Hv. induction d as [|[k' v'] d IH]; simpl; intros H.
  - now constructor.
  - apply Forall_cons in H as [H1 H2].
    destruct (String.eqb k k'); simpl; constructor; auto.
Qed.

Lemma index_by_url_values (P : record -> Prop) l :
  Forall P l -> Forall P (OrderedDict.values (index_by_url l)).
Proof.
  induction l as [|book l IH] using rev_ind; intros H; [constructor|].
  apply Forall_app in H as [Hl Hb]. apply Forall_cons in Hb as [Hb _].
  rewrite index_by_url_snoc. apply od_set_values; auto.
Qed.

Lemma merge_result_schema cfg d url env :
  Forall book_schema (OrderedDict.values d) ->
  Forall book_schema
    (OrderedDict.values (merge_result d url (run_task cfg url env))).
Proof.
  intros H. destruct env as [|get]; simpl; [exact H|].
  destruct (dict_truthy _) eqn:Ht; [|exact H].
  destruct (OrderedDict.get url d) as [book|] eqn:Eg; [|exact H].
  apply od_set_values; [|exact H].
  destruct (scrape_book_detail_schema url cfg get) as [E|Hs].
  - rewrite E, dict_truthy_empty in Ht. discriminate.
  - now apply dict_update_schema.
Qed.

Lemma enrich_schema cfg all_books tasks completion :
  Forall book_schema all_books ->
  Forall book_schema (enrich cfg all_books tasks completion).
Proof.
  intros H. unfold enrich.
  generalize (index_by_url_values book_schema all_books H).
  generalize (index_by_url all_books) as d.
  induction completion as [|i completion IH]; intros d Hd; [exact Hd|].
  simpl. apply IH.
  destruct (map url_of all_books !! i) as [url|]; [|exact Hd].
  now apply merge_result_schema.
Qed.

Lemma crawl_books_schema fuel web cfg max_pages st :
  crawl fuel web cfg max_pages = Some st ->
  Forall book_schema (books_data st).
Proof.
  intros H. apply crawl_walk in H as [_ ->].
  apply Forall_forall. intros r Hr. apply list_elem_of_In in Hr.
  apply in_flat_map in Hr as (p & _ & Hr). apply list_elem_of_In in Hr.
  unfold page_books, scrape_page in Hr.
  destruct (fst (make_request _ cfg)) as [soup|]; simpl in Hr;
    [|now apply elem_of_nil in Hr].
  apply list_elem_of_omap in Hr as (card & _ & Hc).
  now apply parse_book_card_schema in Hc.
Qed.

(** X19. Every record [scrape_all_pages] returns, with or without the
    detailed pass and whatever the detail pages held, has the six fields of
    a book with their types: [title] and [url] strings, [price] a float
    that is not negative, [rating] an integer from 0 to 5, [stock] an
    integer that is not negative and [in_stock] a boolean. Merging a detail
    record never changes the type of a field. *)
Theorem scraped_records_schema (fuel : nat) (web : website)
    (tasks : nat -> task_env) (completion : list nat) (cfg : config)
    (max_pages : option Z) (get_detailed : bool) (out : list record) :
  scrape_all_pages fuel web tasks completion cfg max_pages get_detailed
  = Some out ->
  Forall book_schema out.
Proof.
  unfold scrape_all_pages. intros H.
  destruct (crawl fuel web cfg max_pages) as [st|] eqn:Ec; [|discriminate].
  simpl in H. injection H as <-.
  apply crawl_books_schema in Ec.
  destruct get_detailed; [now apply enrich_schema|exact Ec].
Qed.

Lemma scraped_records_schema_witness :
  scrape_all_pages 4 three_pages sample_tasks [] CUSTOM_CONFIG None false
  = Some sample_catalog_records
  /\ Forall book_schema sample_catalog_records.
Proof.
  assert (H : scrape_all_pages 4 three_pages sample_tasks [] CUSTOM_CONFIG None
                false = Some sample_catalog_records)
    by (apply is_some_default; vm_compute; reflexivity).
  split; [exact H|]. exact (scraped_records_schema _ _ _ _ _ _ _ _ H).
Defined.

(** ** The storage configuration *)

Lemma no_leading_digit_spec rest :
  no_leading_digit rest <-> forall c r, rest = String c r -> Py.is_digit c = false.
Proof.
  destruct rest as [|c r]; simpl.
  - split; [discriminate|auto].
  - split; [now intros H c' r' [= <- _]|eauto].
Qed.

Lemma match_region_sound s ds :
  match_region s = Some ds ->
  Py.nonempty ds = true /\ Py.all_chars Py.is_digit ds = true
  /\ exists rest, s = "ru-" ++ ds ++ rest /\ no_leading_digit rest.
Proof.
  unfold match_region. destruct (Py.startswith s "ru-") eqn:Es; [|discriminate].
  destruct (Py.take_while Py.is_digit (Py.slice_from 3 s)) as [|c run] eqn:E;
    [discriminate|].
  intros [= <-]. split; [reflexivity|]. split.
  - rewrite <- E. apply take_while_all.
  - exists (Py.drop_while Py.is_digit (Py.slice_from 3 s)). split.
    + rewrite <- E, take_drop_while. now apply startswith_split in Es.
    + apply no_leading_digit_spec. intros c' r'. apply drop_while_head.
Qed.

Lemma match_region_complete ds rest :
  Py.nonempty ds = true -> Py.all_chars Py.is_digit ds = true ->
  no_leading_digit rest ->
  match_region ("ru-" ++ ds ++ rest) = Some ds.
Proof.
  intros Hn Hd Hr. unfold match_region.
  change (Py.startswith ("ru-" ++ ds ++ rest) "ru-") with true.
  change (Py.slice_from 3 ("ru-" ++ ds ++ rest)) with (ds ++ rest).
  pose proof (proj1 (no_leading_digit_spec rest) Hr) as Hr'.
  destruct (take_while_run Py.is_digit ds rest Hd Hr') as [-> _].
  destruct ds; [discriminate|reflexivity].
Qed.

Lemma search_region_unfold s :
  search_region s
  = match match_region s with
    | Some ds => Some ds
    | None =>
        match s with
        | EmptyString => None
        | String _ s' => search_region s'
        end
    end.
Proof. destruct s; reflexivity. Qed.

Lemma search_region_sound s ds :
  search_region s = Some ds ->
  Py.nonempty ds = true /\ Py.all_chars Py.is_digit ds = true
  /\ exists pre rest, s = pre ++ "ru-" ++ ds ++ rest /\ no_leading_digit rest.
Proof.
  induction s as [|c s IH]; rewrite search_region_unfold.
  - destruct (match_region "") eqn:E; [|discriminate].
    intros [= ->]. apply match_region_sound in E as (? & ? & rest & ? & ?).
    repeat split; auto. now exists "", rest.
  - destruct (match_region (String c s)) eqn:E.
    + intros [= ->]. apply match_region_sound in E as (? & ? & rest & ? & ?).
      repeat split; auto. now exists "", rest.
    + intros H. apply IH in H as (? & ? & pre & rest & -> & ?).
      repeat split; auto. now exists (String c pre), rest.
Qed.

(** A match that begins inside [pre] is already a match in [pre ++ "ru"]. *)
Lemma startswith_region_inside c pre x :
  Py.startswith (String c pre ++ "ru-" ++ x) "ru-" = true ->
  Py.startswith (String c pre ++ "ru") "ru-" = true.
Proof.
  destruct pre as [|c1 [|c2 pre]]; cbn [Py.startswith String.append]; intros H.
  - apply andb_true_iff in H as [_ H]. apply andb_true_iff in H as [H _].
    vm_compute in H. discriminate.
  - apply andb_true_iff in H as [_ H]. apply andb_true_iff in H as [_ H].
    apply andb_true_iff in H as [H _]. vm_compute in H. discriminate.
  - exact H.
Qed.

Lemma search_region_leftmost pre ds rest :
  Py.contains "ru-" (pre ++ "ru") = false ->
  Py.nonempty ds = true -> Py.all_chars Py.is_digit ds = true ->
  no_leading_digit rest ->
  search_region (pre ++ "ru-" ++ ds ++ rest) = Some ds.
Proof.
  intros Hc Hn Hd Hr. induction pre as [|c pre IH]; rewrite search_region_unfold.
  - change ("" ++ "ru-" ++ ds ++ rest) with ("ru-" ++ ds ++ rest).
    now rewrite match_region_complete.
  - cbn [String.append Py.contains] in Hc.
    apply orb_false_iff in Hc as [Hs Hc].
    assert (E : match_region (String c pre ++ "ru-" ++ ds ++ rest) = None).
    { unfold match_region.
      destruct (Py.startswith (String c pre ++ "ru-" ++ ds ++ rest) "ru-") eqn:E';
        [|reflexivity].
      apply startswith_region_inside in E'.
      cbn [String.append] in E'. congruence. }
    rewrite E. cbn [String.append]. now apply IH.
Qed.

Lemma search_region_contains s ds :
  search_region s = Some ds -> Py.nonempty s && Py.contains "ru-" s = true.
Proof.
  intros H. apply search_region_sound in H as (_ & _ & pre & rest & -> & _).
  apply andb_true_iff. split; [now destruct pre|].
  remember ("ru-" ++ ds ++ rest) as tail eqn:Et.
  assert (Ht : Py.contains "ru-" tail = true) by (subst tail; reflexivity).
  clear Et. induction pre as [|c pre IH]; [exact Ht|].
  cbn [String.append Py.contains]. rewrite IH. apply orb_true_r.
Qed.

Lemma region_of_search endpoint :
  region_of endpoint
  = match endpoint ≫= search_region with
    | Some ds => "ru-" ++ ds
    | None => S3_REGION_DEFAULT
    end.
Proof.
  destruct endpoint as [e|]; [|reflexivity]. simpl.
  destruct (search_region e) as [ds|] eqn:E.
  - now rewrite (search_region_contains _ _ E).
  - now destruct (_ && _).
Qed.

(** X20. [get_s3_config] returns [None] exactly when the access key or
    the secret key is unset or empty. Otherwise it returns both keys as
    they are in the environment, and the endpoint and the bucket name as
    they are too, set or not: a missing bucket name or endpoint does not
    stop it. *)
Theorem get_s3_config_credentials (getenv : string -> option string) :
  (get_s3_config getenv = None
   <-> env_truthy (getenv "SELECTEL_ACCESS_KEY") = false
       \/ env_truthy (getenv "SELECTEL_SECRET_KEY") = false)
  /\ forall c,
       get_s3_config getenv = Some c ->
       getenv "SELECTEL_ACCESS_KEY" = Some (access_key c)
       /\ access_key c <> EmptyString
       /\ getenv "SELECTEL_SECRET_KEY" = Some (secret_key c)
       /\ secret_key c <> EmptyString
       /\ endpoint_url c = getenv "SELECTEL_ENDPOINT"
       /\ bucket_name c = getenv "SELECTEL_BUCKET".
Proof.
  unfold get_s3_config, env_truthy.
  destruct (getenv "SELECTEL_ACCESS_KEY") as [[|a access]|];
    destruct (getenv "SELECTEL_SECRET_KEY") as [[|b secret]|]; simpl;
    (split; [split; [auto; discriminate|intros [?|?]; congruence]|]);
    intros c [= <-]; simpl; repeat split; discriminate.
Qed.

Lemma get_s3_config_credentials_witness :
  get_s3_config sample_env = Some sample_s3_config
  /\ sample_env "SELECTEL_ACCESS_KEY" = Some "key"
  /\ bucket_name sample_s3_config = sample_env "SELECTEL_BUCKET".
Proof.
  assert (H : get_s3_config sample_env = Some sample_s3_config)
    by (vm_compute; reflexivity).
  destruct (proj2 (get_s3_config_credentials sample_env) _ H)
    as (Ha & _ & _ & _ & _ & Hb).
  split; [exact H|]. split; [exact Ha|exact Hb].
Defined.

(** X21. The region of the configuration is always [ru-] followed by a
    non-empty run of digits. It is the default [ru-7] unless the endpoint
    holds [ru-] followed by a digit; then it is the first such occurrence
    with all the digits that follow it. The test for [ru-] in the endpoint
    before the search changes nothing. *)
Theorem get_s3_config_region (getenv : string -> option string)
    (c : s3_config) :
  get_s3_config getenv = Some c ->
  (exists ds,
      region c = "ru-" ++ ds
      /\ Py.nonempty ds = true /\ Py.all_chars Py.is_digit ds = true)
  /\ region c = match getenv "SELECTEL_ENDPOINT" ≫= search_region with
                | Some ds => "ru-" ++ ds
                | None => S3_REGION_DEFAULT
                end
  /\ (region c = S3_REGION_DEFAULT
      \/ exists pre rest,
           getenv "SELECTEL_ENDPOINT" = Some (pre ++ region c ++ rest)
           /\ no_leading_digit rest)
  /\ (forall pre ds rest,
        getenv "SELECTEL_ENDPOINT" = Some (pre ++ "ru-" ++ ds ++ rest) ->
        Py.contains "ru-" (pre ++ "ru") = false ->
        Py.nonempty ds = true -> Py.all_chars Py.is_digit ds = true ->
        no_leading_digit rest ->
        region c = "ru-" ++ ds).
Proof.
  intros H.
  assert (Hr : region c = region_of (getenv "SELECTEL_ENDPOINT")).
  { unfold get_s3_config in H. destruct (_ || _); [discriminate|].
    now injection H as <-. }
  rewrite Hr, region_of_search. clear H Hr.
  destruct (getenv "SELECTEL_ENDPOINT") as [e|]; simpl.
  - destruct (search_region e) as [ds|] eqn:E.
    + pose proof (search_region_sound _ _ E) as (Hn & Hd & pre & rest & He & Hrest).
      split; [now exists ds|]. split; [reflexivity|]. split.
      * right. exists pre, rest. split; [now rewrite He|exact Hrest].
      * intros pre' ds' rest' E' Hc Hn' Hd' Hr'. injection E' as E'.
        pose proof (search_region_leftmost pre' ds' rest' Hc Hn' Hd' Hr') as L.
        assert (Hds : Some ds = Some ds') by (rewrite <- E, E'; exact L).
        now injection Hds as <-.
    + split; [now exists "7"|]. split; [reflexivity|]. split; [now left|].
      intros pre' ds' rest' E' Hc Hn' Hd' Hr'. injection E' as E'.
      pose proof (search_region_leftmost pre' ds' rest' Hc Hn' Hd' Hr') as L.
      assert (Hds : None = Some ds') by (rewrite <- E, E'; exact L).
      discriminate.
  - split; [now exists "7"|]. split; [reflexivity|]. split; [now left|].
    intros; discriminate.
Qed.

Lemma get_s3_config_region_witness :
  get_s3_config sample_env = Some sample_s3_config
  /\ region sample_s3_config = "ru-3".
Proof.
  assert (H : get_s3_config sample_env = Some sample_s3_config)
    by (vm_compute; reflexivity).
  split; [exact H|].
  destruct (get_s3_config_region sample_env _ H) as (_ & _ & _ & Hl).
  apply (Hl "https://s3." "3" ".storage.selcloud.ru"); reflexivity.
Defined.

(** ** The filter *)

Lemma compare_cell_defined test col row :
  is_Some (compare_cell test col row) <-> numeric_or_missing col row.
Proof.
  unfold compare_cell, numeric_or_missing.
  destruct (row !! col) as [v|]; [|split; eauto].
  destruct (cell_number v); simpl; split; intros [x H]; eauto; discriminate.
Qed.

Lemma keeps_spec test col row :
  keeps test col row = true
  <-> exists q, row !! col ≫= cell_number = Some q /\ test q = true.
Proof.
  unfold keeps, compare_cell.
  destruct (row !! col) as [v|]; simpl.
  - destruct (cell_number v) as [q|]; simpl.
    + destruct (test q) eqn:E; split; eauto; try discriminate.
      intros (q' & [= <-] & H). congruence.
    + split; [discriminate|]. intros (q & H & _). discriminate.
  - split; [discriminate|]. intros (q & H & _). discriminate.
Qed.

Lemma keeps_in_spec cols test col row :
  keeps_in cols test col row = true
  <-> (col ∈ cols ->
       exists q, row !! col ≫= cell_number = Some q /\ test q = true).
Proof.
  unfold keeps_in. rewrite orb_true_iff, negb_true_iff, keeps_spec.
  case_bool_decide as Hc; split.
  - intros [?|H]; [discriminate|auto].
  - auto.
  - intros _ ?. contradiction.
  - auto.
Qed.

Lemma select_rows_spec test col l kept :
  select_rows test col l = Some kept
  <-> Forall (numeric_or_missing col) l
      /\ kept = List.filter (keeps test col) l.
Proof.
  revert kept. induction l as [|row l IH]; intros kept; simpl.
  - split; [intros [= <-]; split; [constructor|reflexivity]|].
    now intros [_ ->].
  - destruct (compare_cell test col row) as [b|] eqn:E.
    + assert (Hn : numeric_or_missing col row)
        by (apply (proj1 (compare_cell_defined test col row)); rewrite E; eauto).
      assert (Hk : keeps test col row = b)
        by (unfold keeps; rewrite E; now destruct b).
      rewrite Hk. destruct (select_rows test col l) as [k|] eqn:Es; simpl.
      * destruct (proj1 (IH k) eq_refl) as [Hl ->].
        split; [intros [= <-]; split; [now constructor|reflexivity]|].
        now intros [_ ->].
      * split; [discriminate|]. intros [Hl _]. apply Forall_cons in Hl as [_ Hl].
        pose proof (proj2 (IH _) (conj Hl eq_refl)). discriminate.
    + split; [discriminate|]. intros [Hl _]. apply Forall_cons in Hl as [Hn _].
      apply (proj2 (compare_cell_defined test col row)) in Hn. rewrite E in Hn.
      destruct Hn; discriminate.
Qed.

Lemma filter_all {A} (f : A -> bool) l :
  (forall x, In x l -> f x = true) -> List.filter f l = l.
Proof.
  induction l as [|x l IH]; intros H; simpl; [reflexivity|].
  rewrite (H x) by now left. f_equal. apply IH. intros y Hy. apply H. now right.
Qed.

Lemma filter_sublist {A} (f : A -> bool) l : sublist (List.filter f l) l.
Proof.
  induction l as [|x l IH]; simpl; [constructor|].
  destruct (f x); now constructor.
Qed.

Lemma filter_narrow {A} (f g : A -> bool) l :
  (forall x, f x = true -> g x = true) ->
  List.filter f (List.filter g l) = List.filter f l.
Proof.
  intros H. induction l as [|x l IH]; simpl; [reflexivity|].
  destruct (g x) eqn:Eg; simpl.
  - now rewrite IH.
  - destruct (f x) eqn:Ef; [|exact IH]. apply H in Ef. congruence.
Qed.

Lemma filter_swap {A} (f g : A -> bool) l :
  List.filter f (List.filter g l) = List.filter g (List.filter f l).
Proof.
  induction l as [|x l IH]; simpl; [reflexivity|].
  destruct (g x) eqn:Eg, (f x) eqn:Ef; simpl; rewrite ?Eg, ?Ef, IH; reflexivity.
Qed.

Lemma filter_Forall {A} (P : A -> Prop) (f : A -> bool) l :
  Forall P l -> Forall P (List.filter f l).
Proof.
  intros H. apply Forall_forall. intros x Hx. apply list_elem_of_In in Hx.
  apply filter_In in Hx as [Hx _]. apply list_elem_of_In in Hx.
  revert x Hx. now apply Forall_forall.
Qed.

(** A selection by column: when it is defined and what it keeps. *)
Lemma select_if_column_spec test col df out :
  select_if_column test col df = Some out
  <-> Forall (fun row => col ∈ columns df -> numeric_or_missing col row) (rows df)
      /\ out = {| columns := columns df;
                  rows := List.filter (keeps_in (columns df) test col) (rows df) |}.
Proof.
  unfold select_if_column, keeps_in. case_bool_decide as Hc; simpl.
  - destruct (select_rows test col (rows df)) as [kept|] eqn:E; simpl.
    + apply select_rows_spec in E as [Hl ->].
      split; [intros [= <-]; split; [|reflexivity]|now intros [_ ->]].
      eapply Forall_impl; [exact Hl|]. simpl. auto.
    + split; [discriminate|]. intros [Hl _].
      assert (Hl' : Forall (numeric_or_missing col) (rows df))
        by (eapply Forall_impl; [exact Hl|]; simpl; auto).
      pose proof (proj2 (select_rows_spec test col _ _) (conj Hl' eq_refl)) as E'.
      rewrite E in E'. discriminate.
  - rewrite filter_all by reflexivity. destruct df as [cols l]. simpl in *.
    split; [intros [= <-]; split; [|reflexivity]|now intros [_ ->]].
    apply Forall_forall. intros row _ ?. contradiction.
Qed.

(** The filter: when it is defined and what it returns. *)
Lemma filter_books_spec df min_rating max_price out :
  filter_books df min_rating max_price = Some out
  <-> Forall (fun row => "rating" ∈ columns df ->
                         numeric_or_missing "rating" row) (rows df)
      /\ Forall (fun row => "price" ∈ columns df ->
                            numeric_or_missing "price" row)
           (List.filter (keeps_in (columns df) (rating_test min_rating) "rating")
              (rows df))
      /\ out = {| columns := columns df;
                  rows := List.filter
                            (keeps_in (columns df) (price_test max_price) "price")
                            (List.filter
                               (keeps_in (columns df) (rating_test min_rating)
                                  "rating")
                               (rows df)) |}.
Proof.
  unfold filter_books.
  destruct (select_if_column (rating_test min_rating) "rating" df)
    as [filtered|] eqn:E; simpl.
  - apply select_if_column_spec in E as [Hr ->].
    rewrite select_if_column_spec. simpl. tauto.
  - split; [discriminate|]. intros (Hr & _ & _).
    pose proof (proj2 (select_if_column_spec (rating_test min_rating) "rating"
                         df _) (conj Hr eq_refl)) as E'.
    rewrite E in E'. discriminate.
Qed.

Lemma passes_keeps df min_rating max_price row :
  passes df min_rating max_price row
  <-> keeps_in (columns df) (rating_test min_rating) "rating" row = true
      /\ keeps_in (columns df) (price_test max_price) "price" row = true.
Proof.
  unfold passes, rating_test, price_test. rewrite !keeps_in_spec.
  split; intros [H1 H2]; (split; [intros Hc; destruct (H1 Hc) as (q & Hq & Hb)
                                 |intros Hc; destruct (H2 Hc) as (q & Hq & Hb)]);
    exists q; (split; [exact Hq|]); now apply Qle_bool_iff.
Qed.

Lemma filter_books_rows df min_rating max_price out :
  filter_books df min_rating max_price = Some out ->
  columns out = columns df
  /\ sublist (rows out) (rows df)
  /\ forall row,
       row ∈ rows out <-> row ∈ rows df /\ passes df min_rating max_price row.
Proof.
  intros H. apply filter_books_spec in H as (_ & _ & ->). simpl.
  split; [reflexivity|]. split.
  - etransitivity; apply filter_sublist.
  - intros row. rewrite passes_keeps, !list_elem_of_In, !filter_In. tauto.
Qed.

(** X22. [filter_and_save_books] returns the frame with the same columns
    and with the rows that pass, in their order: a row passes when, for
    each of the columns [rating] and [price] the frame has, its cell is a
    number within the bound; a row whose cell is missing is dropped. The
    local file is written exactly when a row passes, so that a run that
    keeps nothing leaves the file of an earlier run in place. *)
Theorem filter_keeps_passing_rows (df : DataFrame) (min_rating : Z)
    (max_price : Q) (s3_client : bool) (bucket : option string)
    (timestamp : string) (out : DataFrame) (outs : list output) :
  filter_and_save_books df min_rating max_price s3_client bucket timestamp
  = Some (out, outs) ->
  columns out = columns df
  /\ sublist (rows out) (rows df)
  /\ (forall row,
        row ∈ rows out <-> row ∈ rows df /\ passes df min_rating max_price row)
  /\ (forall row,
        "rating" ∈ columns df -> row !! "rating" = None -> row ∉ rows out)
  /\ (outs = [] <-> rows out = []).
Proof.
  unfold filter_and_save_books.
  destruct (filter_books df min_rating max_price) as [filtered|] eqn:E;
    [|discriminate].
  simpl. intros [= <- <-].
  destruct (filter_books_rows _ _ _ _ E) as (Hc & Hs & Hm).
  split; [exact Hc|]. split; [exact Hs|]. split; [exact Hm|]. split.
  - intros row Hcol Hnone Hin. apply Hm in Hin as [_ [Hr _]].
    destruct (Hr Hcol) as (q & Hq & _). rewrite Hnone in Hq. discriminate.
  - destruct (rows filtered); simpl; split; congruence.
Qed.

Lemma filter_keeps_passing_rows_witness :
  filter_and_save_books sample_frame MIN_RATING_FILTER MAX_PRICE_FILTER
    true (Some "books") "20240101_000000"
  = Some (sample_filtered,
          [ToCsv CSV_FILTERED_BOOKS 1;
           UploadFile "books" "filtered_data/20240101_000000_filtered_books.csv"])
  /\ length (rows sample_filtered) = 1%nat
  /\ sublist (rows sample_filtered) (rows sample_frame).
Proof.
  assert (H : filter_and_save_books sample_frame MIN_RATING_FILTER
                MAX_PRICE_FILTER true (Some "books") "20240101_000000"
              = Some (sample_filtered,
                      [ToCsv CSV_FILTERED_BOOKS 1;
                       UploadFile "books"
                         "filtered_data/20240101_000000_filtered_books.csv"]))
    by (vm_compute; reflexivity).
  split; [exact H|]. split; [vm_compute; reflexivity|].
  exact (proj1 (proj2 (filter_keeps_passing_rows _ _ _ _ _ _ _ _ H))).
Defined.

Lemma rating_test_mono m m' q :
  m <= m' -> rating_test m' q = true -> rating_test m q = true.
Proof.
  unfold rating_test. rewrite !Qle_bool_iff. intros Hm H.
  eapply Qle_trans; [|exact H]. rewrite <- Zle_Qle. exact Hm.
Qed.

Lemma price_test_mono p p' q :
  (p' <= p)%Q -> price_test p' q = true -> price_test p q = true.
Proof.
  unfold price_test. rewrite !Qle_bool_iff. intros Hp H.
  eapply Qle_trans; [exact H|exact Hp].
Qed.

Lemma keeps_in_mono cols (test test' : Q -> bool) col row :
  (forall q, test' q = true -> test q = true) ->
  keeps_in cols test' col row = true -> keeps_in cols test col row = true.
Proof.
  intros Hm. rewrite !keeps_in_spec. intros H Hc.
  destruct (H Hc) as (q & Hq & Hb). eauto.
Qed.

(** X23. Filtering a filtered frame again with bounds at least as tight
    gives what filtering the first frame with these bounds gives, and
    raises nothing when the first filtering did not; with the same bounds
    it returns the frame unchanged. *)
Theorem filter_again (df out : DataFrame) (min_rating min_rating' : Z)
    (max_price max_price' : Q) :
  filter_books df min_rating max_price = Some out ->
  min_rating <= min_rating' ->
  (max_price' <= max_price)%Q ->
  filter_books out min_rating' max_price'
  = filter_books df min_rating' max_price'
  /\ is_Some (filter_books df min_rating' max_price')
  /\ filter_books out min_rating max_price = Some out.
Proof.
  intros H Hm Hp. apply filter_books_spec in H as (Hr & Hpr & ->).
  set (cols := columns df) in *. set (l := rows df) in *.
  set (R := keeps_in cols (rating_test min_rating) "rating") in *.
  set (P := keeps_in cols (price_test max_price) "price") in *.
  set (R' := keeps_in cols (rating_test min_rating') "rating").
  set (P' := keeps_in cols (price_test max_price') "price").
  assert (HR : forall x, R' x = true -> R x = true).
  { intros x. apply keeps_in_mono. intros q. now apply rating_test_mono. }
  assert (HP : forall x, P' x = true -> P x = true).
  { intros x. apply keeps_in_mono. intros q. now apply price_test_mono. }
  assert (Hpr' : Forall (fun row => "price" ∈ cols ->
                                    numeric_or_missing "price" row)
                   (List.filter R' l)).
  { rewrite <- (filter_narrow R' R l HR). now apply filter_Forall. }
  assert (Hdf : filter_books df min_rating' max_price'
                = Some {| columns := cols;
                          rows := List.filter P' (List.filter R' l) |}).
  { apply filter_books_spec. auto. }
  assert (Hagain : forall m p,
             (forall x, keeps_in cols (rating_test m) "rating" x = true ->
                        R x = true) ->
             (forall x, keeps_in cols (price_test p) "price" x = true ->
                        P x = true) ->
             filter_books {| columns := cols; rows := List.filter P (List.filter R l) |}
               m p
             = Some {| columns := cols;
                       rows := List.filter (keeps_in cols (price_test p) "price")
                                 (List.filter
                                    (keeps_in cols (rating_test m) "rating") l) |}).
  { intros m p HRm HPp. apply filter_books_spec. simpl.
    split; [now apply filter_Forall, filter_Forall|].
    split; [now apply filter_Forall, filter_Forall|].
    f_equal.
    rewrite (filter_swap _ P), (filter_narrow _ P _ HPp).
    now rewrite (filter_narrow _ R _ HRm). }
  split; [|split].
  - rewrite Hdf. now apply Hagain.
  - rewrite Hdf. eauto.
  - now apply Hagain.
Qed.

Lemma filter_again_witness :
  filter_books sample_frame 3 MAX_PRICE_FILTER
  = Some (default empty_frame (filter_books sample_frame 3 MAX_PRICE_FILTER))
  /\ filter_books
       (default empty_frame (filter_books sample_frame 3 MAX_PRICE_FILTER))
       MIN_RATING_FILTER 20
     = filter_books sample_frame MIN_RATING_FILTER 20.
Proof.
  assert (H : filter_books sample_frame 3 MAX_PRICE_FILTER
              = Some (default empty_frame
                        (filter_books sample_frame 3 MAX_PRICE_FILTER)))
    by (apply is_some_default; vm_compute; reflexivity).
  split; [exact H|].
  refine (proj1 (filter_again _ _ 3 MIN_RATING_FILTER MAX_PRICE_FILTER 20 H _ _)).
  - unfold MIN_RATING_FILTER. lia.
  - vm_compute. discriminate.
Defined.

(** ** From the crawl to the filter *)

Lemma filter_books_total df min_rating max_price :
  Forall (numeric_or_missing "rating") (rows df) ->
  Forall (numeric_or_missing "price") (rows df) ->
  is_Some (filter_books df min_rating max_price).
Proof.
  intros Hr Hp. eexists. apply filter_books_spec.
  split; [eapply Forall_impl; [exact Hr|]; simpl; auto|].
  split; [|reflexivity].
  apply filter_Forall. eapply Forall_impl; [exact Hp|]. simpl. auto.
Qed.

(** X24. The filter raises nothing on a frame whose [rating] and [price]
    cells are numbers or missing. It raises when the frame has a [rating]
    column with a string in some row, and when the frame has a [price]
    column with a string in a row that the rating bound keeps. *)
Theorem filter_raises_on_text (df : DataFrame) (min_rating : Z)
    (max_price : Q) :
  (Forall (numeric_or_missing "rating") (rows df) ->
   Forall (numeric_or_missing "price") (rows df) ->
   is_Some (filter_books df min_rating max_price))
  /\ (forall row s,
        "rating" ∈ columns df -> row ∈ rows df ->
        row !! "rating" = Some (VStr s) ->
        filter_books df min_rating max_price = None)
  /\ (forall row s,
        "price" ∈ columns df -> row ∈ rows df ->
        row !! "price" = Some (VStr s) ->
        keeps_in (columns df) (rating_test min_rating) "rating" row = true ->
        filter_books df min_rating max_price = None).
Proof.
  split; [|split].
  - apply filter_books_total.
  - intros row s Hc Hin Hs.
    destruct (filter_books df min_rating max_price) as [out|] eqn:E;
      [|reflexivity].
    apply filter_books_spec in E as (Hr & _ & _).
    rewrite Forall_forall in Hr. specialize (Hr row Hin Hc).
    unfold numeric_or_missing in Hr. rewrite Hs in Hr.
    destruct Hr; discriminate.
  - intros row s Hc Hin Hs Hk.
    destruct (filter_books df min_rating max_price) as [out|] eqn:E;
      [|reflexivity].
    apply filter_books_spec in E as (_ & Hp & _).
    rewrite Forall_forall in Hp.
    assert (Hin' : row ∈ List.filter
                     (keeps_in (columns df) (rating_test min_rating) "rating")
                     (rows df)).
    { apply list_elem_of_In, filter_In. split; [now apply list_elem_of_In|exact Hk]. }
    specialize (Hp row Hin' Hc).
    unfold numeric_or_missing in Hp. rewrite Hs in Hp.
    destruct Hp; discriminate.
Qed.

Lemma filter_raises_on_text_witness :
  is_Some (filter_books sample_frame MIN_RATING_FILTER MAX_PRICE_FILTER)
  /\ filter_books
       (frame_of [ {[ "rating" := VStr "Five"; "price" := VFloat 20 ]} ])
       MIN_RATING_FILTER MAX_PRICE_FILTER = None.
Proof.
  split.
  - apply (proj1 (filter_raises_on_text sample_frame MIN_RATING_FILTER
                    MAX_PRICE_FILTER)).
    + repeat constructor; vm_compute; eauto.
    + repeat constructor; vm_compute; eauto.
  - apply (proj1 (proj2 (filter_raises_on_text _ MIN_RATING_FILTER
                           MAX_PRICE_FILTER))
             {[ "rating" := VStr "Five"; "price" := VFloat 20 ]} "Five").
    + vm_compute. left.
    + left.
    + vm_compute. reflexivity.
Defined.

Lemma frame_of_columns col books :
  col ∈ columns (frame_of books)
  <-> exists book, book ∈ books /\ is_Some (book !! col).
Proof.
  unfold frame_of. simpl. rewrite elem_of_remove_dups, list_elem_of_bind.
  split.
  - intros (book & Hc & Hb). exists book. split; [exact Hb|].
    apply list_elem_of_fmap in Hc as ([k v] & -> & Hkv).
    apply elem_of_map_to_list in Hkv. simpl. eauto.
  - intros (book & Hb & [v Hv]). exists book. split; [|exact Hb].
    apply list_elem_of_fmap. exists (col, v). split; [reflexivity|].
    now apply elem_of_map_to_list.
Qed.

Lemma schema_passes df min_rating max_price row :
  "rating" ∈ columns df -> "price" ∈ columns df -> book_schema row ->
  passes df min_rating max_price row <-> within_bounds min_rating max_price row.
Proof.
  intros Hcr Hcp (_ & (q & Hq & _) & (n & Hn & _) & _).
  unfold passes, within_bounds. rewrite Hq, Hn. simpl. split.
  - intros [Hr Hp]. destruct (Hr Hcr) as (x & [= <-] & Hx).
    destruct (Hp Hcp) as (y & [= <-] & Hy).
    exists n, q. rewrite Zle_Qle. auto.
  - intros (n' & q' & [= <-] & Hn' & [= <-] & Hq').
    split; intros _; eexists; (split; [reflexivity|]); [|exact Hq'].
    now rewrite <- Zle_Qle.
Qed.

Lemma schema_numeric row :
  book_schema row ->
  numeric_or_missing "rating" row /\ numeric_or_missing "price" row.
Proof.
  intros (_ & (q & Hq & _) & (n & Hn & _) & _).
  unfold numeric_or_missing. rewrite Hq, Hn. simpl. eauto.
Qed.

(** X25. The frame [save_data_locally] builds from the records of
    [scrape_all_pages] always passes the filter without an error, and what
    the filter keeps are exactly the scraped records, in their order, with
    a rating of at least [min_rating] and a price of at most
    [max_price]. *)
Theorem scraped_records_filter (fuel : nat) (web : website)
    (tasks : nat -> task_env) (completion : list nat) (cfg : config)
    (max_pages : option Z) (get_detailed : bool) (out : list record)
    (min_rating : Z) (max_price : Q) :
  scrape_all_pages fuel web tasks completion cfg max_pages get_detailed
  = Some out ->
  exists kept,
    filter_books (fst (save_data_locally out)) min_rating max_price = Some kept
    /\ sublist (rows kept) out
    /\ forall row,
         row ∈ rows kept <-> row ∈ out /\ within_bounds min_rating max_price row.
Proof.
  unfold scrape_all_pages. intros H.
  destruct (crawl fuel web cfg max_pages) as [st|] eqn:Ec; [|discriminate].
  simpl in H. injection H as <-. apply crawl_books_schema in Ec.
  assert (Hs : Forall book_schema
                 (if get_detailed
                  then enrich cfg (books_data st) tasks completion
                  else books_data st))
    by (destruct get_detailed; [now apply enrich_schema|exact Ec]).
  clear Ec. revert Hs.
  generalize (if get_detailed
              then enrich cfg (books_data st) tasks completion
              else books_data st) as out.
  intros [|book out] Hs.
  - exists empty_frame. split; [reflexivity|]. split; [constructor|].
    intros row. simpl. split; [intros Hr|intros [Hr _]];
      now apply elem_of_nil in Hr.
  - change (fst (save_data_locally (book :: out))) with (frame_of (book :: out)).
    pose proof (Forall_inv Hs) as (_ & (q & Hq & _) & (n & Hn & _) & _).
    assert (Hcr : "rating" ∈ columns (frame_of (book :: out))).
    { apply frame_of_columns. exists book. split; [left|eauto]. }
    assert (Hcp : "price" ∈ columns (frame_of (book :: out))).
    { apply frame_of_columns. exists book. split; [left|eauto]. }
    destruct (filter_books_total (frame_of (book :: out)) min_rating max_price)
      as [kept Hk].
    + eapply Forall_impl; [exact Hs|]. intros row Hrow. now apply schema_numeric.
    + eapply Forall_impl; [exact Hs|]. intros row Hrow. now apply schema_numeric.
    + exists kept. split; [exact Hk|].
      destruct (filter_books_rows _ _ _ _ Hk) as (_ & Hsub & Hm).
      split; [exact Hsub|]. intros row. rewrite Hm. simpl. split.
      * intros [Hin Hp]. split; [exact Hin|].
        eapply schema_passes; [exact Hcr|exact Hcp| |exact Hp].
        rewrite Forall_forall in Hs. now apply Hs.
      * intros [Hin Hw]. split; [exact Hin|].
        eapply schema_passes; [exact Hcr|exact Hcp| |exact Hw].
        rewrite Forall_forall in Hs. now apply Hs.
Qed.

Lemma scraped_records_filter_witness :
  scrape_all_pages 4 three_pages sample_tasks [] CUSTOM_CONFIG None false
  = Some sample_catalog_records
  /\ is_Some (filter_books (fst (save_data_locally sample_catalog_records))
                MIN_RATING_FILTER MAX_PRICE_FILTER).
Proof.
  assert (H : scrape_all_pages 4 three_pages sample_tasks [] CUSTOM_CONFIG None
                false = Some sample_catalog_records)
    by (apply is_some_default; vm_compute; reflexivity).
  split; [exact H|].
  destruct (scraped_records_filter _ _ _ _ _ _ _ _ MIN_RATING_FILTER
              MAX_PRICE_FILTER H) as (kept & Hk & _).
  rewrite Hk. eauto.
Defined.
